(** * Vibbo feed integration: a shallow embedding and its checked properties

    The development follows the layout of [custom_components/vibbo]:
    - [Py]          the Python values and built-ins the integration relies on;
    - [Re]          the fragment of [re] used to scrape the login page;
    - [Http]        requests, responses and the client-session monad;
    - [Const]       const.py;
    - [Auth]        auth.py (login-flow walker and organization lookup);
    - [Coordinator] coordinator.py;
    - [Sensor]      sensor.py;
    - [Vol]         the voluptuous validators named by the forms;
    - [ConfigFlow]  config_flow.py.
    Definitions come first, theorems afterwards. *)

From Stdlib Require Import String Ascii.
From Stdlib Require Import ZArith NArith List Bool Lia.
From Stdlib Require Import DecimalString.
From Stdlib Require Import Floats.SpecFloat.
Import ListNotations.

Set Implicit Arguments.
Set Warnings "-register-all".

(* ===================================================================== *)
(** ** Python values and built-ins *)
(* ===================================================================== *)

Module Py.

(** A Python [str] is a sequence of Unicode code points; [len] counts code
    points, not bytes. *)
Definition char := N.
Definition str := list char.

(** ASCII literals of the source. *)
Definition lit (s : string) : str := map N_of_ascii (list_ascii_of_string s).
Arguments lit : simpl never.

(** The double quote and the horizontal ellipsis U+2026. *)
Definition dquote : char := 34%N.
Definition squote : char := 39%N.
Definition ellipsis : char := 8230%N.

Fixpoint str_eqb (a b : str) : bool :=
  match a, b with
  | [], [] => true
  | x :: a', y :: b' => N.eqb x y && str_eqb a' b'
  | _, _ => false
  end.

Fixpoint starts_with (prefix s : str) : bool :=
  match prefix, s with
  | [], _ => true
  | x :: p', y :: s' => N.eqb x y && starts_with p' s'
  | _ :: _, [] => false
  end.

(** [sub in s] on strings. *)
Fixpoint contains_str (sub s : str) : bool :=
  starts_with sub s ||
  match s with
  | [] => false
  | _ :: s' => contains_str sub s'
  end.

(** [str.isspace] on one code point; also the class [\s] of [re] on [str]
    patterns. *)
Definition isspace (c : char) : bool :=
  ((9 <=? c) && (c <=? 13) || (28 <=? c) && (c <=? 32)
   || (c =? 133) || (c =? 160) || (c =? 5760)
   || (8192 <=? c) && (c <=? 8202)
   || (c =? 8232) || (c =? 8233) || (c =? 8239) || (c =? 8287)
   || (c =? 12288))%N.

Fixpoint lstrip (s : str) : str :=
  match s with
  | c :: s' => if isspace c then lstrip s' else s
  | [] => []
  end.

Definition rstrip (s : str) : str := rev (lstrip (rev s)).

(** [s.strip()] *)
Definition strip (s : str) : str := rstrip (lstrip s).

(** [str(n)] for an [int]. *)
Definition str_of_int (n : Z) : str := lit (NilZero.string_of_int (Z.to_int n)).

(** Objects as [json.loads] builds them.  A [dict] is kept as the list of
    its items in insertion order; a decoded dict has one item per key, and
    lookups take the first one. *)
Inductive value : Type :=
| VNone
| VBool (b : bool)
| VInt (n : Z)
| VFloat (f : spec_float)
| VStr (s : str)
| VList (l : list value)
| VDict (d : list (str * value)).

Definition dict := list (str * value).

Inductive exn : Type :=
| UpdateFailed (msg : str)      (* homeassistant UpdateFailed *)
| AuthError (msg : str)         (* auth.AuthError *)
| AbortFlow (reason : str)      (* homeassistant AbortFlow *)
| ClientError (msg : str)       (* any exception of the HTTP client; [str(err)] *)
| TypeError
| AttributeError
| KeyError
| IndexError
| RuntimeError.

Inductive result (A : Type) : Type :=
| Ok (a : A)
| Raise (e : exn).
Arguments Ok {A} a.
Arguments Raise {A} e.

Definition bind {A B} (r : result A) (k : A -> result B) : result B :=
  match r with
  | Ok a => k a
  | Raise e => Raise e
  end.

(** Truth value of an object ([if x:], [not x]). *)
Definition truthy (v : value) : bool :=
  match v with
  | VNone => false
  | VBool b => b
  | VInt n => negb (Z.eqb n 0)
  | VFloat (S754_zero _) => false
  | VFloat _ => true
  | VStr s => match s with [] => false | _ => true end
  | VList l => match l with [] => false | _ => true end
  | VDict d => match d with [] => false | _ => true end
  end.

Definition is_dict (v : value) : bool :=
  match v with VDict _ => true | _ => false end.

Fixpoint lookup (k : str) (d : dict) : option value :=
  match d with
  | [] => None
  | (k', v) :: d' => if str_eqb k k' then Some v else lookup k d'
  end.

(** [d.get(k, default)] on a dict. *)
Definition dict_get (d : dict) (k : str) (default : value) : value :=
  match lookup k d with
  | Some v => v
  | None => default
  end.

(** [v.get(k, default)]: only a dict has the method. *)
Definition get (v : value) (k : str) (default : value) : result value :=
  match v with
  | VDict d => Ok (dict_get d k default)
  | _ => Raise AttributeError
  end.

Definition is_this_str (k : str) (v : value) : bool :=
  match v with VStr s => str_eqb k s | _ => false end.

(** [k in v] for a string [k]: key of a dict, element of a list, substring
    of a string; the other JSON types are no containers. *)
Definition contains (k : str) (v : value) : result bool :=
  match v with
  | VDict d => Ok (match lookup k d with Some _ => true | None => false end)
  | VList l => Ok (existsb (is_this_str k) l)
  | VStr s => Ok (contains_str k s)
  | _ => Raise TypeError
  end.

(** [v[k]] for a string [k]. *)
Definition getitem (v : value) (k : str) : result value :=
  match v with
  | VDict d => match lookup k d with Some x => Ok x | None => Raise KeyError end
  | _ => Raise TypeError
  end.

(** [v[0]]; a decoded dict has string keys only. *)
Definition getitem0 (v : value) : result value :=
  match v with
  | VList (x :: _) => Ok x
  | VList [] => Raise IndexError
  | VStr (c :: _) => Ok (VStr [c])
  | VStr [] => Raise IndexError
  | VDict _ => Raise KeyError
  | _ => Raise TypeError
  end.

(** [len(v)] *)
Definition len (v : value) : result nat :=
  match v with
  | VStr s => Ok (length s)
  | VList l => Ok (length l)
  | VDict d => Ok (length d)
  | _ => Raise TypeError
  end.

(** [v[:n]]; slices are hashable from Python 3.12 on, so slicing a dict is
    a failed key lookup. *)
Definition slice_to (n : nat) (v : value) : result value :=
  match v with
  | VStr s => Ok (VStr (firstn n s))
  | VList l => Ok (VList (firstn n l))
  | VDict _ => Raise KeyError
  | _ => Raise TypeError
  end.

(** [v + s] for a string [s]. *)
Definition add_str (v : value) (s : str) : result value :=
  match v with
  | VStr t => Ok (VStr (t ++ s))
  | _ => Raise TypeError
  end.

(** [for x in v]: the items visited. *)
Definition iter (v : value) : result (list value) :=
  match v with
  | VList l => Ok l
  | VDict d => Ok (map (fun kv => VStr (fst kv)) d)
  | VStr s => Ok (map (fun c => VStr [c]) s)
  | _ => Raise TypeError
  end.

(** Hashable objects (usable as dict keys). *)
Definition hashable (v : value) : bool :=
  match v with
  | VList _ | VDict _ => false
  | _ => true
  end.

Definition signed (neg : bool) (m : positive) : Z :=
  if neg then Z.neg m else Z.pos m.

(** A float is [signed neg m * 2 ^ e]; its comparison with an integer is
    exact. *)
Definition float_ge (f : spec_float) (n : Z) : bool :=
  match f with
  | S754_nan => false
  | S754_infinity neg => negb neg
  | S754_zero _ => (n <=? 0)%Z
  | S754_finite neg m e =>
      if (0 <=? e)%Z then (n <=? signed neg m * 2 ^ e)%Z
      else (n * 2 ^ (- e) <=? signed neg m)%Z
  end.

(** [v >= n] for an integer [n], on the numeric types; [None] stands for
    the [TypeError] of an unordered pair. *)
Definition ge_int (v : value) (n : Z) : option bool :=
  match v with
  | VInt k => Some (n <=? k)%Z
  | VBool b => Some (n <=? (if b then 1 else 0))%Z
  | VFloat f => Some (float_ge f n)
  | _ => None
  end.

Definition float_eq_int (f : spec_float) (n : Z) : bool :=
  match f with
  | S754_zero _ => (n =? 0)%Z
  | S754_finite neg m e =>
      if (0 <=? e)%Z then (signed neg m * 2 ^ e =? n)%Z
      else (signed neg m =? n * 2 ^ (- e))%Z
  | _ => false
  end.

Definition float_eq (f g : spec_float) : bool :=
  match f, g with
  | S754_zero _, S754_zero _ => true
  | S754_infinity a, S754_infinity b => Bool.eqb a b
  | S754_finite a m e, S754_finite b m' e' =>
      let k := Z.min e e' in
      (signed a m * 2 ^ (e - k) =? signed b m' * 2 ^ (e' - k))%Z
  | _, _ => false
  end.

Definition int_of_bool (b : bool) : Z := if b then 1%Z else 0%Z.

(** [a == b] on numbers: [bool] is an [int], ints and floats compare by
    value. *)
Definition num_eq (a b : value) : bool :=
  match a, b with
  | VInt x, VInt y => (x =? y)%Z
  | VInt x, VBool y => (x =? int_of_bool y)%Z
  | VBool x, VInt y => (int_of_bool x =? y)%Z
  | VBool x, VBool y => Bool.eqb x y
  | VFloat f, VInt y => float_eq_int f y
  | VFloat f, VBool y => float_eq_int f (int_of_bool y)
  | VInt x, VFloat g => float_eq_int g x
  | VBool x, VFloat g => float_eq_int g (int_of_bool x)
  | VFloat f, VFloat g => float_eq f g
  | _, _ => false
  end.

(** [a == b] *)
Fixpoint equals (a b : value) {struct a} : bool :=
  match a, b with
  | VNone, VNone => true
  | VStr s, VStr t => str_eqb s t
  | VList l, VList m =>
      (fix all2 (l m : list value) {struct l} : bool :=
         match l, m with
         | [], [] => true
         | x :: l', y :: m' => equals x y && all2 l' m'
         | _, _ => false
         end) l m
  | VDict d, VDict e =>
      Nat.eqb (length d) (length e)
      && forallb (fun kv : str * value =>
                    let (k, v) := kv in
                    match lookup k e with
                    | Some w => equals v w
                    | None => false
                    end) d
  | _, _ => num_eq a b
  end.

(** [v.strip()]: a method of [str]. *)
Definition strip_method (v : value) : result str :=
  match v with
  | VStr s => Ok (strip s)
  | _ => Raise AttributeError
  end.

End Py.

Export Py.

Declare Scope py_scope.
Delimit Scope py_scope with py.
Notation "x <- e ;; k" := (Py.bind e (fun x => k))
  (at level 61, e at next level, right associativity) : py_scope.
Local Open Scope py_scope.

(* ===================================================================== *)
(** ** The fragment of [re] used on the login page *)
(* ===================================================================== *)

Module Re.

(** The patterns of auth.py are sequences of single characters, character
    classes, greedy repetitions of one class, and one capturing group of
    the shape [([class]+)]. *)
Inductive atom : Type :=
| Chr (c : char)                 (* a literal character *)
| Cls (p : char -> bool)         (* [class] *)
| Star (p : char -> bool)        (* [class]* *)
| Plus (p : char -> bool)        (* [class]+ *)
| Opt (p : char -> bool)         (* [class]? *)
| Cap (p : char -> bool).        (* ([class]+), group 1 *)

Definition pattern := list atom.

Definition chars (s : str) : pattern := map Chr s.

(** Greedy repetition with backtracking: take as many characters of the
    class as possible, then give some back until the rest of the pattern
    matches.  [taken] is the text consumed so far, reversed. *)
Fixpoint greedy {A} (p : char -> bool) (s taken : str)
    (k : str -> str -> option A) : option A :=
  match s with
  | c :: s' =>
      if p c then
        match greedy p s' (c :: taken) k with
        | Some r => Some r
        | None => k (rev taken) s
        end
      else k (rev taken) s
  | [] => k (rev taken) []
  end.

(** Match [pat] at the head of [s]; the result is the text of group 1. *)
Fixpoint match_here (pat : pattern) (s : str) (g1 : str) : option str :=
  match pat with
  | [] => Some g1
  | Chr c :: pat' =>
      match s with
      | x :: s' => if N.eqb x c then match_here pat' s' g1 else None
      | [] => None
      end
  | Cls p :: pat' =>
      match s with
      | x :: s' => if p x then match_here pat' s' g1 else None
      | [] => None
      end
  | Star p :: pat' => greedy p s [] (fun _ rest => match_here pat' rest g1)
  | Plus p :: pat' =>
      greedy p s []
        (fun got rest =>
           match got with [] => None | _ => match_here pat' rest g1 end)
  | Opt p :: pat' =>
      match s with
      | x :: s' =>
          if p x then
            match match_here pat' s' g1 with
            | Some r => Some r
            | None => match_here pat' s g1
            end
          else match_here pat' s g1
      | [] => match_here pat' [] g1
      end
  | Cap p :: pat' =>
      greedy p s []
        (fun got rest =>
           match got with [] => None | _ => match_here pat' rest got end)
  end.

(** [re.search(pat, s)], reduced to [m.group(1)] of the leftmost match. *)
Fixpoint search (pat : pattern) (s : str) : option str :=
  match match_here pat s [] with
  | Some g => Some g
  | None =>
      match s with
      | [] => None
      | _ :: s' => search pat s'
      end
  end.

Definition not_dquote (c : char) : bool := negb (N.eqb c dquote).
Definition is_quote (c : char) : bool := N.eqb c squote || N.eqb c dquote.
Definition not_quote (c : char) : bool := negb (is_quote c).
Definition colon_or_eq (c : char) : bool := (N.eqb c 58 || N.eqb c 61)%N.

(** The pattern [Q key Q \s* : \s* Q ([^Q]+) Q], writing Q for the double
    quote. *)
Definition json_field (key : string) : pattern :=
  Chr dquote :: chars (lit key)
  ++ [Chr dquote; Star isspace; Chr 58%N; Star isspace; Chr dquote;
      Cap not_dquote; Chr dquote].

(** [name=Q _csrf Q \s+ value=Q ([^Q]+) Q] *)
Definition csrf_input : pattern :=
  chars (lit "name=") ++ Chr dquote :: chars (lit "_csrf")
  ++ Chr dquote :: Plus isspace :: chars (lit "value=")
  ++ [Chr dquote; Cap not_dquote; Chr dquote].

(** [Q _csrf Q , Q ([^Q]+) Q] *)
Definition csrf_pair : pattern :=
  Chr dquote :: chars (lit "_csrf")
  ++ [Chr dquote; Chr 44%N; Chr dquote; Cap not_dquote; Chr dquote].

(** [_csrf [q]? \s* [:=] \s* [q] ([^q]+)], writing q for either quote. *)
Definition csrf_loose : pattern :=
  chars (lit "_csrf")
  ++ [Opt is_quote; Star isspace; Cls colon_or_eq; Star isspace;
      Cls is_quote; Cap not_quote].

End Re.

(* ===================================================================== *)
(** ** HTTP client sessions *)
(* ===================================================================== *)

Module Http.

Inductive method : Type := GET | POST.

Record Request : Type := {
  meth : method;
  url : str;
  params : list (str * value);      (* [params=] *)
  json : option value;              (* [json=] *)
  headers : list (str * value);     (* [headers=] *)
  allow_redirects : bool;
  timeout : option Z                (* [ClientTimeout(total=...)], seconds *)
}.

(** Reading a response body ([resp.text()], [resp.json()]) may fail. *)
Inductive body (A : Type) : Type :=
| Body (a : A)
| Unreadable (msg : str).
Arguments Body {A} a.
Arguments Unreadable {A} msg.

Record Response : Type := {
  status : Z;
  final_url : str;                  (* [str(resp.url)] after redirects *)
  text : body str;
  json_body : body value
}.

Definition Cookie : Type := (str * str)%type.   (* key, value *)

(** What the network does with one request: the client raises, or a
    response arrives and leaves the cookie jar in some state. *)
Inductive Outcome : Type :=
| NoResponse (msg : str)
| Responds (r : Response) (jar : list Cookie).

(** A client session: the requests issued so far and its cookie jar. *)
Record Session : Type := {
  traffic : list Request;
  cookie_jar : list Cookie
}.

(** A fresh [aiohttp.ClientSession()] on the same network. *)
Definition new_session (sent : list Request) : Session :=
  {| traffic := sent; cookie_jar := [] |}.

(** The surroundings of the integration: the remote servers (their answer
    may depend on everything sent before), the two library functions kept
    abstract, and the host's registry of configured entries. *)
Class Env : Type := {
  server : list Request -> Request -> Outcome;
  (** [repr] of floats, lists and dicts *)
  repr_other : value -> str;
  (** [parse_qs(urlparse(u).query).get(key, [None])[0]] *)
  query_first : str -> str -> option str;
  (** does a config entry with this unique id exist? *)
  configured : value -> bool
}.

(** [str(v)], as an f-string formats [v]. *)
Definition to_str `{Env} (v : value) : str :=
  match v with
  | VStr s => s
  | VNone => lit "None"
  | VBool true => lit "True"
  | VBool false => lit "False"
  | VInt n => str_of_int n
  | _ => repr_other v
  end.

(** Computations on a session that may raise. *)
Definition client (A : Type) : Type := Session -> Session * result A.

Definition ret {A} (a : A) : client A := fun s => (s, Ok a).
Definition raise {A} (e : exn) : client A := fun s => (s, Raise e).
Definition lift {A} (r : result A) : client A := fun s => (s, r).

Definition cbind {A B} (c : client A) (k : A -> client B) : client B :=
  fun s =>
    match c s with
    | (s', Ok a) => k a s'
    | (s', Raise e) => (s', Raise e)
    end.

Definition get_cookie_jar : client (list Cookie) :=
  fun s => (s, Ok (cookie_jar s)).

(** One exchange with the network: the request is on record, and either
    the client's error text or the response comes back. *)
Definition exchange `{Env} (r : Request) (s : Session)
  : Session * (str + Response) :=
  match server (traffic s) r with
  | NoResponse msg =>
      ({| traffic := traffic s ++ [r]; cookie_jar := cookie_jar s |}, inl msg)
  | Responds resp jar =>
      ({| traffic := traffic s ++ [r]; cookie_jar := jar |}, inr resp)
  end.

(** [session.get(...)] / [session.post(...)] *)
Definition request `{Env} (r : Request) : client Response :=
  fun s =>
    match exchange r s with
    | (s', inl msg) => (s', Raise (ClientError msg))
    | (s', inr resp) => (s', Ok resp)
    end.

(** [await resp.text()] / [await resp.json()] *)
Definition read {A} (b : body A) : client A :=
  match b with
  | Body a => ret a
  | Unreadable msg => raise (ClientError msg)
  end.

End Http.

Export Http.

Declare Scope client_scope.
Delimit Scope client_scope with client.
Notation "x <- e ;; k" := (Http.cbind e (fun x => k))
  (at level 61, e at next level, right associativity) : client_scope.
Notation "e ;;; k" := (Http.cbind e (fun _ => k))
  (at level 61, right associativity) : client_scope.

(* ===================================================================== *)
(** ** const.py *)
(* ===================================================================== *)

Module Const.

Definition DOMAIN : str := lit "vibbo".

Definition CONF_COOKIE : str := lit "cookie".
Definition CONF_ORGANIZATION_ID : str := lit "organization_id".
Definition CONF_ORGANIZATION_SLUG : str := lit "organization_slug".
Definition CONF_SCAN_INTERVAL : str := lit "scan_interval".

Definition DEFAULT_SCAN_INTERVAL : Z := 30.
Definition DEFAULT_LIMIT : Z := 10.
Definition DEFAULT_API_VERSION : str := lit "577".

Definition GRAPHQL_URL : str :=
  lit "https://vibbo.no/graphql?name=vibboActivityStream".

Definition GRAPHQL_QUERY : str := lit
"query vibboActivityStream(
  $organizationId: OrganizationID!
  $limit: Int
  $filter: OrganizationActivityFilter
) {
  stream: activityInOrganization(
    organizationId: $organizationId
    limit: $limit
    filter: $filter
  ) {
    items {
      happenedAt
      item {
        __typename
        ... on News {
          slug
          title
          ingress
          pinned
          topics {
            title
          }
          commentsCount
          thumbsUpCount: reactionCount(type: THUMBS_UP)
        }
        ... on Post {
          slug
          title
          body
          category {
            label
          }
          updatedBy {
            firstName
          }
          commentsCount
          thumbsUpCount: reactionCount(type: THUMBS_UP)
        }
      }
    }
  }
}".

Definition FRONTEND_SCRIPT_URL : str := lit "/vibbo/vibbo-feed-card.js".

End Const.

Export Const.

(* ===================================================================== *)
(** ** auth.py *)
(* ===================================================================== *)

Module Auth.

Local Open Scope client_scope.

Definition AUTH0_BASE : str := lit "https://innlogging.obos.no".
Definition VIBBO_BASE : str := lit "https://vibbo.no".
Definition CLIENT_ID : str := lit "XYMlspPsEnOhvvpV6plvaq6UZAT1e6IC".
Definition AUTH0_CLIENT_HEADER : str :=
  lit "eyJuYW1lIjoiYXV0aDAuanMiLCJ2ZXJzaW9uIjoiOS4zMC4wIn0=".
Definition REDIRECT_URI : str := VIBBO_BASE ++ lit "/auth/callback".
Definition AUDIENCE : str := VIBBO_BASE ++ lit "/".
Definition SCOPE : str := lit "openid email phone profile".

Definition VIBBO_ORGANIZATIONS_QUERY : str := lit
"query vibboOrganizations {
  viewer {
    id
    memberships {
      name
      roles
      obosCompanyNumber
      slug: organizationSlug
      vibboEnabled
      cluster
      __typename
    }
    __typename
  }
}".

Definition VIBBO_ORGANIZATION_QUERY : str := lit
"query vibboOrganization($organizationSlug: OrganizationID!) {
  organization(id: $organizationSlug) {
    id
    name
    slug
    __typename
  }
}".

(** The dataclass [Membership]; [org_id] defaults to the empty string,
    [obos_company_number] too, [roles] to the empty list. *)
Record Membership : Type := {
  name : value;
  slug : value;
  org_id : value;
  obos_company_number : value;
  roles : value
}.

Definition new_Membership (name slug obos_company_number roles : value)
  : Membership :=
  {| name := name; slug := slug; org_id := VStr [];
     obos_company_number := obos_company_number; roles := roles |}.

Record AuthSession : Type := {
  state : str;
  csrf : str;
  nonce : str;
  login_url : str
}.

(** The [or]-chain of four searches for the [_csrf] token. *)
Definition find_csrf (html : str) : option str :=
  match Re.search (Re.json_field "_csrf") html with
  | Some g => Some g
  | None =>
    match Re.search Re.csrf_input html with
    | Some g => Some g
    | None =>
      match Re.search Re.csrf_pair html with
      | Some g => Some g
      | None => Re.search Re.csrf_loose html
      end
    end
  end.

Definition nonempty (o : option str) : bool :=
  match o with
  | Some (_ :: _) => true
  | _ => false
  end.

Definition text_of (o : option str) : str :=
  match o with
  | Some x => x
  | None => []
  end.

(** [state] and [nonce]: the query parameter of the final URL, else the
    field of that name in the page. *)
Definition find_param `{Env} (key : string) (final_url html : str)
  : option str :=
  let v := query_first final_url (lit key) in
  if negb (nonempty v) then
    match Re.search (Re.json_field key) html with
    | Some g => Some g
    | None => v
    end
  else v.

Definition login_page_request : Request :=
  {| meth := GET; url := VIBBO_BASE ++ lit "/auth/login";
     params := []; json := None; headers := [];
     allow_redirects := true; timeout := None |}.

Definition start_login `{Env} : client AuthSession :=
  resp <- request login_page_request ;;
  html <- read (text resp) ;;
  let final_url := final_url resp in
  match find_csrf html with
  | None => raise (AuthError (lit "Could not find _csrf token in login page"))
  | Some csrf_match =>
    let state := find_param "state" final_url html in
    if negb (nonempty state) then
      raise (AuthError (lit "Could not find state in login page"))
    else
      let nonce := find_param "nonce" final_url html in
      if negb (nonempty nonce) then
        raise (AuthError (lit "Could not find nonce in login page"))
      else
        ret {| state := text_of state;
               csrf := csrf_match;
               nonce := text_of nonce;
               login_url := final_url |}
  end.

Definition sms_request (auth_session : AuthSession) (phone_number : str)
  : Request :=
  {| meth := POST;
     url := AUTH0_BASE ++ lit "/passwordless/start";
     params := [];
     json := Some (VDict [
       (lit "client_id", VStr CLIENT_ID);
       (lit "connection", VStr (lit "sms"));
       (lit "send", VStr (lit "code"));
       (lit "phone_number", VStr phone_number);
       (lit "authParams", VDict [
          (lit "response_type", VStr (lit "code"));
          (lit "redirect_uri", VStr REDIRECT_URI);
          (lit "scope", VStr SCOPE);
          (lit "audience", VStr AUDIENCE);
          (lit "_csrf", VStr (csrf auth_session));
          (lit "state", VStr (state auth_session));
          (lit "_intstate", VStr (lit "deprecated"));
          (lit "nonce", VStr (nonce auth_session))])]);
     headers := [
       (lit "Auth0-Client", VStr AUTH0_CLIENT_HEADER);
       (lit "Content-Type", VStr (lit "application/json"));
       (lit "Origin", VStr AUTH0_BASE);
       (lit "Referer", VStr (login_url auth_session))];
     allow_redirects := true; timeout := None |}.

Definition request_sms_code `{Env} (auth_session : AuthSession)
    (phone_number : str) : client unit :=
  resp <- request (sms_request auth_session phone_number) ;;
  if negb (status resp =? 200)%Z then
    text <- read (text resp) ;;
    raise (AuthError (lit "Failed to request SMS code: "
                      ++ str_of_int (status resp) ++ lit " " ++ text))
  else ret tt.

(** [phone_number] is annotated [str]; the flow hands over its attribute,
    which is [None] until the first step has run. *)
Definition verify_request (referer : str) (phone_number : value)
    (verification_code : str) : Request :=
  {| meth := POST;
     url := AUTH0_BASE ++ lit "/passwordless/verify";
     params := [];
     json := Some (VDict [
       (lit "connection", VStr (lit "sms"));
       (lit "verification_code", VStr verification_code);
       (lit "phone_number", phone_number);
       (lit "client_id", VStr CLIENT_ID)]);
     headers := [
       (lit "Auth0-Client", VStr AUTH0_CLIENT_HEADER);
       (lit "Content-Type", VStr (lit "application/json"));
       (lit "Origin", VStr AUTH0_BASE);
       (lit "Referer", VStr referer)];
     allow_redirects := true; timeout := None |}.

Definition verify_redirect_request (auth_session : AuthSession)
    (referer : str) (phone_number : value) (verification_code : str)
  : Request :=
  {| meth := GET;
     url := AUTH0_BASE ++ lit "/passwordless/verify_redirect";
     params := [
       (lit "client_id", VStr CLIENT_ID);
       (lit "response_type", VStr (lit "code"));
       (lit "redirect_uri", VStr REDIRECT_URI);
       (lit "scope", VStr SCOPE);
       (lit "audience", VStr AUDIENCE);
       (lit "_csrf", VStr (csrf auth_session));
       (lit "state", VStr (state auth_session));
       (lit "_intstate", VStr (lit "deprecated"));
       (lit "protocol", VStr (lit "oauth2"));
       (lit "nonce", VStr (nonce auth_session));
       (lit "connection", VStr (lit "sms"));
       (lit "phone_number", phone_number);
       (lit "verification_code", VStr verification_code);
       (lit "auth0Client", VStr AUTH0_CLIENT_HEADER)];
     json := None;
     headers := [(lit "Referer", VStr referer)];
     allow_redirects := true; timeout := None |}.

(** The loop over [session.cookie_jar]: the last cookie of each key wins. *)
Fixpoint scan_cookies (jar : list Cookie) (sesid sesid_sig : option str)
  : option str * option str :=
  match jar with
  | [] => (sesid, sesid_sig)
  | (key, v) :: jar' =>
      if str_eqb key (lit "sesid") then scan_cookies jar' (Some v) sesid_sig
      else if str_eqb key (lit "sesid.sig") then scan_cookies jar' sesid (Some v)
      else scan_cookies jar' sesid sesid_sig
  end.

Definition verify_code_and_get_cookie `{Env} (auth_session : AuthSession)
    (phone_number : value) (verification_code : str) : client str :=
  let referer := login_url auth_session in
  resp <- request (verify_request referer phone_number verification_code) ;;
  (if negb (status resp =? 200)%Z then
     text <- read (text resp) ;;
     raise (AuthError (lit "Verification failed: "
                       ++ str_of_int (status resp) ++ lit " " ++ text))
   else ret tt) ;;;
  request (verify_redirect_request auth_session referer phone_number
             verification_code) ;;;
  jar <- get_cookie_jar ;;
  let '(sesid, sesid_sig) := scan_cookies jar None None in
  if negb (nonempty sesid) || negb (nonempty sesid_sig) then
    raise (AuthError
             (lit "Failed to obtain Vibbo session cookies after login"))
  else
    ret (lit "sesid=" ++ text_of sesid ++ lit "; sesid.sig="
         ++ text_of sesid_sig).

Definition graphql_request (cookie : value) (operation_name query : str)
    (variables : option dict) : Request :=
  {| meth := POST;
     url := VIBBO_BASE ++ lit "/graphql?name=" ++ operation_name;
     params := [];
     json := Some (VDict [
       (lit "operationName", VStr operation_name);
       (lit "variables",
        VDict (match variables with Some (kv :: d) => kv :: d | _ => [] end));
       (lit "query", VStr query)]);
     headers := [
       (lit "Content-Type", VStr (lit "application/json"));
       (lit "Cookie", cookie);
       (lit "apollo-require-preflight", VStr (lit "true"))];
     allow_redirects := true; timeout := None |}.

Definition _graphql `{Env} (cookie : value) (operation_name query : str)
    (variables : option dict) : client value :=
  resp <- request (graphql_request cookie operation_name query variables) ;;
  if negb (status resp =? 200)%Z then
    raise (AuthError (lit "GraphQL query " ++ operation_name
                      ++ lit " failed: " ++ str_of_int (status resp)))
  else
    data <- read (json_body resp) ;;
    has_errors <- lift (contains (lit "errors") data) ;;
    if (has_errors : bool) then
      errors <- lift (getitem data (lit "errors")) ;;
      first <- lift (getitem0 errors) ;;
      msg <- lift (get first (lit "message") (VStr (to_str errors))) ;;
      raise (AuthError (lit "GraphQL error: " ++ to_str msg))
    else ret data.

(** The body of the loop over [viewer.get("memberships", [])]. *)
Fixpoint collect_memberships (items : list value)
  : result (list Membership) :=
  match items with
  | [] => Ok []
  | m :: rest =>
      (enabled <- get m (lit "vibboEnabled") VNone ;;
       if truthy enabled then
         name <- getitem m (lit "name") ;;
         slug <- getitem m (lit "slug") ;;
         number <- get m (lit "obosCompanyNumber") (VStr []) ;;
         roles <- get m (lit "roles") (VList []) ;;
         more <- collect_memberships rest ;;
         Ok (new_Membership name slug number roles :: more)
       else collect_memberships rest)%py
  end.

(** What [fetch_organizations] makes of the decoded reply. *)
Definition memberships_of_reply (data : value) : result (list Membership) :=
  (d <- get data (lit "data") (VDict []) ;;
   viewer <- get d (lit "viewer") VNone ;;
   if negb (truthy viewer) then
     Raise (AuthError (lit "No viewer data in response"))
   else
     raw <- get viewer (lit "memberships") (VList []) ;;
     items <- iter raw ;;
     memberships <- collect_memberships items ;;
     match memberships with
     | [] => Raise (AuthError
                (lit "No Vibbo-enabled organizations found for this account"))
     | _ => Ok memberships
     end)%py.

Definition fetch_organizations `{Env} (cookie : value)
  : client (list Membership) :=
  data <- _graphql cookie (lit "vibboOrganizations")
            VIBBO_ORGANIZATIONS_QUERY None ;;
  lift (memberships_of_reply data).

(** What [fetch_organization_id] makes of the decoded reply. *)
Definition organization_id_of_reply `{Env} (slug data : value)
  : result value :=
  (d <- get data (lit "data") (VDict []) ;;
   org <- get d (lit "organization") VNone ;;
   if negb (truthy org) then
     Raise (AuthError (lit "Could not find organization for slug: "
                       ++ to_str slug))
   else
     org_id <- get org (lit "id") VNone ;;
     if negb (truthy org_id) then
       Raise (AuthError (lit "Organization has no ID: " ++ to_str slug))
     else Ok org_id)%py.

Definition fetch_organization_id `{Env} (cookie slug : value)
  : client value :=
  data <- _graphql cookie (lit "vibboOrganization")
            VIBBO_ORGANIZATION_QUERY (Some [(lit "organizationSlug", slug)]) ;;
  lift (organization_id_of_reply slug data).

End Auth.

(* ===================================================================== *)
(** ** coordinator.py *)
(* ===================================================================== *)

Module Coordinator.

Local Open Scope client_scope.

(** The attributes [_async_update_data] reads from the coordinator. *)
Record VibboDataCoordinator : Type := {
  _cookie : value;
  _org_id : value;
  _limit : value;
  _api_version : str
}.

Definition payload (self : VibboDataCoordinator) : dict :=
  [ (lit "operationName", VStr (lit "vibboActivityStream"));
    (lit "variables", VDict [
       (lit "organizationId", _org_id self);
       (lit "limit", _limit self);
       (lit "filter", VStr (lit "ALL"))]);
    (lit "query", VStr GRAPHQL_QUERY) ].

Definition poll_request (self : VibboDataCoordinator) : Request :=
  {| meth := POST;
     url := GRAPHQL_URL;
     params := [];
     json := Some (VDict (payload self));
     headers := [
       (lit "Content-Type", VStr (lit "application/json"));
       (lit "User-Agent", VStr (lit "Home Assistant Vibbo Integration"));
       (lit "Cookie", _cookie self);
       (lit "x-version", VStr (_api_version self))];
     allow_redirects := true;
     timeout := Some 30%Z |}.

(** The condition of the [if] after the [try] block, with the
    short-circuit of [or]. *)
Definition malformed (data : value) : result bool :=
  (if negb (is_dict data) then Ok true
   else
     has_data <- contains (lit "data") data ;;
     if negb has_data then Ok true
     else
       inner <- get data (lit "data") (VDict []) ;;
       has_stream <- contains (lit "stream") inner ;;
       Ok (negb has_stream))%py.

(** What follows the [try] block, on the decoded body. *)
Definition parse_body `{Env} (data : value) : result value :=
  (bad <- malformed data ;;
   if (bad : bool) then
     errors <- (if is_dict data then get data (lit "errors") (VList [])
                else Ok (VList [])) ;;
     if truthy errors then
       first <- getitem0 errors ;;
       msg <- get first (lit "message") errors ;;
       Raise (UpdateFailed (lit "Vibbo API error: " ++ to_str msg))
     else Raise (UpdateFailed (lit "Invalid response from Vibbo API"))
   else
     inner <- getitem data (lit "data") ;;
     stream <- getitem inner (lit "stream") ;;
     get stream (lit "items") (VList []))%py.

(** The [try] block guards the exchange and the decoding of the body: a
    status other than 200 raises [UpdateFailed], which passes through; the
    client raising or the body not decoding is wrapped as [UpdateFailed]. *)
Definition _async_update_data `{Env} (self : VibboDataCoordinator)
  : client value :=
  fun session =>
    match exchange (poll_request self) session with
    | (session', inl err) =>
        (session',
         Raise (UpdateFailed (lit "Error communicating with Vibbo: " ++ err)))
    | (session', inr resp) =>
        if negb (status resp =? 200)%Z then
          (session',
           Raise (UpdateFailed (lit "Vibbo API returned HTTP "
                                ++ str_of_int (status resp))))
        else
          match json_body resp with
          | Unreadable err =>
              (session',
               Raise (UpdateFailed
                        (lit "Error communicating with Vibbo: " ++ err)))
          | Body data => (session', parse_body data)
          end
    end.

End Coordinator.

(* ===================================================================== *)
(** ** sensor.py *)
(* ===================================================================== *)

Module Sensor.

(** [VibboFeedSensor.native_value], on [self.coordinator.data]; [VNone] is
    the snapshot before the first successful refresh. *)
Definition native_value (data : value) : result value :=
  if truthy data then
    first <- getitem0 data ;;
    item <- get first (lit "item") (VDict []) ;;
    title <- get item (lit "title") (VStr (lit "No Data")) ;;
    n <- len title ;;
    if (50 <? n)%nat then
      head <- slice_to 50 title ;;
      add_str head [ellipsis]
    else Ok title
  else Ok (VStr (lit "No Data")).

(** [VibboFeedSensor.extra_state_attributes], on the snapshot and
    [self._entry.data]. *)
Definition extra_state_attributes (data : value) (entry_data : dict) : dict :=
  [ (lit "items", if truthy data then data else VList []);
    (lit "organization_slug",
     dict_get entry_data CONF_ORGANIZATION_SLUG (VStr [])) ].

End Sensor.

(* ===================================================================== *)
(** ** The voluptuous schemas of the forms *)
(* ===================================================================== *)

Module Vol.

Inductive validator : Type :=
| IsStr                                   (* [str] *)
| IsInt                                   (* [int] *)
| Range (min : Z)                         (* [vol.Range(min=...)] *)
| All (vs : list validator)               (* [vol.All(...)] *)
| In (container : list (value * value)).  (* [vol.In(dict)] *)

(** [{k: v}] with arbitrary keys, as a dict comprehension fills it: a key
    already present keeps its place and takes the new value. *)
Fixpoint dict_set (d : list (value * value)) (k v : value)
  : list (value * value) :=
  match d with
  | [] => [(k, v)]
  | (k', v') :: d' =>
      if Py.equals k' k then (k', v) :: d' else (k', v') :: dict_set d' k v
  end.

Definition has_key (d : list (value * value)) (k : value) : bool :=
  existsb (fun kv : value * value => Py.equals (fst kv) k) d.

(** Running a validator: [None] is [vol.Invalid].  [int] accepts [bool],
    a subclass; [Range] wants [v >= min] to hold; [In] wants a hashable
    key of the container. *)
Fixpoint validate (c : validator) (v : value) {struct c} : option value :=
  match c with
  | IsStr => match v with VStr _ => Some v | _ => None end
  | IsInt => match v with VInt _ | VBool _ => Some v | _ => None end
  | Range min =>
      match ge_int v min with
      | Some true => Some v
      | _ => None
      end
  | All vs =>
      (fix chain (vs : list validator) (v : value) {struct vs} : option value :=
         match vs with
         | [] => Some v
         | c' :: vs' =>
             match validate c' v with
             | Some v' => chain vs' v'
             | None => None
             end
         end) vs v
  | In container =>
      if hashable v && has_key container v then Some v else None
  end.

(** [vol.Required(key, default=...): check] *)
Record Required : Type := {
  key : str;
  default : option value;
  check : validator
}.

Definition Schema := list Required.

Fixpoint field_of (schema : Schema) (k : str) : option Required :=
  match schema with
  | [] => None
  | f :: schema' => if str_eqb k (key f) then Some f else field_of schema' k
  end.

(** The items of the submitted dict, each checked by the field of its
    key; a key outside the schema is refused. *)
Fixpoint validate_items (schema : Schema) (items : dict) : option dict :=
  match items with
  | [] => Some []
  | (k, v) :: items' =>
      match field_of schema k with
      | None => None
      | Some f =>
          match validate (check f) v, validate_items schema items' with
          | Some v', Some out => Some ((k, v') :: out)
          | _, _ => None
          end
      end
  end.

(** The fields the submission left out: the default stands in and is
    checked like a submitted value; without a default the key is missing. *)
Fixpoint validate_missing (fields : Schema) (items : dict) : option dict :=
  match fields with
  | [] => Some []
  | f :: fields' =>
      match lookup (key f) items with
      | Some _ => validate_missing fields' items
      | None =>
          match default f with
          | None => None
          | Some dv =>
              match validate (check f) dv, validate_missing fields' items with
              | Some v', Some out => Some ((key f, v') :: out)
              | _, _ => None
              end
          end
      end
  end.

(** [vol.Schema({...})(user_input)] *)
Definition validate_schema (schema : Schema) (user_input : value)
  : option dict :=
  match user_input with
  | VDict items =>
      match validate_items schema items, validate_missing schema items with
      | Some given, Some filled => Some (given ++ filled)
      | _, _ => None
      end
  | _ => None
  end.

End Vol.

(* ===================================================================== *)
(** ** config_flow.py *)
(* ===================================================================== *)

Module ConfigFlow.

Import Auth Vol.

Inductive FlowResult : Type :=
| ShowForm (step_id : str) (data_schema : Schema)
    (errors : list (str * str)) (description_placeholders : list (str * str))
| CreateEntry (title : value) (data : dict) (options : option dict).

(** The attributes of [VibboConfigFlow]; an open [aiohttp] session is its
    cookie jar. *)
Record Flow : Type := {
  _phone_number : option str;
  _session : option (list Cookie);
  _auth_session : option AuthSession;
  _cookie : option str;
  _memberships : list Membership;
  _selected_membership : option Membership;
  unique_id : option value
}.

Definition init : Flow :=
  {| _phone_number := None; _session := None; _auth_session := None;
     _cookie := None; _memberships := []; _selected_membership := None;
     unique_id := None |}.

Definition set_phone_number (self : Flow) (x : option str) : Flow :=
  {| _phone_number := x; _session := _session self;
     _auth_session := _auth_session self; _cookie := _cookie self;
     _memberships := _memberships self;
     _selected_membership := _selected_membership self;
     unique_id := unique_id self |}.

Definition set_session (self : Flow) (x : option (list Cookie)) : Flow :=
  {| _phone_number := _phone_number self; _session := x;
     _auth_session := _auth_session self; _cookie := _cookie self;
     _memberships := _memberships self;
     _selected_membership := _selected_membership self;
     unique_id := unique_id self |}.

Definition set_auth_session (self : Flow) (x : option AuthSession) : Flow :=
  {| _phone_number := _phone_number self; _session := _session self;
     _auth_session := x; _cookie := _cookie self;
     _memberships := _memberships self;
     _selected_membership := _selected_membership self;
     unique_id := unique_id self |}.

Definition set_cookie (self : Flow) (x : option str) : Flow :=
  {| _phone_number := _phone_number self; _session := _session self;
     _auth_session := _auth_session self; _cookie := x;
     _memberships := _memberships self;
     _selected_membership := _selected_membership self;
     unique_id := unique_id self |}.

Definition set_memberships (self : Flow) (x : list Membership) : Flow :=
  {| _phone_number := _phone_number self; _session := _session self;
     _auth_session := _auth_session self; _cookie := _cookie self;
     _memberships := x;
     _selected_membership := _selected_membership self;
     unique_id := unique_id self |}.

Definition set_selected_membership (self : Flow) (x : option Membership)
  : Flow :=
  {| _phone_number := _phone_number self; _session := _session self;
     _auth_session := _auth_session self; _cookie := _cookie self;
     _memberships := _memberships self;
     _selected_membership := x;
     unique_id := unique_id self |}.

Definition set_unique_id (self : Flow) (x : option value) : Flow :=
  {| _phone_number := _phone_number self; _session := _session self;
     _auth_session := _auth_session self; _cookie := _cookie self;
     _memberships := _memberships self;
     _selected_membership := _selected_membership self;
     unique_id := x |}.

(** A step runs on the flow object and the network's record of requests. *)
Definition step (A : Type) : Type :=
  Flow -> list Request -> (Flow * list Request) * result A.

Definition value_of (o : option str) : value :=
  match o with
  | Some s => VStr s
  | None => VNone
  end.

(** [_cleanup_session] *)
Definition _cleanup_session (self : Flow) : Flow := set_session self None.

Definition user_schema : Schema :=
  [ {| key := lit "phone_number"; default := None; check := IsStr |} ].

Definition verify_code_schema : Schema :=
  [ {| key := lit "verification_code"; default := None; check := IsStr |} ].

Definition select_organization_schema (org_options : list (value * value))
  : Schema :=
  [ {| key := lit "organization"; default := None; check := In org_options |} ].

(** The schema shared by the interval step and the options flow. *)
Definition scan_interval_schema (default_interval : value) : Schema :=
  [ {| key := CONF_SCAN_INTERVAL; default := Some default_interval;
       check := All [IsInt; Range 5] |} ].

Definition base_error (e : string) : list (str * str) := [(lit "base", lit e)].

(** [_create_entry_for_membership] *)
Definition _create_entry_for_membership `{Env} (membership : option Membership)
    (scan_interval : value) : step FlowResult :=
  fun self net =>
    match membership with
    | None => ((self, net), Raise AttributeError)
    | Some m =>
        match fetch_organization_id (value_of (_cookie self)) (slug m)
                (new_session net) with
        | (s, Raise e) => ((self, traffic s), Raise e)
        | (s, Ok org_id) =>
            let self := set_unique_id self (Some (slug m)) in
            if configured (slug m) then
              ((self, traffic s), Raise (AbortFlow (lit "already_configured")))
            else
              ((self, traffic s),
               Ok (CreateEntry (name m)
                     [ (CONF_COOKIE, value_of (_cookie self));
                       (CONF_ORGANIZATION_ID, org_id);
                       (CONF_ORGANIZATION_SLUG, slug m) ]
                     (Some [ (CONF_SCAN_INTERVAL, scan_interval) ])))
        end
    end.

(** Step 4: [async_step_options] *)
Definition async_step_options `{Env} (user_input : option dict)
  : step FlowResult :=
  fun self net =>
    let form errors :=
      ShowForm (lit "options")
        (scan_interval_schema (VInt DEFAULT_SCAN_INTERVAL)) errors [] in
    match user_input with
    | Some ui =>
        match getitem (VDict ui) CONF_SCAN_INTERVAL with
        | Raise e => ((self, net), Raise e)
        | Ok scan_interval =>
            match _create_entry_for_membership (_selected_membership self)
                    scan_interval self net with
            | (st, Ok r) => (st, Ok r)
            | (st, Raise (AuthError _)) =>
                (st, Ok (form (base_error "cannot_connect")))
            | (st, Raise _) => (st, Ok (form (base_error "unknown")))
            end
        end
    | None => ((self, net), Ok (form []))
    end.

(** [{m.slug: m.name for m in self._memberships}] *)
Fixpoint org_options (ms : list Membership) (acc : list (value * value))
  : result (list (value * value)) :=
  match ms with
  | [] => Ok acc
  | m :: ms' =>
      if hashable (slug m) then org_options ms' (dict_set acc (slug m) (name m))
      else Raise TypeError
  end.

(** [next(m for m in self._memberships if m.slug == slug)] *)
Fixpoint first_with_slug (ms : list Membership) (s : value)
  : option Membership :=
  match ms with
  | [] => None
  | m :: ms' => if Py.equals (slug m) s then Some m else first_with_slug ms' s
  end.

(** Step 3: [async_step_select_organization].  A [StopIteration] leaving
    a coroutine surfaces as [RuntimeError]. *)
Definition async_step_select_organization `{Env} (user_input : option dict)
  : step FlowResult :=
  fun self net =>
    match user_input with
    | Some ui =>
        match getitem (VDict ui) (lit "organization") with
        | Raise e => ((self, net), Raise e)
        | Ok s =>
            match first_with_slug (_memberships self) s with
            | None => ((self, net), Raise RuntimeError)
            | Some m =>
                async_step_options None
                  (set_selected_membership self (Some m)) net
            end
        end
    | None =>
        match org_options (_memberships self) [] with
        | Raise e => ((self, net), Raise e)
        | Ok opts =>
            ((self, net),
             Ok (ShowForm (lit "select_organization")
                   (select_organization_schema opts) [] []))
        end
    end.

(** The body of the [try] block of [async_step_verify_code]. *)
Definition verify_and_continue `{Env} (code : str) : step FlowResult :=
  fun self net =>
    match _auth_session self, _session self with
    | Some auth_session, Some jar =>
        match verify_code_and_get_cookie auth_session
                (value_of (_phone_number self)) code
                {| traffic := net; cookie_jar := jar |} with
        | (s, Raise e) =>
            ((set_session self (Some (cookie_jar s)), traffic s), Raise e)
        | (s, Ok cookie) =>
            let self := set_cookie self (Some cookie) in
            let self := _cleanup_session self in
            match fetch_organizations (VStr cookie) (new_session (traffic s))
            with
            | (s', Raise e) => ((self, traffic s'), Raise e)
            | (s', Ok memberships) =>
                let self := set_memberships self memberships in
                match memberships with
                | [only] =>
                    async_step_options None
                      (set_selected_membership self (Some only)) (traffic s')
                | _ => async_step_select_organization None self (traffic s')
                end
            end
        end
    | _, _ => ((self, net), Raise AttributeError)
    end.

(** Step 2: [async_step_verify_code] *)
Definition async_step_verify_code `{Env} (user_input : option dict)
  : step FlowResult :=
  fun self net =>
    let form (self : Flow) errors :=
      ShowForm (lit "verify_code") verify_code_schema errors
        [ (lit "phone_number", text_of (_phone_number self)) ] in
    match user_input with
    | Some ui =>
        match (c <- getitem (VDict ui) (lit "verification_code") ;;
               strip_method c) with
        | Raise e => ((self, net), Raise e)
        | Ok code =>
            match verify_and_continue code self net with
            | (st, Ok r) => (st, Ok r)
            | ((self, net), Raise (AuthError err)) =>
                ((self, net),
                 Ok (form self
                       (if contains_str (lit "Verification failed") err
                        then base_error "invalid_code"
                        else base_error "cannot_connect")))
            | ((self, net), Raise _) =>
                let self := _cleanup_session self in
                ((self, net), Ok (form self (base_error "unknown")))
            end
        end
    | None => ((self, net), Ok (form self []))
    end.

(** The phone number as [async_step_user] stores it. *)
Definition normalize_phone (stripped : str) : str :=
  if negb (starts_with (lit "+") stripped) then lit "+47" ++ stripped
  else stripped.

(** The body of the [try] block of [async_step_user]. *)
Definition login_and_request_code `{Env} (phone : str) : step FlowResult :=
  fun self net =>
    let self := set_session self (Some []) in
    match start_login (new_session net) with
    | (s, Raise e) =>
        ((set_session self (Some (cookie_jar s)), traffic s), Raise e)
    | (s, Ok auth_session) =>
        let self := set_auth_session self (Some auth_session) in
        match request_sms_code auth_session phone s with
        | (s', Raise e) =>
            ((set_session self (Some (cookie_jar s')), traffic s'), Raise e)
        | (s', Ok _) =>
            async_step_verify_code None
              (set_session self (Some (cookie_jar s'))) (traffic s')
        end
    end.

(** Step 1: [async_step_user] *)
Definition async_step_user `{Env} (user_input : option dict)
  : step FlowResult :=
  fun self net =>
    let form errors := ShowForm (lit "user") user_schema errors [] in
    match user_input with
    | Some ui =>
        match (p <- getitem (VDict ui) (lit "phone_number") ;;
               strip_method p) with
        | Raise e => ((self, net), Raise e)
        | Ok phone =>
            let phone := normalize_phone phone in
            let self := set_phone_number self (Some phone) in
            match login_and_request_code phone self net with
            | (st, Ok r) => (st, Ok r)
            | ((self, net), Raise (AuthError _)) =>
                ((_cleanup_session self, net),
                 Ok (form (base_error "auth_error")))
            | ((self, net), Raise _) =>
                ((_cleanup_session self, net),
                 Ok (form (base_error "unknown")))
            end
        end
    | None => ((self, net), Ok (form []))
    end.

(** [VibboOptionsFlow], on the options of its config entry. *)
Module VibboOptionsFlow.

Definition async_step_init (entry_options : dict) (user_input : option dict)
  : FlowResult :=
  match user_input with
  | Some ui => CreateEntry (VStr []) ui None
  | None =>
      let current :=
        dict_get entry_options CONF_SCAN_INTERVAL
          (VInt DEFAULT_SCAN_INTERVAL) in
      ShowForm (lit "init") (scan_interval_schema current) [] []
  end.

End VibboOptionsFlow.

(** The host's side of a form: a submission is checked against the schema
    of the form on display, and only checked input reaches the step; [None]
    is the host's refusal of the submission. *)
Definition submit {A} (data_schema : Schema) (user_input : value)
    (handler : option dict -> A) : option A :=
  match validate_schema data_schema user_input with
  | Some checked => Some (handler (Some checked))
  | None => None
  end.

End ConfigFlow.


(* ===================================================================== *)
(** ** __init__.py: version checks and the registration of the card *)
(* ===================================================================== *)

Module Frontend.

(** [s.split(sep)] for a one-character separator: the pieces between the
    separators, at least one. *)
Fixpoint split (sep : char) (s : str) : list str :=
  match s with
  | [] => [[]]
  | c :: s' =>
      if N.eqb c sep then [] :: split sep s'
      else
        match split sep s' with
        | piece :: pieces => (c :: piece) :: pieces
        | [] => [[c]]
        end
  end.

(** [v.split(sep)]: a method of [str]. *)
Definition split_method (v : value) (sep : char) : result (list str) :=
  match v with
  | VStr s => Ok (split sep s)
  | _ => Raise AttributeError
  end.

(** [_card_url]: [digest] is the hex digest of the card file, [None] when
    the file cannot be read. *)
Definition _card_url (digest : option str) : str :=
  FRONTEND_SCRIPT_URL ++ lit "?"
  ++ match digest with
     | Some h => firstn 8 h
     | None => lit "0"
     end.

Section Versions.

(** [int(x)] on a string; [None] is its [ValueError]. *)
Variable int : str -> option Z.

(** [tuple(int(x) for x in parts)] *)
Fixpoint ints (parts : list str) : option (list Z) :=
  match parts with
  | [] => Some []
  | x :: parts' =>
      match int x with
      | None => None
      | Some n =>
          match ints parts' with
          | None => None
          | Some ns => Some (n :: ns)
          end
      end
  end.

Definition _to_tuple (v : str) : option (list Z) :=
  ints (firstn 3 (split 46%N v)).

(** [a >= b] on tuples of integers: the first difference decides, and a
    proper prefix is the smaller one. *)
Fixpoint tuple_ge (a b : list Z) : bool :=
  match a, b with
  | _, [] => true
  | [], _ :: _ => false
  | x :: a', y :: b' => if (x =? y)%Z then tuple_ge a' b' else (y <? x)%Z
  end.

(** [_ha_version_gte], on the running version [HA_VERSION]. *)
Definition _ha_version_gte (HA_VERSION version : str) : option bool :=
  match _to_tuple HA_VERSION with
  | None => None
  | Some running =>
      match _to_tuple version with
      | None => None
      | Some wanted => Some (tuple_ge running wanted)
      end
  end.

(** How a helper reads the host's lovelace object. *)
Inductive access : Type :=
| Attribute (name : str)       (* [lovelace.name] *)
| Subscript (name : str).      (* [lovelace["name"]] *)

(** [_get_lovelace_mode]: the access it returns the value of. *)
Definition _get_lovelace_mode (HA_VERSION : str) : option access :=
  match _ha_version_gte HA_VERSION (lit "2026.2.0") with
  | None => None
  | Some true => Some (Attribute (lit "resource_mode"))
  | Some false =>
      match _ha_version_gte HA_VERSION (lit "2025.2.0") with
      | None => None
      | Some true => Some (Attribute (lit "mode"))
      | Some false => Some (Subscript (lit "mode"))
      end
  end.

(** [_get_lovelace_resources] *)
Definition _get_lovelace_resources (HA_VERSION : str) : option access :=
  match _ha_version_gte HA_VERSION (lit "2025.2.0") with
  | None => None
  | Some true => Some (Attribute (lit "resources"))
  | Some false => Some (Subscript (lit "resources"))
  end.

End Versions.

(** What [_try_register] does to the host's resource collection. *)
Inductive action : Type :=
| Retry                                   (* [async_call_later(hass, 5, ...)] *)
| Keep                                    (* registered with this hash *)
| UpdateItem (id : value) (data : dict)   (* [async_update_item] *)
| CreateItem (data : dict).               (* [async_create_item] *)

Definition resource (card_url : str) : dict :=
  [ (lit "res_type", VStr (lit "module")); (lit "url", VStr card_url) ].

(** The loop over [resources.async_items()] and what follows it. *)
Fixpoint scan_resources (items : list value) (card_url : str)
  : result action :=
  match items with
  | [] => Ok (CreateItem (resource card_url))
  | item :: rest =>
      (url <- getitem item (lit "url") ;;
       pieces <- split_method url 63%N ;;
       if str_eqb (hd [] pieces) FRONTEND_SCRIPT_URL then
         if is_this_str card_url url then Ok Keep
         else
           id <- getitem item (lit "id") ;;
           Ok (UpdateItem id (resource card_url))
       else scan_resources rest card_url)%py
  end.

(** [_try_register], on [resources.loaded] and the items. *)
Definition _try_register (loaded : value) (items : list value)
    (card_url : str) : result action :=
  if negb (truthy loaded) then Ok Retry
  else scan_resources items card_url.

End Frontend.

(* ===================================================================== *)
(** ** Surroundings used to run the model on concrete inputs *)
(* ===================================================================== *)

Module Fixture.

(** A network that answers the n-th request with the n-th outcome of a
    script, and stops answering when the script is over. *)
Definition scripted (answers : list Outcome) : Env :=
  {| server := fun sent _ =>
                 nth (length sent) answers (NoResponse (lit "offline"));
     repr_other := fun _ => lit "<object>";
     query_first := fun _ _ => None;
     configured := fun _ => false |}.

Definition offline : Env := scripted [].

Definition json_response (code : Z) (data : value) : Response :=
  {| status := code; final_url := lit "https://vibbo.no/graphql";
     text := Unreadable (lit "not read"); json_body := Body data |}.

Definition text_response (code : Z) (address body : str) : Response :=
  {| status := code; final_url := address;
     text := Body body; json_body := Unreadable (lit "not JSON") |}.

(** A title of sixty characters. *)
Definition long_title : str := repeat 120%N 60.

Definition snapshot_with_title (t : str) : value :=
  VList [ VDict [ (lit "happenedAt", VStr (lit "2024-01-01"));
                  (lit "item", VDict [ (lit "slug", VStr (lit "a"));
                                       (lit "title", VStr t) ]) ] ].

(** A GraphQL error reply: status 200, no data, one error. *)
Definition error_reply : value :=
  VDict [ (lit "data", VNone);
          (lit "errors",
           VList [ VDict [ (lit "message", VStr (lit "Unauthorized")) ] ]) ].

Definition coordinator : Coordinator.VibboDataCoordinator :=
  {| Coordinator._cookie := VStr (lit "sesid=a; sesid.sig=b");
     Coordinator._org_id := VStr (lit "T3JnYW5pemF0aW9uOi0x");
     Coordinator._limit := VInt DEFAULT_LIMIT;
     Coordinator._api_version := DEFAULT_API_VERSION |}.

(** The login page: a script block whose settings carry the three
    tokens. *)
Definition quoted (s : string) : str := dquote :: lit s ++ [dquote].

Definition login_page : str :=
  lit "<html><script>var config = {" ++ quoted "_csrf" ++ lit ": "
  ++ quoted "tok-1" ++ lit ", " ++ quoted "state" ++ lit " : "
  ++ quoted "st-2" ++ lit "," ++ quoted "nonce" ++ lit ":" ++ quoted "n-3"
  ++ lit "};</script></html>".

Definition login_url : str := lit "https://innlogging.obos.no/login".

Definition auth_session : Auth.AuthSession :=
  {| Auth.state := lit "st-2"; Auth.csrf := lit "tok-1";
     Auth.nonce := lit "n-3"; Auth.login_url := login_url |}.

Definition session_cookies : list Cookie :=
  [ (lit "auth0", lit "x"); (lit "sesid", lit "abc");
    (lit "sesid.sig", lit "def") ].

(** Two memberships, the second one not enabled. *)
Definition organizations_reply : value :=
  VDict [ (lit "data", VDict [ (lit "viewer", VDict [
      (lit "id", VStr (lit "u1"));
      (lit "memberships", VList [
         VDict [ (lit "name", VStr (lit "Solsiden Borettslag"));
                 (lit "roles", VList [ VStr (lit "RESIDENT") ]);
                 (lit "obosCompanyNumber", VStr (lit "123"));
                 (lit "slug", VStr (lit "solsiden"));
                 (lit "vibboEnabled", VBool true) ];
         VDict [ (lit "name", VStr (lit "Skyggesiden Sameie"));
                 (lit "slug", VStr (lit "skyggesiden"));
                 (lit "vibboEnabled", VBool false) ] ]) ]) ]) ].

(** Two enabled memberships. *)
Definition two_organizations_reply : value :=
  VDict [ (lit "data", VDict [ (lit "viewer", VDict [
      (lit "memberships", VList [
         VDict [ (lit "name", VStr (lit "Solsiden Borettslag"));
                 (lit "slug", VStr (lit "solsiden"));
                 (lit "vibboEnabled", VBool true) ];
         VDict [ (lit "name", VStr (lit "Skyggesiden Sameie"));
                 (lit "slug", VStr (lit "skyggesiden"));
                 (lit "vibboEnabled", VBool true) ] ]) ]) ]) ].

(** The network during a successful setup: login page, SMS request,
    verification, redirect chain, organization list. *)
Definition setup_script (organizations : value) : list Outcome :=
  [ Responds (text_response 200 login_url login_page) [(lit "auth0", lit "x")];
    Responds (text_response 200 login_url (lit "{}")) [(lit "auth0", lit "x")];
    Responds (text_response 200 login_url (lit "{}")) [(lit "auth0", lit "x")];
    Responds (text_response 200 (lit "https://vibbo.no/organisasjoner") [])
      session_cookies;
    Responds (json_response 200 organizations) [] ].

(** The same, with the code turned down by the verification request. *)
Definition rejected_script : list Outcome :=
  [ Responds (text_response 200 login_url login_page) [];
    Responds (text_response 200 login_url (lit "{}")) [];
    Responds (text_response 403 login_url (lit "Wrong code")) [] ].

Definition none_enabled_reply : value :=
  VDict [ (lit "data", VDict [ (lit "viewer", VDict [
      (lit "memberships", VList [
         VDict [ (lit "name", VStr (lit "Skyggesiden Sameie"));
                 (lit "slug", VStr (lit "skyggesiden"));
                 (lit "vibboEnabled", VBool false) ] ]) ]) ]) ].

Definition solsiden : Auth.Membership :=
  Auth.new_Membership (VStr (lit "Solsiden Borettslag"))
    (VStr (lit "solsiden")) (VStr (lit "123"))
    (VList [ VStr (lit "RESIDENT") ]).

Definition skyggesiden : Auth.Membership :=
  Auth.new_Membership (VStr (lit "Skyggesiden Sameie"))
    (VStr (lit "skyggesiden")) (VStr []) (VList []).

Definition cookie : str := lit "sesid=abc; sesid.sig=def".

(** A session that has already sent [n] requests. *)
Definition session_after (n : nat) (jar : list Cookie) : Session :=
  {| traffic := repeat Auth.login_page_request n; cookie_jar := jar |}.

Definition organization_reply : value :=
  VDict [ (lit "data", VDict [ (lit "organization", VDict [
      (lit "id", VStr (lit "T3JnYW5pemF0aW9uOi0x"));
      (lit "name", VStr (lit "Solsiden Borettslag"));
      (lit "slug", VStr (lit "solsiden")) ]) ]) ].

(** A flow that has verified the code and selected its membership. *)
Definition flow_at_options : ConfigFlow.Flow :=
  {| ConfigFlow._phone_number := Some (lit "+4799999999");
     ConfigFlow._session := None;
     ConfigFlow._auth_session := Some auth_session;
     ConfigFlow._cookie := Some cookie;
     ConfigFlow._memberships := [solsiden];
     ConfigFlow._selected_membership := Some solsiden;
     ConfigFlow.unique_id := None |}.

(** A flow that has sent the SMS code and waits for it. *)
Definition flow_at_verify : ConfigFlow.Flow :=
  {| ConfigFlow._phone_number := Some (lit "+4799999999");
     ConfigFlow._session := Some [(lit "auth0", lit "x")];
     ConfigFlow._auth_session := Some auth_session;
     ConfigFlow._cookie := None;
     ConfigFlow._memberships := [];
     ConfigFlow._selected_membership := None;
     ConfigFlow.unique_id := None |}.

(** A network like [scripted], on a host where every organization is
    configured already. *)
Definition scripted_configured (answers : list Outcome) : Env :=
  {| server := fun sent _ =>
                 nth (length sent) answers (NoResponse (lit "offline"));
     repr_other := fun _ => lit "<object>";
     query_first := fun _ _ => None;
     configured := fun _ => true |}.

(** Reading a run of ASCII digits as a number. *)
Fixpoint digits (s : str) (acc : Z) : option Z :=
  match s with
  | [] => Some acc
  | c :: s' =>
      if ((48 <=? c) && (c <=? 57))%N
      then digits s' (10 * acc + Z.of_N (c - 48))%Z
      else None
  end.

Definition ascii_int (s : str) : option Z :=
  match s with
  | [] => None
  | _ => digits s 0%Z
  end.

(** A resource collection with somebody else's card and ours under an
    older hash. *)
Definition resources : list value :=
  [ VDict [ (lit "id", VStr (lit "r1")); (lit "res_type", VStr (lit "module"));
            (lit "url", VStr (lit "/hacsfiles/other/other.js?v=1")) ];
    VDict [ (lit "id", VStr (lit "r2")); (lit "res_type", VStr (lit "module"));
            (lit "url", VStr (lit "/vibbo/vibbo-feed-card.js?0123abcd")) ] ].

Definition stream_reply : value :=
  VDict [ (lit "data", VDict [ (lit "stream", VDict [
      (lit "items", snapshot_with_title (lit "Dugnad")) ]) ]) ].

Definition missing_organization_reply : value :=
  VDict [ (lit "data", VDict [ (lit "organization", VNone) ]) ].

Definition unauthorized_reply : dict :=
  [ (lit "errors",
     VList [ VDict [ (lit "message", VStr (lit "Unauthorized")) ] ]) ].

(** A flow that has two memberships to choose from. *)
Definition flow_at_selection : ConfigFlow.Flow :=
  {| ConfigFlow._phone_number := Some (lit "+4799999999");
     ConfigFlow._session := None;
     ConfigFlow._auth_session := Some auth_session;
     ConfigFlow._cookie := Some cookie;
     ConfigFlow._memberships := [solsiden; skyggesiden];
     ConfigFlow._selected_membership := None;
     ConfigFlow.unique_id := None |}.

Definition organization_options : list (value * value) :=
  [ (VStr (lit "solsiden"), VStr (lit "Solsiden Borettslag"));
    (VStr (lit "skyggesiden"), VStr (lit "Skyggesiden Sameie")) ].

Definition entry_data : dict :=
  [ (CONF_COOKIE, VStr cookie);
    (CONF_ORGANIZATION_ID, VStr (lit "T3JnYW5pemF0aW9uOi0x"));
    (CONF_ORGANIZATION_SLUG, VStr (lit "solsiden")) ].

Definition other_resource : value :=
  VDict [ (lit "id", VStr (lit "r1")); (lit "res_type", VStr (lit "module"));
          (lit "url", VStr (lit "/hacsfiles/other/other.js?v=1")) ].

(** A setup in which the code is accepted and the redirect chain, having
    set the session cookies on its way, ends in a server error. *)
Definition failed_redirect_script : list Outcome :=
  [ Responds (text_response 200 login_url login_page) [(lit "auth0", lit "x")];
    Responds (text_response 200 login_url (lit "{}")) [(lit "auth0", lit "x")];
    Responds (text_response 200 login_url (lit "{}")) [(lit "auth0", lit "x")];
    Responds (text_response 500 (lit "https://vibbo.no/organisasjoner")
                (lit "Internal Server Error"))
      session_cookies ].

(** A network that answers the first [n] requests of the setup and then
    goes down. *)
Definition interrupted_script (n : nat) : list Outcome :=
  firstn n (setup_script organizations_reply).

(** A viewer whose memberships field is null. *)
Definition null_memberships_reply : value :=
  VDict [ (lit "data", VDict [ (lit "viewer", VDict [
      (lit "id", VStr (lit "u1"));
      (lit "memberships", VNone) ]) ]) ].

(** A viewer whose only membership is null. *)
Definition null_item_reply : value :=
  VDict [ (lit "data", VDict [ (lit "viewer", VDict [
      (lit "id", VStr (lit "u1"));
      (lit "memberships", VList [ VNone ]) ]) ]) ].

(** The first item of [organizations_reply]. *)
Definition solsiden_item : value :=
  VDict [ (lit "name", VStr (lit "Solsiden Borettslag"));
          (lit "roles", VList [ VStr (lit "RESIDENT") ]);
          (lit "obosCompanyNumber", VStr (lit "123"));
          (lit "slug", VStr (lit "solsiden"));
          (lit "vibboEnabled", VBool true) ].

(** The second item of [organizations_reply]. *)
Definition skyggesiden_item : value :=
  VDict [ (lit "name", VStr (lit "Skyggesiden Sameie"));
          (lit "slug", VStr (lit "skyggesiden"));
          (lit "vibboEnabled", VBool false) ].

End Fixture.

(* ===================================================================== *)
(** ** The vocabulary of the specification *)
(* ===================================================================== *)

Module Spec.

Import Auth.

(** Bodies the check after the [try] block copes with: anything but a
    dict, a dict without the key data, a dict whose data is itself a dict
    without the key stream. *)
Inductive plainly_malformed : value -> Prop :=
| not_a_dict v : is_dict v = false -> plainly_malformed v
| no_data d : lookup (lit "data") d = None -> plainly_malformed (VDict d)
| no_stream d inner :
    lookup (lit "data") d = Some (VDict inner) ->
    lookup (lit "stream") inner = None ->
    plainly_malformed (VDict d).

(** A membership is eligible when its vibboEnabled field is truthy. *)
Definition vibbo_enabled (m : value) : bool :=
  match get m (lit "vibboEnabled") VNone with
  | Ok v => truthy v
  | Raise _ => false
  end.

(** The [Membership] built from one item of the reply. *)
Definition membership_of (m : value) : result Membership :=
  name <- getitem m (lit "name") ;;
  slug <- getitem m (lit "slug") ;;
  number <- get m (lit "obosCompanyNumber") (VStr []) ;;
  roles <- get m (lit "roles") (VList []) ;;
  Ok (new_Membership name slug number roles).

(** The items under data, viewer, memberships of a reply. *)
Definition reply_items (data : value) : result (list value) :=
  d <- get data (lit "data") (VDict []) ;;
  viewer <- get d (lit "viewer") VNone ;;
  if truthy viewer then
    raw <- get viewer (lit "memberships") (VList []) ;;
    iter raw
  else Ok [].

(** The phone number the setup form is meant to use: surrounding
    whitespace stripped, and the prefix +47 unless a plus sign leads. *)
Definition entered_phone (raw : str) : str :=
  let stripped := strip raw in
  match stripped with
  | 43%N :: _ => stripped
  | _ => lit "+47" ++ stripped
  end.

(** The jar holds a cookie of this name. *)
Definition has_cookie (key : str) (jar : list Cookie) : Prop :=
  exists v, In (key, v) jar.

(** A request of the first setup step: the login page, or the SMS
    request for this phone number. *)
Definition first_step_request (phone : str) (r : Request) : Prop :=
  r = login_page_request \/ exists a, r = sms_request a phone.

(** An item of checked input: the interval key with an integer from 5
    on. *)
Definition interval_item (kv : str * value) : Prop :=
  fst kv = CONF_SCAN_INTERVAL /\ exists n, snd kv = VInt n /\ (5 <= n)%Z.

(** The part of a resource URL before its first question mark. *)
Definition url_path (u : str) : str := hd [] (Frontend.split 63%N u).

(** The item is a resource of the card: a dict whose url has the card's
    path. *)
Definition card_item (item : value) : bool :=
  match item with
  | VDict d =>
      match lookup (lit "url") d with
      | Some (VStr u) => str_eqb (url_path u) FRONTEND_SCRIPT_URL
      | _ => false
      end
  | _ => false
  end.

(** A resource item as the host keeps it: a dict with an id and a string
    url. *)
Definition resource_item (item : value) : Prop :=
  exists d u id,
    item = VDict d /\ lookup (lit "url") d = Some (VStr u)
    /\ lookup (lit "id") d = Some id.

(** The exceptions the coordinator's update can end in. *)
Definition update_exception (e : exn) : Prop :=
  match e with
  | UpdateFailed _ | TypeError | AttributeError | KeyError | IndexError => True
  | _ => False
  end.

(** The pattern has a capturing group. *)
Definition has_group (pat : Re.pattern) : bool :=
  existsb (fun a => match a with Re.Cap _ => true | _ => false end) pat.

(** [piece] occurs in [s] as a contiguous run. *)
Definition occurs_in (piece s : str) : Prop :=
  exists pre post, s = pre ++ piece ++ post.

(** The value of the last cookie of this name in the jar. *)
Fixpoint last_cookie (key : str) (jar : list Cookie) : option str :=
  match jar with
  | [] => None
  | (k, v) :: jar' =>
      match last_cookie key jar' with
      | Some w => Some w
      | None => if str_eqb k key then Some v else None
      end
  end.

(** A submitted value below the integer [n]. *)
Definition below (v : value) (n : Z) : Prop := ge_int v n = Some false.

(** The [Membership] holds what this item of the reply holds: its name
    and slug, its company number and roles or their defaults, and no
    organization id. *)
Definition built_from (raw : value) (m : Membership) : Prop :=
  exists d,
    raw = VDict d
    /\ lookup (lit "name") d = Some (name m)
    /\ lookup (lit "slug") d = Some (slug m)
    /\ obos_company_number m = dict_get d (lit "obosCompanyNumber") (VStr [])
    /\ roles m = dict_get d (lit "roles") (VList [])
    /\ org_id m = VStr [].

(** The item is a dict that has a name and a slug. *)
Definition named_item (raw : value) : Prop :=
  exists d n sl,
    raw = VDict d /\ lookup (lit "name") d = Some n
    /\ lookup (lit "slug") d = Some sl.

End Spec.

(* ===================================================================== *)
(** ** Properties of the presentation adapter (sensor.py) *)
(* ===================================================================== *)

Section SensorFacts.

Import Sensor.

(** The display value of a snapshot whose first item carries the title
    [t]. *)
Lemma native_value_of_title (first item : dict) (rest : list value) (t : str) :
  lookup (lit "item") first = Some (VDict item) ->
  lookup (lit "title") item = Some (VStr t) ->
  native_value (VList (VDict first :: rest))
  = Ok (VStr (if (50 <? length t)%nat then firstn 50 t ++ [ellipsis] else t)).
Proof.
  intros Hitem Htitle.
  unfold native_value; cbn [truthy getitem0 Py.bind get].
  unfold dict_get; rewrite Hitem; cbn [Py.bind get].
  unfold dict_get; rewrite Htitle; cbn [Py.bind len].
  destruct (50 <? length t)%nat; reflexivity.
Qed.

(** C2: a title longer than 50 characters is shown as its first 50
    characters followed by one ellipsis character (51 characters in all);
    a title of at most 50 characters is shown unchanged. *)
Theorem native_value_truncates_title
    (first item : dict) (rest : list value) (t : str) :
  lookup (lit "item") first = Some (VDict item) ->
  lookup (lit "title") item = Some (VStr t) ->
  (50 < length t ->
     native_value (VList (VDict first :: rest))
     = Ok (VStr (firstn 50 t ++ [ellipsis]))
     /\ length (firstn 50 t ++ [ellipsis]) = 51)
  /\ (length t <= 50 ->
      native_value (VList (VDict first :: rest)) = Ok (VStr t)).
Proof.
  intros Hitem Htitle.
  rewrite (native_value_of_title first rest Hitem Htitle).
  split; intros Hlen.
  - apply Nat.ltb_lt in Hlen as Hb; rewrite Hb; split; [reflexivity|].
    rewrite length_app, firstn_length_le by lia; reflexivity.
  - destruct (Nat.ltb_spec 50 (length t)); [lia | reflexivity].
Qed.

Lemma native_value_truncates_title_witness :
  native_value (Fixture.snapshot_with_title Fixture.long_title)
  = Ok (VStr (repeat 120%N 50 ++ [ellipsis]))
  /\ native_value (Fixture.snapshot_with_title (lit "Dugnad"))
     = Ok (VStr (lit "Dugnad")).
Proof.
  split.
  - refine (proj1 (proj1 (@native_value_truncates_title
             [ (lit "happenedAt", VStr (lit "2024-01-01"));
               (lit "item", VDict [ (lit "slug", VStr (lit "a"));
                                    (lit "title", VStr Fixture.long_title) ]) ]
             [ (lit "slug", VStr (lit "a"));
               (lit "title", VStr Fixture.long_title) ] [] Fixture.long_title
             eq_refl eq_refl) _)).
    vm_compute; lia.
  - refine (proj2 (@native_value_truncates_title
             [ (lit "happenedAt", VStr (lit "2024-01-01"));
               (lit "item", VDict [ (lit "slug", VStr (lit "a"));
                                    (lit "title", VStr (lit "Dugnad")) ]) ]
             [ (lit "slug", VStr (lit "a"));
               (lit "title", VStr (lit "Dugnad")) ] [] (lit "Dugnad")
             eq_refl eq_refl) _).
    vm_compute; lia.
Defined.

(** C7: an empty item list, or no snapshot at all, is shown as the fixed
    placeholder. *)
Theorem native_value_placeholder :
  native_value (VList []) = Ok (VStr (lit "No Data"))
  /\ native_value VNone = Ok (VStr (lit "No Data")).
Proof. split; reflexivity. Qed.

End SensorFacts.

(* ===================================================================== *)
(** ** Properties of the polling coordinator (coordinator.py) *)
(* ===================================================================== *)

Section CoordinatorFacts.

Import Coordinator Spec.

Context {E : Env}.

Lemma exchange_traffic (r : Request) (s : Session) :
  traffic (fst (exchange r s)) = traffic s ++ [r].
Proof. unfold exchange; destruct (server (traffic s) r); reflexivity. Qed.

(** A poll cycle puts exactly one request on the wire. *)
Lemma update_sends_poll_request (self : VibboDataCoordinator) (s : Session) :
  traffic (fst (_async_update_data self s)) = traffic s ++ [poll_request self].
Proof.
  unfold _async_update_data.
  pose proof (exchange_traffic (poll_request self) s) as Hx.
  destruct (exchange (poll_request self) s) as [s' [err | resp]]; cbn in *.
  - exact Hx.
  - destruct (negb (status resp =? 200)%Z); [exact Hx|].
    destruct (json_body resp); exact Hx.
Qed.

(** C8: every poll cycle issues one request, a POST to the GraphQL
    endpoint whose body carries the fixed query [GRAPHQL_QUERY] and a
    variables mapping with exactly the keys organizationId (the stored
    organization id), limit and filter. *)
Theorem poll_request_is_fixed_query (self : VibboDataCoordinator) (s : Session) :
  traffic (fst (_async_update_data self s)) = traffic s ++ [poll_request self]
  /\ meth (poll_request self) = POST
  /\ url (poll_request self) = GRAPHQL_URL
  /\ exists body variables,
       json (poll_request self) = Some (VDict body)
       /\ lookup (lit "query") body = Some (VStr GRAPHQL_QUERY)
       /\ lookup (lit "variables") body = Some (VDict variables)
       /\ map fst variables = [lit "organizationId"; lit "limit"; lit "filter"]
       /\ lookup (lit "organizationId") variables = Some (_org_id self)
       /\ lookup (lit "limit") variables = Some (_limit self).
Proof.
  split; [apply update_sends_poll_request|].
  split; [reflexivity|]. split; [reflexivity|].
  eexists; eexists; repeat split; reflexivity.
Qed.

(** The outcome of a cycle whose exchange yields status 200 and a
    decodable body is decided by [parse_body]. *)
Lemma update_on_decoded_body (self : VibboDataCoordinator) (s : Session)
    (resp : Response) (jar : list Cookie) (body : value) :
  server (traffic s) (poll_request self) = Responds resp jar ->
  status resp = 200%Z ->
  json_body resp = Body body ->
  snd (_async_update_data self s) = parse_body body.
Proof.
  intros Hsrv Hst Hbody.
  unfold _async_update_data, exchange; rewrite Hsrv, Hst, Hbody; reflexivity.
Qed.

Lemma malformed_plainly (body : value) :
  plainly_malformed body -> malformed body = Ok true.
Proof.
  intros [v Hv | d Hd | d inner Hd Hs]; unfold malformed.
  - rewrite Hv; reflexivity.
  - cbn; rewrite Hd; reflexivity.
  - cbn; unfold dict_get; rewrite Hd; cbn; rewrite Hs; reflexivity.
Qed.

(** X5: on such bodies the cycle fails with [UpdateFailed]: with the first
    error's message when the body lists errors and the first is a dict
    with a message, with a fixed text when it lists none. *)
Lemma update_failed_on_plainly_malformed (body : value) :
  plainly_malformed body ->
  (forall d first rest msg,
      body = VDict d ->
      lookup (lit "errors") d = Some (VList (VDict first :: rest)) ->
      lookup (lit "message") first = Some msg ->
      parse_body body
      = Raise (UpdateFailed (lit "Vibbo API error: " ++ to_str msg)))
  /\ ((forall d, body = VDict d ->
          lookup (lit "errors") d = None
          \/ lookup (lit "errors") d = Some (VList [])) ->
      parse_body body
      = Raise (UpdateFailed (lit "Invalid response from Vibbo API"))).
Proof.
  intros Hbad; apply malformed_plainly in Hbad as Hm.
  unfold parse_body; rewrite Hm; cbn [Py.bind].
  split.
  - intros d first rest msg -> Herr Hmsg.
    cbn; unfold dict_get; rewrite Herr; cbn.
    unfold dict_get; rewrite Hmsg; reflexivity.
  - intros Hnone. destruct body; try reflexivity.
    cbn; unfold dict_get.
    destruct (Hnone d eq_refl) as [-> | ->]; reflexivity.
Qed.

End CoordinatorFacts.

(** C1, where the code falls short: a reply with status 200 whose data is
    null and which lists an error is a malformed body, yet the membership
    test on null raises [TypeError] before the errors are looked at, and
    that is what leaves [_async_update_data], not [UpdateFailed]. *)
Theorem update_on_null_data_raises_TypeError :
  let E := Fixture.scripted
             [ Responds (Fixture.json_response 200 Fixture.error_reply) [] ] in
  snd (@Coordinator._async_update_data E Fixture.coordinator (new_session []))
  = Raise TypeError
  /\ Coordinator.malformed Fixture.error_reply = Raise TypeError.
Proof. split; reflexivity. Qed.

(* ===================================================================== *)
(** ** Properties of the login-flow walker and the lookup (auth.py) *)
(* ===================================================================== *)

Lemma str_eqb_eq (a b : str) : str_eqb a b = true <-> a = b.
Proof.
  revert b; induction a as [|x a IH]; intros [|y b]; cbn; try easy.
  rewrite andb_true_iff, N.eqb_eq, IH.
  split; [intros [-> ->]; reflexivity | intros [= -> ->]; auto].
Qed.

Lemma str_eqb_refl (a : str) : str_eqb a a = true.
Proof. apply str_eqb_eq; reflexivity. Qed.

Section AuthFacts.

Import Auth Spec.

Context {E : Env}.

Lemma request_responds (r : Request) (s : Session) resp jar :
  server (traffic s) r = Responds resp jar ->
  request r s = ({| traffic := traffic s ++ [r]; cookie_jar := jar |}, Ok resp).
Proof. intros H; unfold request, exchange; rewrite H; reflexivity. Qed.

Lemma request_no_response (r : Request) (s : Session) msg :
  server (traffic s) r = NoResponse msg ->
  request r s = ({| traffic := traffic s ++ [r]; cookie_jar := cookie_jar s |},
                 Raise (ClientError msg)).
Proof. intros H; unfold request, exchange; rewrite H; reflexivity. Qed.

(** *** start_login *)

Lemma start_login_on_page (s : Session) resp jar html :
  server (traffic s) login_page_request = Responds resp jar ->
  text resp = Body html ->
  snd (start_login s)
  = match find_csrf html with
    | None =>
        Raise (AuthError (lit "Could not find _csrf token in login page"))
    | Some token =>
        let state := find_param "state" (final_url resp) html in
        let nonce := find_param "nonce" (final_url resp) html in
        if negb (nonempty state) then
          Raise (AuthError (lit "Could not find state in login page"))
        else if negb (nonempty nonce) then
          Raise (AuthError (lit "Could not find nonce in login page"))
        else Ok {| state := text_of state; csrf := token;
                   nonce := text_of nonce; login_url := final_url resp |}
    end.
Proof.
  intros Hsrv Htext.
  unfold start_login, cbind; rewrite (request_responds _ _ Hsrv), Htext.
  cbn [read ret].
  destruct (find_csrf html); [|reflexivity].
  cbn zeta.
  destruct (negb (nonempty (find_param "state" (final_url resp) html)));
    [reflexivity|].
  destruct (negb (nonempty (find_param "nonce" (final_url resp) html)));
    reflexivity.
Qed.

Lemma starts_with_app (p x : str) : starts_with p (p ++ x) = true.
Proof.
  induction p as [|c p IH]; [reflexivity|].
  cbn; rewrite N.eqb_refl; exact IH.
Qed.

Lemma contains_str_prefix (p x : str) : contains_str p (p ++ x) = true.
Proof. destruct (p ++ x) eqn:Heq; cbn; rewrite <- Heq, starts_with_app; reflexivity. Qed.

(** *** verify_code_and_get_cookie *)

Lemma verify_accepted (s : Session) a phone code resp jar resp' jar' :
  server (traffic s) (verify_request (login_url a) phone code)
  = Responds resp jar ->
  status resp = 200%Z ->
  server (traffic s ++ [verify_request (login_url a) phone code])
    (verify_redirect_request a (login_url a) phone code)
  = Responds resp' jar' ->
  snd (verify_code_and_get_cookie a phone code s)
  = let (sesid, sesid_sig) := scan_cookies jar' None None in
    if negb (nonempty sesid) || negb (nonempty sesid_sig) then
      Raise (AuthError
               (lit "Failed to obtain Vibbo session cookies after login"))
    else Ok (lit "sesid=" ++ text_of sesid ++ lit "; sesid.sig="
             ++ text_of sesid_sig).
Proof.
  intros Hsrv Hst Hsrv'; unfold verify_code_and_get_cookie, cbind.
  rewrite (request_responds _ _ Hsrv), Hst; cbn [Z.eqb negb ret Pos.eqb].
  rewrite (request_responds _
             {| traffic := traffic s ++ [verify_request (login_url a) phone code];
                cookie_jar := jar |} Hsrv').
  cbn [get_cookie_jar cookie_jar].
  destruct (scan_cookies jar' None None) as [sesid sesid_sig].
  destruct (negb (nonempty sesid) || negb (nonempty sesid_sig)); reflexivity.
Qed.

(** *** fetch_organizations *)

Lemma fetch_organizations_ok (cookie : value) (s : Session) ms :
  snd (fetch_organizations cookie s) = Ok ms ->
  exists data,
    snd (_graphql cookie (lit "vibboOrganizations")
           VIBBO_ORGANIZATIONS_QUERY None s) = Ok data
    /\ memberships_of_reply data = Ok ms.
Proof.
  unfold fetch_organizations, cbind.
  destruct (_graphql cookie (lit "vibboOrganizations")
              VIBBO_ORGANIZATIONS_QUERY None s) as [s' [data | e]];
    cbn [snd lift]; [|discriminate].
  intros H; exists data; split; [reflexivity | exact H].
Qed.

Lemma fetch_organizations_of_reply (cookie : value) (s : Session) data :
  snd (_graphql cookie (lit "vibboOrganizations")
         VIBBO_ORGANIZATIONS_QUERY None s) = Ok data ->
  snd (fetch_organizations cookie s) = memberships_of_reply data.
Proof.
  unfold fetch_organizations, cbind.
  destruct (_graphql cookie (lit "vibboOrganizations")
              VIBBO_ORGANIZATIONS_QUERY None s) as [s' [d | e]];
    cbn [snd lift]; [|discriminate].
  intros [= ->]; reflexivity.
Qed.

(** The loop keeps the eligible items, in order, and nothing else. *)
Lemma collect_memberships_spec (items : list value) ms :
  collect_memberships items = Ok ms ->
  Forall2 (fun raw m => membership_of raw = Ok m)
    (filter vibbo_enabled items) ms.
Proof.
  revert ms; induction items as [|raw items IH]; intros ms; cbn [collect_memberships].
  - intros [= <-]; constructor.
  - cbn [filter].
    destruct (get raw (lit "vibboEnabled") VNone) as [v|e] eqn:Hget;
      cbn [Py.bind]; [|discriminate].
    assert (Hen : vibbo_enabled raw = truthy v)
      by (unfold vibbo_enabled; rewrite Hget; reflexivity).
    rewrite Hen; destruct (truthy v); [|apply IH].
    destruct (getitem raw (lit "name")) as [n|] eqn:Hn; cbn [Py.bind];
      [|discriminate].
    destruct (getitem raw (lit "slug")) as [sl|] eqn:Hs; cbn [Py.bind];
      [|discriminate].
    destruct (get raw (lit "obosCompanyNumber") (VStr [])) as [num|] eqn:Hnum;
      cbn [Py.bind]; [|discriminate].
    destruct (get raw (lit "roles") (VList [])) as [r|] eqn:Hr; cbn [Py.bind];
      [|discriminate].
    destruct (collect_memberships items) as [more|]; cbn [Py.bind];
      [|discriminate].
    intros [= <-]; constructor; [|apply IH; reflexivity].
    unfold membership_of; rewrite Hn, Hs, Hnum, Hr; reflexivity.
Qed.

Lemma membership_of_fields (raw : value) (m : Membership) :
  membership_of raw = Ok m ->
  exists d,
    raw = VDict d
    /\ lookup (lit "name") d = Some (name m)
    /\ lookup (lit "slug") d = Some (slug m)
    /\ obos_company_number m = dict_get d (lit "obosCompanyNumber") (VStr [])
    /\ roles m = dict_get d (lit "roles") (VList [])
    /\ org_id m = VStr [].
Proof.
  unfold membership_of; destruct raw; try discriminate.
  cbn [getitem get Py.bind].
  destruct (lookup (lit "name") d) as [n|] eqn:Hn; [|discriminate];
    cbn [Py.bind].
  destruct (lookup (lit "slug") d) as [sl|] eqn:Hs; [|discriminate];
    cbn [Py.bind].
  intros [= <-]; exists d; repeat split; assumption.
Qed.

(** Items that are dicts and none of them eligible yield no membership. *)
Lemma collect_memberships_none (items : list value) :
  Forall (fun raw => is_dict raw = true) items ->
  filter vibbo_enabled items = [] ->
  collect_memberships items = Ok [].
Proof.
  induction 1 as [|raw items Hd _ IH]; [reflexivity|].
  cbn [filter collect_memberships]; destruct raw; try discriminate.
  unfold vibbo_enabled at 1; cbn [get Py.bind].
  destruct (truthy (dict_get d (lit "vibboEnabled") VNone)); [discriminate|].
  exact IH.
Qed.

Lemma memberships_of_reply_ok (data : value) ms :
  memberships_of_reply data = Ok ms ->
  ms <> []
  /\ exists items, reply_items data = Ok items
                   /\ collect_memberships items = Ok ms.
Proof.
  unfold memberships_of_reply, reply_items.
  destruct (get data (lit "data") (VDict [])) as [d|]; cbn [Py.bind];
    [|discriminate].
  destruct (get d (lit "viewer") VNone) as [viewer|]; cbn [Py.bind];
    [|discriminate].
  destruct (truthy viewer); cbn [negb]; [|discriminate].
  destruct (get viewer (lit "memberships") (VList [])) as [raw|]; cbn [Py.bind];
    [|discriminate].
  destruct (iter raw) as [items|]; cbn [Py.bind]; [|discriminate].
  destruct (collect_memberships items) as [[|m more]|] eqn:Hcol;
    cbn [Py.bind]; try discriminate.
  intros [= <-]; split; [discriminate|].
  exists items; split; [reflexivity | exact Hcol].
Qed.

Lemma memberships_of_reply_none (data : value) items :
  reply_items data = Ok items ->
  collect_memberships items = Ok [] ->
  memberships_of_reply data
  = Raise (AuthError (lit "No viewer data in response"))
  \/ memberships_of_reply data
     = Raise (AuthError
                (lit "No Vibbo-enabled organizations found for this account")).
Proof.
  unfold memberships_of_reply, reply_items.
  destruct (get data (lit "data") (VDict [])) as [d|]; cbn [Py.bind];
    [|discriminate].
  destruct (get d (lit "viewer") VNone) as [viewer|]; cbn [Py.bind];
    [|discriminate].
  destruct (truthy viewer); cbn [negb]; [|left; reflexivity].
  destruct (get viewer (lit "memberships") (VList [])) as [raw|]; cbn [Py.bind];
    [|discriminate].
  destruct (iter raw) as [its|]; cbn [Py.bind]; [|discriminate].
  intros [= ->] ->; right; reflexivity.
Qed.

End AuthFacts.

Section AuthOnFixtures.

Import Auth Spec Fixture.

(** Where C4 as worded fails: the membership returned for a well-formed
    reply has an empty organization id. *)
Lemma membership_org_id_counterexample :
  snd (@fetch_organizations
         (scripted [Responds (json_response 200 organizations_reply) []])
         (VStr cookie) (new_session [])) = Ok [solsiden]
  /\ truthy (org_id solsiden) = false
  /\ ~ (forall (E : Env) cookie s ms,
          snd (@fetch_organizations E cookie s) = Ok ms ->
          Forall (fun m => truthy (org_id m) = true) ms).
Proof.
  split; [reflexivity|]. split; [reflexivity|].
  intros H.
  specialize (H (scripted [Responds (json_response 200 organizations_reply) []])
                (VStr cookie) (new_session []) [solsiden] eq_refl).
  inversion H as [|m ms Hm _]; discriminate Hm.
Qed.

End AuthOnFixtures.

(* ===================================================================== *)
(** ** Properties of the setup wizard (config_flow.py) *)
(* ===================================================================== *)

(** *** Stripping *)

Lemma lstrip_spec (s : str) :
  exists pre, s = pre ++ lstrip s /\ forallb isspace pre = true.
Proof.
  induction s as [|c s [pre [Hs Hpre]]]; [exists []; split; reflexivity|].
  cbn [lstrip]; destruct (isspace c) eqn:Hc.
  - exists (c :: pre); cbn; rewrite Hc, Hpre, <- Hs; split; reflexivity.
  - exists []; split; reflexivity.
Qed.

Lemma lstrip_head (s : str) c t : lstrip s = c :: t -> isspace c = false.
Proof.
  induction s as [|x s IH]; cbn [lstrip]; [discriminate|].
  destruct (isspace x) eqn:Hx; [exact IH|].
  intros [= <- _]; exact Hx.
Qed.

Lemma forallb_rev {A} (f : A -> bool) (l : list A) :
  forallb f (rev l) = forallb f l.
Proof.
  induction l as [|x l IH]; [reflexivity|].
  cbn; rewrite forallb_app, IH; cbn; rewrite andb_true_r; apply andb_comm.
Qed.

Lemma rstrip_spec (s : str) :
  exists post, s = rstrip s ++ post /\ forallb isspace post = true.
Proof.
  destruct (lstrip_spec (rev s)) as [pre [Hs Hpre]].
  exists (rev pre); unfold rstrip; split.
  - rewrite <- rev_app_distr, <- Hs, rev_involutive; reflexivity.
  - rewrite forallb_rev; exact Hpre.
Qed.

Lemma rstrip_last (s t : str) c : rstrip s = t ++ [c] -> isspace c = false.
Proof.
  unfold rstrip; intros H.
  apply (f_equal (@rev char)) in H.
  rewrite rev_involutive, rev_app_distr in H; cbn in H.
  exact (lstrip_head _ H).
Qed.

(** [strip] removes a run of whitespace at either end and leaves a string
    with none at its ends. *)
Lemma strip_spec (raw : str) :
  (exists pre post,
      raw = pre ++ strip raw ++ post
      /\ forallb isspace pre = true /\ forallb isspace post = true)
  /\ (forall c t, strip raw = c :: t -> isspace c = false)
  /\ (forall t c, strip raw = t ++ [c] -> isspace c = false).
Proof.
  unfold strip.
  destruct (lstrip_spec raw) as [pre [Hraw Hpre]].
  destruct (rstrip_spec (lstrip raw)) as [post [Hl Hpost]].
  repeat split.
  - exists pre, post; rewrite <- Hl; auto.
  - intros c t Hc. rewrite Hc in Hl; cbn in Hl.
    exact (lstrip_head _ Hl).
  - intros t c; apply rstrip_last.
Qed.

Section FlowFacts.

Import Auth Vol ConfigFlow Spec.

Context {E : Env}.

Lemma normalize_phone_entered (raw : str) :
  normalize_phone (strip raw) = entered_phone raw.
Proof.
  unfold normalize_phone, entered_phone.
  destruct (strip raw) as [|c t]; [reflexivity|].
  change (starts_with (lit "+") (c :: t)) with (N.eqb 43 c && true).
  rewrite andb_true_r.
  destruct (N.eqb_spec 43 c) as [<- | Hne]; [reflexivity|].
  cbn [negb]. destruct c as [|p]; [reflexivity|].
  do 6 (destruct p as [p|p|]; try reflexivity); exfalso; apply Hne; reflexivity.
Qed.

Lemma request_traffic (r : Request) (s : Session) :
  traffic (fst (request r s)) = traffic s ++ [r].
Proof.
  unfold request; pose proof (exchange_traffic r s) as H.
  destruct (exchange r s) as [s' [msg | resp]]; exact H.
Qed.

Lemma start_login_traffic (s : Session) :
  traffic (fst (start_login s)) = traffic s ++ [login_page_request].
Proof.
  unfold start_login, cbind.
  pose proof (request_traffic login_page_request s) as H.
  destruct (request login_page_request s) as [s' [resp | e]]; [|exact H].
  destruct (text resp) as [html | msg]; cbn [read ret raise]; [|exact H].
  destruct (find_csrf html); [|exact H]; cbn zeta.
  destruct (negb (nonempty (find_param "state" (final_url resp) html)));
    [exact H|].
  destruct (negb (nonempty (find_param "nonce" (final_url resp) html)));
    exact H.
Qed.

Lemma request_sms_code_traffic (a : AuthSession) (phone : str) (s : Session) :
  traffic (fst (request_sms_code a phone s))
  = traffic s ++ [sms_request a phone].
Proof.
  unfold request_sms_code, cbind.
  pose proof (request_traffic (sms_request a phone) s) as H.
  destruct (request (sms_request a phone) s) as [s' [resp | e]]; [|exact H].
  destruct (negb (status resp =? 200)%Z); [|exact H].
  destruct (text resp); exact H.
Qed.

Lemma verify_step_form (self : Flow) (net : list Request) :
  async_step_verify_code None self net
  = ((self, net),
     Ok (ShowForm (lit "verify_code") verify_code_schema []
           [ (lit "phone_number", text_of (_phone_number self)) ])).
Proof. reflexivity. Qed.

Lemma login_and_request_code_effects (phone : str) (self : Flow)
    (net : list Request) :
  _phone_number (fst (fst (login_and_request_code phone self net)))
  = _phone_number self
  /\ exists sent,
       snd (fst (login_and_request_code phone self net)) = net ++ sent
       /\ Forall (first_step_request phone) sent.
Proof.
  unfold login_and_request_code.
  pose proof (start_login_traffic (new_session net)) as H1.
  destruct (start_login (new_session net)) as [s [a | e]]; cbn [fst snd] in *.
  - pose proof (request_sms_code_traffic a phone s) as H2.
    destruct (request_sms_code a phone s) as [s' [u | e]];
      rewrite ?verify_step_form; cbn [fst snd] in *;
      (split; [reflexivity|]);
      exists [login_page_request; sms_request a phone];
      (split; [rewrite H2, H1, <- app_assoc; reflexivity|]);
      (constructor; [left; reflexivity|]);
      (constructor; [right; exists a; reflexivity|]); constructor.
  - split; [reflexivity|].
    exists [login_page_request]; split; [exact H1|].
    constructor; [left; reflexivity | constructor].
Qed.

(** C10: the first step stores the entered phone number with the
    surrounding whitespace stripped and, unless it then starts with a plus
    sign, with +47 in front; a number that starts with a plus sign is kept
    as stripped.  Every request the step sends is the login page request or
    the SMS request for the number so stored. *)
Theorem user_step_normalizes_phone
    (self : Flow) (net : list Request) (ui : dict) (raw : str) :
  lookup (lit "phone_number") ui = Some (VStr raw) ->
  let after := fst (async_step_user (Some ui) self net) in
  _phone_number (fst after) = Some (entered_phone raw)
  /\ (exists sent,
        snd after = net ++ sent
        /\ Forall (first_step_request (entered_phone raw)) sent)
  /\ (exists pre post,
        raw = pre ++ strip raw ++ post
        /\ forallb isspace pre = true /\ forallb isspace post = true)
  /\ (forall c t, strip raw = c :: t -> isspace c = false)
  /\ (forall t c, strip raw = t ++ [c] -> isspace c = false)
  /\ (starts_with (lit "+") (strip raw) = true ->
      entered_phone raw = strip raw)
  /\ (starts_with (lit "+") (strip raw) = false ->
      entered_phone raw = lit "+47" ++ strip raw).
Proof.
  intros Hui after.
  destruct (strip_spec raw) as [Hcut [Hhead Hlast]].
  assert (Hflow :
    _phone_number (fst after) = Some (entered_phone raw)
    /\ exists sent,
         snd after = net ++ sent
         /\ Forall (first_step_request (entered_phone raw)) sent).
  { subst after; unfold async_step_user; cbn [getitem Py.bind].
    rewrite Hui; cbn [strip_method Py.bind].
    rewrite normalize_phone_entered.
    pose proof (login_and_request_code_effects (entered_phone raw)
                  (set_phone_number self (Some (entered_phone raw))) net)
      as [Hphone Hsent].
    destruct (login_and_request_code (entered_phone raw)
                (set_phone_number self (Some (entered_phone raw))) net)
      as [[self' net'] [r | e]]; cbn [fst snd] in *.
    - split; assumption.
    - destruct e; cbn [fst snd _cleanup_session set_session _phone_number];
        (split; [exact Hphone | exact Hsent]). }
  destruct Hflow as [Hphone Hsent].
  repeat split; try assumption.
  - rewrite <- normalize_phone_entered; unfold normalize_phone.
    intros ->; reflexivity.
  - rewrite <- normalize_phone_entered; unfold normalize_phone.
    intros ->; reflexivity.
Qed.

(** *** The verification step *)

Lemma org_options_hashable (ms : list Membership) acc :
  Forall (fun m => hashable (slug m) = true) ms ->
  exists opts, org_options ms acc = Ok opts.
Proof.
  intros H; revert acc; induction H as [|m ms Hm _ IH]; intros acc;
    cbn [org_options]; [eexists; reflexivity|].
  rewrite Hm; apply IH.
Qed.

(** C5: after an accepted code, a single membership is selected and the
    flow goes straight to the interval form of [async_step_options]; two
    or more memberships (with slugs that can key a dict, as the strings
    they are declared to be) bring up the selection form. *)
Theorem verify_step_single_membership_skips_selection
    (self : Flow) (net : list Request) (ui : dict) (raw : str)
    (auth_session : AuthSession) (jar : list Cookie)
    (s s' : Session) (cookie : str) (ms : list Membership) :
  lookup (lit "verification_code") ui = Some (VStr raw) ->
  _auth_session self = Some auth_session ->
  _session self = Some jar ->
  verify_code_and_get_cookie auth_session (value_of (_phone_number self))
    (strip raw) {| traffic := net; cookie_jar := jar |} = (s, Ok cookie) ->
  fetch_organizations (VStr cookie) (new_session (traffic s)) = (s', Ok ms) ->
  let outcome := async_step_verify_code (Some ui) self net in
  (forall only, ms = [only] ->
      snd outcome
      = Ok (ShowForm (lit "options")
              (scan_interval_schema (VInt DEFAULT_SCAN_INTERVAL)) [] [])
      /\ outcome
         = async_step_options None (fst (fst outcome)) (snd (fst outcome))
      /\ _selected_membership (fst (fst outcome)) = Some only)
  /\ (2 <= length ms ->
      Forall (fun m => hashable (slug m) = true) ms ->
      exists opts,
        org_options ms [] = Ok opts
        /\ snd outcome
           = Ok (ShowForm (lit "select_organization")
                   (select_organization_schema opts) [] [])
        /\ _selected_membership (fst (fst outcome))
           = _selected_membership self).
Proof.
  intros Hui Hauth Hjar Hverify Hfetch outcome.
  assert (Hstep : outcome
    = match ms with
      | [only] =>
          async_step_options None
            (set_selected_membership
               (set_memberships
                  (_cleanup_session (set_cookie self (Some cookie))) ms)
               (Some only)) (traffic s')
      | _ =>
          match async_step_select_organization None
                  (set_memberships
                     (_cleanup_session (set_cookie self (Some cookie))) ms)
                  (traffic s') with
          | (st, Ok r) => (st, Ok r)
          | ((self', net'), Raise (AuthError err)) =>
              ((self', net'),
               Ok (ShowForm (lit "verify_code") verify_code_schema
                     (if contains_str (lit "Verification failed") err
                      then base_error "invalid_code"
                      else base_error "cannot_connect")
                     [ (lit "phone_number", text_of (_phone_number self')) ]))
          | ((self', net'), Raise _) =>
              ((_cleanup_session self', net'),
               Ok (ShowForm (lit "verify_code") verify_code_schema
                     (base_error "unknown")
                     [ (lit "phone_number",
                        text_of (_phone_number (_cleanup_session self'))) ]))
          end
      end).
  { subst outcome; unfold async_step_verify_code; cbn [getitem Py.bind].
    rewrite Hui; cbn [strip_method Py.bind].
    unfold verify_and_continue; rewrite Hauth, Hjar, Hverify, Hfetch.
    destruct ms as [|m [|m' ms']]; reflexivity. }
  split.
  - intros only ->; rewrite Hstep; repeat split; reflexivity.
  - intros Hlen Hhash.
    destruct (org_options_hashable [] Hhash) as [opts Hopts].
    exists opts; split; [exact Hopts|].
    rewrite Hstep.
    destruct ms as [|m [|m' ms']]; cbn [length] in Hlen; try lia.
    unfold async_step_select_organization.
    cbn [_memberships set_memberships]; rewrite Hopts.
    split; reflexivity.
Qed.

(** *** The scan interval *)

(** The check of the interval field lets integers from 5 on through, and
    nothing else. *)
Lemma interval_check_accepts (v v' : value) :
  validate (All [IsInt; Range 5]) v = Some v' ->
  v' = v /\ exists n, v = VInt n /\ (5 <= n)%Z.
Proof.
  cbn [validate].
  destruct v as [| b | n | f | t | l | d]; try discriminate.
  - destruct b; discriminate.
  - cbn [ge_int]; destruct (Z.leb_spec 5 n); [|discriminate].
    intros [= <-]; split; [reflexivity|]; exists n; split; [reflexivity | assumption].
Qed.

Lemma interval_check_rejects_below (v : value) :
  below v 5 -> validate (All [IsInt; Range 5]) v = None.
Proof.
  unfold below; intros Hb.
  destruct (validate (All [IsInt; Range 5]) v) as [v'|] eqn:Hv; [|reflexivity].
  apply interval_check_accepts in Hv as [_ [n [-> Hn]]].
  cbn [ge_int] in Hb; apply Z.leb_le in Hn; rewrite Hn in Hb; discriminate.
Qed.

Lemma validate_items_interval (dflt : value) (items out : dict) :
  validate_items (scan_interval_schema dflt) items = Some out ->
  Forall interval_item out /\ (items <> [] -> out <> []).
Proof.
  revert out; induction items as [|[k v] items IH]; intros out;
    cbn [validate_items].
  - intros [= <-]; split; [constructor | intros H; exact H].
  - cbn [scan_interval_schema field_of key].
    destruct (str_eqb k CONF_SCAN_INTERVAL) eqn:Hk; [|discriminate].
    apply str_eqb_eq in Hk; subst k; cbn [check].
    destruct (validate (All [IsInt; Range 5]) v) as [v'|] eqn:Hv;
      [|discriminate].
    destruct (validate_items (scan_interval_schema dflt) items) as [rest|];
      [|discriminate].
    intros [= <-]. apply interval_check_accepts in Hv as [-> Hn].
    destruct (IH rest eq_refl) as [Hrest _].
    split; [|discriminate].
    constructor; [split; [reflexivity | exact Hn] | exact Hrest].
Qed.

Lemma validate_missing_interval (dflt : value) (items out : dict) :
  validate_missing (scan_interval_schema dflt) items = Some out ->
  Forall interval_item out /\ (items = [] -> out <> []).
Proof.
  cbn [validate_missing scan_interval_schema key default check].
  destruct (lookup CONF_SCAN_INTERVAL items) eqn:Hl.
  - intros [= <-]; split; [constructor|].
    intros ->; discriminate Hl.
  - destruct (validate (All [IsInt; Range 5]) dflt) as [v'|] eqn:Hv;
      [|discriminate].
    intros [= <-]. apply interval_check_accepts in Hv as [-> Hn].
    split; [|discriminate].
    constructor; [split; [reflexivity | exact Hn] | constructor].
Qed.

(** Input that passed the interval schema gives the interval as an
    integer from 5 on. *)
Lemma checked_interval (dflt input : value) (checked : dict) :
  validate_schema (scan_interval_schema dflt) input = Some checked ->
  exists n, lookup CONF_SCAN_INTERVAL checked = Some (VInt n) /\ (5 <= n)%Z.
Proof.
  unfold validate_schema; destruct input as [| | | | | | items]; try discriminate.
  destruct (validate_items (scan_interval_schema dflt) items) as [given|] eqn:Hg;
    [|discriminate].
  destruct (validate_missing (scan_interval_schema dflt) items) as [filled|]
    eqn:Hf; [|discriminate].
  intros [= <-].
  apply validate_items_interval in Hg as [Hg Hgne].
  apply validate_missing_interval in Hf as [Hf Hfne].
  assert (Hall : Forall interval_item (given ++ filled))
    by (apply Forall_app; split; assumption).
  assert (Hne : given ++ filled <> []).
  { destruct items; [|destruct given; [exfalso; apply Hgne; discriminate + reflexivity | discriminate]].
    destruct filled; [exfalso; apply Hfne; reflexivity|].
    destruct given; discriminate. }
  destruct (given ++ filled) as [|[k v] rest]; [contradiction|].
  inversion Hall as [|? ? [Hk [n [Hv Hn]]] _]; cbn [fst snd] in *; subst.
  exists n; cbn [lookup]; rewrite str_eqb_refl; split; [reflexivity | exact Hn].
Qed.

Lemma interval_schema_rejects_below (dflt v : value) :
  below v 5 ->
  validate_schema (scan_interval_schema dflt)
    (VDict [ (CONF_SCAN_INTERVAL, v) ]) = None.
Proof.
  intros Hb; unfold validate_schema.
  cbn [validate_items scan_interval_schema field_of key check].
  rewrite str_eqb_refl; cbn [check].
  rewrite (interval_check_rejects_below Hb); reflexivity.
Qed.

(** C6: a scan interval below 5 is refused by the schema of the interval
    form, in the setup flow and in the options flow alike; since only
    checked input reaches a step, no entry is created with an interval
    under 5 minutes, and no options mapping either. *)
Theorem scan_interval_below_five_rejected :
  (forall self net,
      snd (async_step_options None self net)
      = Ok (ShowForm (lit "options")
              (scan_interval_schema (VInt DEFAULT_SCAN_INTERVAL)) [] []))
  /\ (forall v self net,
        below v 5 ->
        submit (scan_interval_schema (VInt DEFAULT_SCAN_INTERVAL))
          (VDict [ (CONF_SCAN_INTERVAL, v) ])
          (fun ui => async_step_options ui self net) = None)
  /\ (forall input self net st title data options,
        submit (scan_interval_schema (VInt DEFAULT_SCAN_INTERVAL)) input
          (fun ui => async_step_options ui self net)
        = Some (st, Ok (CreateEntry title data options)) ->
        exists n, options = Some [ (CONF_SCAN_INTERVAL, VInt n) ]
                  /\ (5 <= n)%Z)
  /\ (forall entry_options,
        VibboOptionsFlow.async_step_init entry_options None
        = ShowForm (lit "init")
            (scan_interval_schema
               (dict_get entry_options CONF_SCAN_INTERVAL
                  (VInt DEFAULT_SCAN_INTERVAL))) [] [])
  /\ (forall v entry_options current,
        below v 5 ->
        submit (scan_interval_schema current)
          (VDict [ (CONF_SCAN_INTERVAL, v) ])
          (VibboOptionsFlow.async_step_init entry_options) = None)
  /\ (forall input entry_options current title data options,
        submit (scan_interval_schema current) input
          (VibboOptionsFlow.async_step_init entry_options)
        = Some (CreateEntry title data options) ->
        exists n, lookup CONF_SCAN_INTERVAL data = Some (VInt n)
                  /\ (5 <= n)%Z).
Proof.
  repeat apply conj.
  - reflexivity.
  - intros v self net Hb; unfold submit.
    rewrite (interval_schema_rejects_below _ Hb); reflexivity.
  - intros input self net st title data options; unfold submit.
    destruct (validate_schema (scan_interval_schema (VInt DEFAULT_SCAN_INTERVAL))
                input) as [checked|] eqn:Hc; [|discriminate].
    apply checked_interval in Hc as [n [Hl Hn]].
    unfold async_step_options; cbn [getitem]; rewrite Hl.
    unfold _create_entry_for_membership.
    destruct (_selected_membership self) as [m|]; [|discriminate].
    destruct (fetch_organization_id (value_of (_cookie self)) (slug m)
                (new_session net)) as [s' [org_id | e]].
    + destruct (configured (slug m)); [discriminate|].
      intros [= _ _ _ <-]; exists n; split; [reflexivity | exact Hn].
    + destruct e; discriminate.
  - reflexivity.
  - intros v entry_options current Hb; unfold submit.
    rewrite (interval_schema_rejects_below _ Hb); reflexivity.
  - intros input entry_options current title data options; unfold submit.
    destruct (validate_schema (scan_interval_schema current) input)
      as [checked|] eqn:Hc; [|discriminate].
    cbn [VibboOptionsFlow.async_step_init]; intros [= _ <- _].
    exact (checked_interval _ _ Hc).
Qed.

End FlowFacts.

Section FlowOnFixtures.

Import Auth Vol ConfigFlow Spec Fixture.

Lemma user_step_normalizes_phone_witness :
  _phone_number
    (fst (fst (@async_step_user (scripted (setup_script organizations_reply))
                 (Some [ (lit "phone_number", VStr (lit "  99999999 ")) ])
                 ConfigFlow.init [])))
  = Some (lit "+4799999999")
  /\ _phone_number
       (fst (fst (@async_step_user offline
                    (Some [ (lit "phone_number", VStr (lit " +4512345678")) ])
                    ConfigFlow.init [])))
     = Some (lit "+4512345678").
Proof.
  split.
  - exact (proj1 (@user_step_normalizes_phone
                    (scripted (setup_script organizations_reply))
                    ConfigFlow.init []
                    [ (lit "phone_number", VStr (lit "  99999999 ")) ]
                    (lit "  99999999 ") eq_refl)).
  - exact (proj1 (@user_step_normalizes_phone offline ConfigFlow.init []
                    [ (lit "phone_number", VStr (lit " +4512345678")) ]
                    (lit " +4512345678") eq_refl)).
Defined.

Lemma verify_step_single_membership_skips_selection_witness :
  snd (@async_step_verify_code (scripted (setup_script organizations_reply))
         (Some [ (lit "verification_code", VStr (lit " 123456 ")) ])
         flow_at_verify (traffic (session_after 2 [])))
  = Ok (ShowForm (lit "options")
          (scan_interval_schema (VInt DEFAULT_SCAN_INTERVAL)) [] [])
  /\ exists opts,
       snd (@async_step_verify_code
              (scripted (setup_script two_organizations_reply))
              (Some [ (lit "verification_code", VStr (lit " 123456 ")) ])
              flow_at_verify (traffic (session_after 2 [])))
       = Ok (ShowForm (lit "select_organization")
               (select_organization_schema opts) [] []).
Proof.
  split.
  - pose (E := scripted (setup_script organizations_reply)).
    pose (r1 := @verify_code_and_get_cookie E auth_session
                  (VStr (lit "+4799999999")) (strip (lit " 123456 "))
                  (session_after 2 [(lit "auth0", lit "x")])).
    pose (r2 := @fetch_organizations E (VStr cookie)
                  (new_session (traffic (fst r1)))).
    refine (proj1 (proj1 (@verify_step_single_membership_skips_selection
              E flow_at_verify (traffic (session_after 2 []))
              [ (lit "verification_code", VStr (lit " 123456 ")) ]
              (lit " 123456 ") auth_session [(lit "auth0", lit "x")]
              (fst r1) (fst r2) cookie [solsiden]
              eq_refl eq_refl eq_refl _ _) solsiden eq_refl)).
    + vm_compute; reflexivity.
    + vm_compute; reflexivity.
  - pose (E := scripted (setup_script two_organizations_reply)).
    pose (r1 := @verify_code_and_get_cookie E auth_session
                  (VStr (lit "+4799999999")) (strip (lit " 123456 "))
                  (session_after 2 [(lit "auth0", lit "x")])).
    pose (r2 := @fetch_organizations E (VStr cookie)
                  (new_session (traffic (fst r1)))).
    destruct (proj2 (@verify_step_single_membership_skips_selection
              E flow_at_verify (traffic (session_after 2 []))
              [ (lit "verification_code", VStr (lit " 123456 ")) ]
              (lit " 123456 ") auth_session [(lit "auth0", lit "x")]
              (fst r1) (fst r2) cookie
              [ new_Membership (VStr (lit "Solsiden Borettslag"))
                  (VStr (lit "solsiden")) (VStr []) (VList []);
                skyggesiden ]
              eq_refl eq_refl eq_refl
              ltac:(vm_compute; reflexivity) ltac:(vm_compute; reflexivity))
              ltac:(cbn; lia) ltac:(repeat constructor))
      as [opts [_ [Hform _]]].
    exists opts; exact Hform.
Defined.

Lemma scan_interval_below_five_rejected_witness :
  submit (scan_interval_schema (VInt DEFAULT_SCAN_INTERVAL))
    (VDict [ (CONF_SCAN_INTERVAL, VInt 3) ])
    (fun ui => @async_step_options offline ui flow_at_options []) = None
  /\ submit (scan_interval_schema (VInt 30))
       (VDict [ (CONF_SCAN_INTERVAL, VInt 4) ])
       (VibboOptionsFlow.async_step_init [ (CONF_SCAN_INTERVAL, VInt 30) ])
     = None
  /\ (exists st title data options n,
        submit (scan_interval_schema (VInt DEFAULT_SCAN_INTERVAL))
          (VDict [ (CONF_SCAN_INTERVAL, VInt 10) ])
          (fun ui => @async_step_options
                       (scripted
                          [Responds (json_response 200 organization_reply) []])
                       ui flow_at_options [])
        = Some (st, Ok (CreateEntry title data options))
        /\ options = Some [ (CONF_SCAN_INTERVAL, VInt n) ] /\ (5 <= n)%Z).
Proof.
  repeat apply conj.
  - exact (proj1 (proj2 (@scan_interval_below_five_rejected offline))
             (VInt 3) flow_at_options [] eq_refl).
  - exact (proj1 (proj2 (proj2 (proj2 (proj2
             (@scan_interval_below_five_rejected offline)))))
             (VInt 4) [ (CONF_SCAN_INTERVAL, VInt 30) ] (VInt 30) eq_refl).
  - assert (Hrun : exists st title data options,
        submit (scan_interval_schema (VInt DEFAULT_SCAN_INTERVAL))
          (VDict [ (CONF_SCAN_INTERVAL, VInt 10) ])
          (fun ui => @async_step_options
                       (scripted
                          [Responds (json_response 200 organization_reply) []])
                       ui flow_at_options [])
        = Some (st, Ok (CreateEntry title data options)))
      by (do 4 eexists; vm_compute; reflexivity).
    destruct Hrun as [st [title [data [options Hrun]]]].
    destruct (proj1 (proj2 (proj2 (@scan_interval_below_five_rejected
                (scripted [Responds (json_response 200 organization_reply) []]))))
                _ _ _ _ _ _ _ Hrun) as [n [Ho Hn]].
    exists st, title, data, options, n; repeat split; assumption.
Defined.

End FlowOnFixtures.

(* ===================================================================== *)
(** ** Further properties of the coordinator and the sensor *)
(* ===================================================================== *)

Lemma get_raises (v : value) (k : str) (d : value) (e : exn) :
  get v k d = Raise e -> e = AttributeError.
Proof. destruct v; cbn; intros H; inversion H; reflexivity. Qed.

Lemma getitem_raises (v : value) (k : str) (e : exn) :
  getitem v k = Raise e -> e = TypeError \/ e = KeyError.
Proof.
  destruct v; cbn; try (intros [= <-]; left; reflexivity).
  destruct (lookup k d); [discriminate|]; intros [= <-]; right; reflexivity.
Qed.

Lemma getitem0_raises (v : value) (e : exn) :
  getitem0 v = Raise e -> e = TypeError \/ e = KeyError \/ e = IndexError.
Proof.
  destruct v as [| | | | [|c s] | [|x l] | d]; cbn; try discriminate;
    intros [= <-]; auto.
Qed.

Lemma contains_raises (k : str) (v : value) (e : exn) :
  contains k v = Raise e -> e = TypeError.
Proof. destruct v; cbn; intros H; inversion H; reflexivity. Qed.

Section CoordinatorMore.

Import Coordinator Spec.

Context {E : Env}.

(** X1: a status other than 200 ends the cycle with [UpdateFailed] naming the
    status, whatever the body is and whether or not it can be decoded. *)
Theorem update_fails_on_status (self : VibboDataCoordinator) (s : Session)
    (resp : Response) (jar : list Cookie) :
  server (traffic s) (poll_request self) = Responds resp jar ->
  status resp <> 200%Z ->
  snd (_async_update_data self s)
  = Raise (UpdateFailed (lit "Vibbo API returned HTTP "
                         ++ str_of_int (status resp))).
Proof.
  intros Hsrv Hst; unfold _async_update_data, exchange; rewrite Hsrv.
  apply Z.eqb_neq in Hst; rewrite Hst; reflexivity.
Qed.

(** X2: a failure of the exchange itself, or of decoding the body of a 200
    reply, is reported as [UpdateFailed] with the text of the failure. *)
Theorem update_wraps_communication_errors
    (self : VibboDataCoordinator) (s : Session) (msg : str) :
  (server (traffic s) (poll_request self) = NoResponse msg ->
   snd (_async_update_data self s)
   = Raise (UpdateFailed (lit "Error communicating with Vibbo: " ++ msg)))
  /\ (forall resp jar,
        server (traffic s) (poll_request self) = Responds resp jar ->
        status resp = 200%Z ->
        json_body resp = Unreadable msg ->
        snd (_async_update_data self s)
        = Raise (UpdateFailed (lit "Error communicating with Vibbo: " ++ msg))).
Proof.
  split.
  - intros Hsrv; unfold _async_update_data, exchange; rewrite Hsrv; reflexivity.
  - intros resp jar Hsrv Hst Hbody.
    unfold _async_update_data, exchange; rewrite Hsrv, Hst, Hbody; reflexivity.
Qed.

(** X3: a 200 reply whose data holds a stream object yields the items of the
    stream, and the empty list when the stream has no items key. *)
Theorem update_returns_stream_items
    (self : VibboDataCoordinator) (s : Session) (resp : Response)
    (jar : list Cookie) (body inner stream : dict) :
  server (traffic s) (poll_request self) = Responds resp jar ->
  status resp = 200%Z ->
  json_body resp = Body (VDict body) ->
  lookup (lit "data") body = Some (VDict inner) ->
  lookup (lit "stream") inner = Some (VDict stream) ->
  snd (_async_update_data self s)
  = Ok (match lookup (lit "items") stream with
        | Some items => items
        | None => VList []
        end).
Proof.
  intros Hsrv Hst Hbody Hdata Hstream.
  rewrite (update_on_decoded_body _ _ Hsrv Hst Hbody).
  unfold parse_body, malformed; cbn [is_dict negb contains Py.bind].
  rewrite Hdata; cbn [negb Py.bind get]; unfold dict_get at 1; rewrite Hdata.
  cbn [contains Py.bind]; rewrite Hstream; cbn [negb Py.bind getitem].
  rewrite Hdata; cbn [Py.bind getitem]; rewrite Hstream; reflexivity.
Qed.

Lemma malformed_raises (data : value) (e : exn) :
  malformed data = Raise e -> e = TypeError.
Proof.
  unfold malformed; destruct data as [| | | | | | d]; try discriminate.
  cbn [is_dict negb contains Py.bind get].
  destruct (lookup (lit "data") d); cbn [negb Py.bind]; [|discriminate].
  destruct (contains (lit "stream") (dict_get d (lit "data") (VDict [])))
    as [b|e'] eqn:Hc; cbn [Py.bind]; [discriminate|].
  intros [= <-]; exact (contains_raises _ _ Hc).
Qed.

Lemma parse_body_raises (data : value) (e : exn) :
  parse_body data = Raise e -> update_exception e.
Proof.
  unfold parse_body.
  destruct (malformed data) as [bad|e'] eqn:Hm; cbn [Py.bind].
  - destruct bad.
    + destruct (if is_dict data then get data (lit "errors") (VList [])
                else Ok (VList [])) as [errors|e'] eqn:He; cbn [Py.bind].
      * destruct (truthy errors); [|intros [= <-]; exact I].
        destruct (getitem0 errors) as [first|e'] eqn:H0; cbn [Py.bind].
        -- destruct (get first (lit "message") errors) as [msg|e'] eqn:Hg;
             cbn [Py.bind]; intros [= <-]; [exact I|].
           rewrite (get_raises _ _ _ Hg); exact I.
        -- intros [= <-].
           destruct (getitem0_raises _ H0) as [-> | [-> | ->]]; exact I.
      * intros [= <-]. destruct (is_dict data); [|discriminate].
        rewrite (get_raises _ _ _ He); exact I.
    + destruct (getitem data (lit "data")) as [inner|e'] eqn:H1; cbn [Py.bind].
      * destruct (getitem inner (lit "stream")) as [stream|e'] eqn:H2;
          cbn [Py.bind]; intros H.
        -- rewrite (get_raises _ _ _ H); exact I.
        -- injection H as <-.
           destruct (getitem_raises _ _ H2) as [-> | ->]; exact I.
      * intros [= <-]; destruct (getitem_raises _ _ H1) as [-> | ->]; exact I.
  - intros [= <-]; rewrite (malformed_raises _ Hm); exact I.
Qed.

(** X4: whatever the network does, an exception leaving the update is
    [UpdateFailed] or one of the built-in errors of taking the body apart;
    the client's own exceptions never get through. *)
Theorem update_never_lets_client_errors_through
    (self : VibboDataCoordinator) (s : Session) (e : exn) :
  snd (_async_update_data self s) = Raise e ->
  update_exception e /\ forall msg, e <> ClientError msg.
Proof.
  intros H.
  assert (Hu : update_exception e).
  { revert H; unfold _async_update_data.
    destruct (exchange (poll_request self) s) as [s' [err | resp]]; cbn [snd].
    - intros [= <-]; exact I.
    - destruct (negb (status resp =? 200)%Z); cbn [snd];
        [intros [= <-]; exact I|].
      destruct (json_body resp); cbn [snd];
        [apply parse_body_raises | intros [= <-]; exact I]. }
  split; [exact Hu|]; intros msg ->; exact Hu.
Qed.

End CoordinatorMore.

Section SensorMore.

Import Sensor.

(** X6: the display value, when it is a string, never exceeds 51
    characters. *)
Theorem native_value_at_most_51 (data : value) (shown : str) :
  native_value data = Ok (VStr shown) -> length shown <= 51.
Proof.
  unfold native_value; destruct (truthy data).
  - destruct (getitem0 data) as [first|]; cbn [Py.bind]; [|discriminate].
    destruct (get first (lit "item") (VDict [])) as [item|]; cbn [Py.bind];
      [|discriminate].
    destruct (get item (lit "title") (VStr (lit "No Data"))) as [title|];
      cbn [Py.bind]; [|discriminate].
    destruct title as [| | | | t | l | d]; cbn [len Py.bind]; try discriminate.
    + destruct (Nat.ltb_spec 50 (length t)) as [Hlt | Hle].
      * unfold slice_to; set (head := firstn 50 t).
        cbn [Py.bind add_str]; intros [= <-].
        rewrite length_app; subst head; rewrite length_firstn.
        cbn [length]; lia.
      * intros [= <-]; lia.
    + destruct (50 <? length l); [discriminate | discriminate].
    + destruct (50 <? length d); [discriminate | discriminate].
  - intros [= <-]; vm_compute; lia.
Qed.

(** X7: a first entry without an item, or an item without a title, is shown
    as the placeholder; an item that is null makes the property raise. *)
Theorem native_value_without_title (first : dict) (rest : list value) :
  (lookup (lit "item") first = None ->
   native_value (VList (VDict first :: rest)) = Ok (VStr (lit "No Data")))
  /\ (forall item,
        lookup (lit "item") first = Some (VDict item) ->
        lookup (lit "title") item = None ->
        native_value (VList (VDict first :: rest)) = Ok (VStr (lit "No Data")))
  /\ (lookup (lit "item") first = Some VNone ->
      native_value (VList (VDict first :: rest)) = Raise AttributeError).
Proof.
  unfold native_value; cbn [truthy getitem0 Py.bind get]; unfold dict_get.
  repeat split.
  - intros ->; reflexivity.
  - intros item -> Htitle; cbn [Py.bind get]; unfold dict_get.
    rewrite Htitle; reflexivity.
  - intros ->; reflexivity.
Qed.

End SensorMore.

(* ===================================================================== *)
(** ** Further properties of auth.py *)
(* ===================================================================== *)

Section GraphqlFacts.

Import Auth Spec.

Context {E : Env}.


(** X9: a reply handed back by [_graphql] came with status 200 and has no
    errors entry. *)
Theorem graphql_result_has_no_errors (cookie : value)
    (operation_name query : str) (variables : option dict) (s : Session)
    (data : value) :
  snd (_graphql cookie operation_name query variables s) = Ok data ->
  contains (lit "errors") data = Ok false
  /\ exists resp jar,
       server (traffic s)
         (graphql_request cookie operation_name query variables)
       = Responds resp jar
       /\ status resp = 200%Z /\ json_body resp = Body data.
Proof.
  unfold _graphql, cbind, request, exchange.
  destruct (server (traffic s)
              (graphql_request cookie operation_name query variables))
    as [msg | resp jar]; cbn [snd]; [discriminate|].
  destruct (Z.eqb_spec (status resp) 200) as [Hst | Hst]; cbn [negb];
    [|discriminate].
  destruct (json_body resp) as [body | msg] eqn:Hbody; cbn [read ret raise];
    [|discriminate].
  cbn [lift].
  destruct (contains (lit "errors") body) as [[|]|e] eqn:Hc; cbn [snd].
  - destruct (getitem body (lit "errors")) as [errors|]; cbn [snd];
      [|discriminate].
    destruct (getitem0 errors) as [first|]; cbn [snd]; [|discriminate].
    destruct (get first (lit "message") (VStr (to_str errors)));
      cbn [snd]; discriminate.
  - intros [= <-]; split; [exact Hc|].
    exists resp, jar; repeat split; assumption.
  - discriminate.
Qed.

(** X10: a 200 reply with an errors list ends the call: with an [AuthError]
    carrying the first error's message (the whole list as text when it has
    none), and with [IndexError] when the list is empty. *)
Theorem graphql_reports_errors (cookie : value) (operation_name query : str)
    (variables : option dict) (s : Session) (resp : Response)
    (jar : list Cookie) (body : dict) :
  server (traffic s) (graphql_request cookie operation_name query variables)
  = Responds resp jar ->
  status resp = 200%Z ->
  json_body resp = Body (VDict body) ->
  (forall first rest,
      lookup (lit "errors") body = Some (VList (VDict first :: rest)) ->
      snd (_graphql cookie operation_name query variables s)
      = Raise (AuthError
                 (lit "GraphQL error: "
                  ++ to_str (dict_get first (lit "message")
                               (VStr (to_str (VList (VDict first :: rest))))))))
  /\ (lookup (lit "errors") body = Some (VList []) ->
      snd (_graphql cookie operation_name query variables s)
      = Raise IndexError).
Proof.
  intros Hsrv Hst Hbody; unfold _graphql, cbind.
  rewrite (request_responds _ _ Hsrv), Hst, Hbody.
  cbn [Z.eqb Pos.eqb negb read ret lift contains getitem].
  split.
  - intros first rest ->; reflexivity.
  - intros ->; reflexivity.
Qed.

(** *** fetch_organization_id *)

Lemma fetch_organization_id_of_reply (cookie slug : value) (s : Session) :
  snd (fetch_organization_id cookie slug s)
  = match snd (_graphql cookie (lit "vibboOrganization")
                 VIBBO_ORGANIZATION_QUERY
                 (Some [(lit "organizationSlug", slug)]) s) with
    | Ok data => organization_id_of_reply slug data
    | Raise e => Raise e
    end.
Proof.
  unfold fetch_organization_id, cbind.
  destruct (_graphql cookie (lit "vibboOrganization") VIBBO_ORGANIZATION_QUERY
              (Some [(lit "organizationSlug", slug)]) s) as [s' [data | e]];
    reflexivity.
Qed.

(** X11: an organization id that is returned is non-empty and is the id of the
    organization object of the reply. *)
Theorem fetch_organization_id_is_populated (cookie slug : value)
    (s : Session) (id : value) :
  snd (fetch_organization_id cookie slug s) = Ok id ->
  truthy id = true
  /\ exists reply data organization,
       snd (_graphql cookie (lit "vibboOrganization") VIBBO_ORGANIZATION_QUERY
              (Some [(lit "organizationSlug", slug)]) s) = Ok (VDict reply)
       /\ dict_get reply (lit "data") (VDict []) = VDict data
       /\ lookup (lit "organization") data = Some (VDict organization)
       /\ lookup (lit "id") organization = Some id.
Proof.
  rewrite fetch_organization_id_of_reply.
  destruct (snd (_graphql cookie (lit "vibboOrganization")
                   VIBBO_ORGANIZATION_QUERY
                   (Some [(lit "organizationSlug", slug)]) s))
    as [reply | e]; [|discriminate].
  unfold organization_id_of_reply.
  destruct reply as [| | | | | | reply]; try discriminate; cbn [get Py.bind].
  destruct (dict_get reply (lit "data") (VDict [])) as [| | | | | | data] eqn:Hd;
    try discriminate; cbn [get Py.bind].
  assert (Hlook : forall (d : dict) k v,
             dict_get d k VNone = v -> v <> VNone -> lookup k d = Some v).
  { intros d k v; unfold dict_get; destruct (lookup k d);
      [intros ->; reflexivity | intros <- H; contradiction]. }
  destruct (dict_get data (lit "organization") VNone) as [| | | | | | organization]
    eqn:Ho; cbn [get Py.bind];
    try (destruct (negb (truthy _)); discriminate).
  destruct (negb (truthy (VDict organization))); [discriminate|].
  destruct (dict_get organization (lit "id") VNone) as [| | | | | |] eqn:Hi;
    cbn [truthy negb]; try discriminate;
    match goal with
    | |- (if ?c then _ else _) = _ -> _ => destruct c eqn:Hti; [discriminate|]
    end;
    (intros [= <-]; apply negb_false_iff in Hti; split; [exact Hti|];
     exists reply, data, organization; repeat split;
     [exact Hd | apply Hlook; [exact Ho | discriminate]
     | apply Hlook; [exact Hi | discriminate]]).
Qed.

(** X12: a reply without an organization, or with an organization without an
    id, ends the lookup with an [AuthError] that names the slug. *)
Theorem fetch_organization_id_names_slug (cookie slug : value) (s : Session)
    (reply data : dict) :
  snd (_graphql cookie (lit "vibboOrganization") VIBBO_ORGANIZATION_QUERY
         (Some [(lit "organizationSlug", slug)]) s) = Ok (VDict reply) ->
  lookup (lit "data") reply = Some (VDict data) ->
  ((lookup (lit "organization") data = None
    \/ lookup (lit "organization") data = Some VNone) ->
   snd (fetch_organization_id cookie slug s)
   = Raise (AuthError (lit "Could not find organization for slug: "
                       ++ to_str slug)))
  /\ (forall organization : dict,
        lookup (lit "organization") data = Some (VDict organization) ->
        organization <> [] ->
        (lookup (lit "id") organization = None
         \/ lookup (lit "id") organization = Some VNone
         \/ lookup (lit "id") organization = Some (VStr [])) ->
        snd (fetch_organization_id cookie slug s)
        = Raise (AuthError (lit "Organization has no ID: " ++ to_str slug))).
Proof.
  intros Hq Hd; rewrite fetch_organization_id_of_reply, Hq.
  unfold organization_id_of_reply; cbn [get Py.bind]; unfold dict_get.
  rewrite Hd; cbn [get Py.bind]; unfold dict_get.
  split.
  - intros [-> | ->]; reflexivity.
  - intros organization -> Hne Hid.
    destruct organization as [|kv organization]; [contradiction|].
    cbn [truthy negb get Py.bind].
    unfold dict_get; destruct Hid as [-> | [-> | ->]]; reflexivity.
Qed.

End GraphqlFacts.

(** *** The scraping of the login page *)

Section ScrapingFacts.

Import Re Auth Spec.

Lemma greedy_inv {A} (p : char -> bool) (s taken : str)
    (k : str -> str -> option A) (r : A) :
  greedy p s taken k = Some r ->
  exists got rest,
    s = got ++ rest /\ forallb p got = true
    /\ k (rev taken ++ got) rest = Some r.
Proof.
  revert taken; induction s as [|c s IH]; intros taken; cbn [greedy].
  - intros H; exists [], []; repeat split; rewrite app_nil_r; exact H.
  - destruct (p c) eqn:Hc.
    + destruct (greedy p s (c :: taken) k) as [r'|] eqn:Hg.
      * intros [= <-]. destruct (IH _ Hg) as [got [rest [-> [Hall Hk]]]].
        exists (c :: got), rest; cbn [forallb]; rewrite Hc, Hall.
        cbn [rev] in Hk; rewrite <- app_assoc in Hk; auto.
      * intros H; exists [], (c :: s); repeat split; rewrite app_nil_r; exact H.
    + intros H; exists [], (c :: s); repeat split; rewrite app_nil_r; exact H.
Qed.

Lemma occurs_in_later (piece s pre : str) :
  occurs_in piece s -> occurs_in piece (pre ++ s).
Proof.
  intros [a [b ->]]; exists (pre ++ a), b; rewrite <- app_assoc; reflexivity.
Qed.

(** What a match hands back as group 1: the text it started with when the
    pattern has no group, else a non-empty run of the subject, all of whose
    characters are in the class of a group of the pattern. *)
Lemma match_here_group (pat : pattern) (s g1 r : str) :
  match_here pat s g1 = Some r ->
  (has_group pat = false /\ r = g1)
  \/ (r <> [] /\ occurs_in r s
      /\ exists p, In (Cap p) pat /\ forallb p r = true).
Proof.
  assert (Hstep : forall (a : atom) (pat' : pattern) (got rest g r : str),
    (match a with Cap _ => False | _ => True end) ->
    ((has_group pat' = false /\ r = g)
     \/ (r <> [] /\ occurs_in r rest
         /\ exists p, In (Cap p) pat' /\ forallb p r = true)) ->
    (has_group (a :: pat') = false /\ r = g)
    \/ (r <> [] /\ occurs_in r (got ++ rest)
        /\ exists p, In (Cap p) (a :: pat') /\ forallb p r = true)).
  { intros a pat' got rest g r' Ha [[Hn ->] | [Hne [Hocc [p [Hin Hall]]]]].
    - left; split; [|reflexivity].
      unfold has_group in *; cbn [existsb]; rewrite Hn.
      destruct a; try reflexivity; contradiction.
    - right; split; [exact Hne|]; split; [apply occurs_in_later; exact Hocc|].
      exists p; split; [right; exact Hin | exact Hall]. }
  revert s g1; induction pat as [|a pat IH]; intros s g1; cbn [match_here].
  - intros [= <-]; left; split; reflexivity.
  - destruct a as [c | p | p | p | p | p].
    + destruct s as [|x s]; [discriminate|].
      destruct (N.eqb x c); [|discriminate]; intros H.
      exact (Hstep (Chr c) pat [x] s g1 r I (IH _ _ H)).
    + destruct s as [|x s]; [discriminate|].
      destruct (p x); [|discriminate]; intros H.
      exact (Hstep (Cls p) pat [x] s g1 r I (IH _ _ H)).
    + intros H; apply greedy_inv in H as [got [rest [-> [_ H]]]].
      exact (Hstep (Star p) pat got rest g1 r I (IH _ _ H)).
    + intros H; apply greedy_inv in H as [got [rest [-> [_ H]]]].
      cbn [rev app] in H; destruct got as [|x got]; [discriminate|].
      exact (Hstep (Plus p) pat (x :: got) rest g1 r I (IH _ _ H)).
    + destruct s as [|x s].
      * intros H; exact (Hstep (Opt p) pat [] [] g1 r I (IH _ _ H)).
      * destruct (p x).
        -- destruct (match_here pat s g1) as [r'|] eqn:Hm.
           ++ intros [= <-].
              exact (Hstep (Opt p) pat [x] s g1 r' I (IH _ _ Hm)).
           ++ intros H; exact (Hstep (Opt p) pat [] (x :: s) g1 r I (IH _ _ H)).
        -- intros H; exact (Hstep (Opt p) pat [] (x :: s) g1 r I (IH _ _ H)).
    + intros H; apply greedy_inv in H as [got [rest [-> [Hall H]]]].
      cbn [rev app] in H; destruct got as [|x got]; [discriminate|].
      right. destruct (IH _ _ H) as [[_ ->] | [Hne [Hocc [q [Hin Hq]]]]].
      * split; [discriminate|]. split; [exists [], rest; reflexivity|].
        exists p; split; [left; reflexivity | exact Hall].
      * split; [exact Hne|]. split; [apply occurs_in_later; exact Hocc|].
        exists q; split; [right; exact Hin | exact Hq].
Qed.

Lemma search_group (pat : pattern) (s r : str) :
  has_group pat = true ->
  search pat s = Some r ->
  r <> [] /\ occurs_in r s /\ exists p, In (Cap p) pat /\ forallb p r = true.
Proof.
  intros Hg; induction s as [|x s IH]; cbn [search].
  - destruct (match_here pat [] []) as [g|] eqn:Hm; [|discriminate].
    intros [= <-].
    destruct (match_here_group _ _ _ Hm) as [[Hn _] | H]; [congruence | exact H].
  - destruct (match_here pat (x :: s) []) as [g|] eqn:Hm.
    + intros [= <-].
      destruct (match_here_group _ _ _ Hm) as [[Hn _] | H];
        [congruence | exact H].
    + intros H; destruct (IH H) as [Hne [Hocc Hp]].
      split; [exact Hne|]; split; [|exact Hp].
      exact (occurs_in_later [x] Hocc).
Qed.

Lemma no_group_in_chars (s : str) (p : char -> bool) : ~ In (Cap p) (chars s).
Proof.
  unfold chars; intros H; apply in_map_iff in H as [x [Hx _]]; discriminate.
Qed.

Lemma not_quote_not_dquote (t : str) :
  forallb not_quote t = true -> forallb not_dquote t = true.
Proof.
  induction t as [|c t IH]; [reflexivity|]; cbn [forallb].
  rewrite !andb_true_iff; intros [Hc Ht]; split; [|exact (IH Ht)].
  unfold not_quote, is_quote in Hc; unfold not_dquote.
  destruct (N.eqb c dquote); [|reflexivity].
  rewrite orb_true_r in Hc; discriminate.
Qed.

(** The [_csrf] token of a session is a non-empty run of the login page
    that holds no double quote. *)
Theorem csrf_token_is_a_piece_of_the_page (html token : str) :
  find_csrf html = Some token ->
  token <> [] /\ occurs_in token html /\ forallb not_dquote token = true.
Proof.
  unfold find_csrf.
  destruct (search (json_field "_csrf") html) as [g|] eqn:H1.
  - intros [= <-].
    destruct (search_group (json_field "_csrf") html eq_refl H1)
      as [Hne [Hocc [p [Hin Hp]]]].
    repeat split; try assumption.
    unfold json_field in Hin; destruct Hin as [Hin | Hin]; [discriminate|].
    apply in_app_or in Hin as [Hin | Hin];
      [exfalso; exact (no_group_in_chars _ _ Hin)|].
    repeat (destruct Hin as [Hin | Hin]; [try discriminate Hin|]);
      try contradiction.
    injection Hin as <-; exact Hp.
  - destruct (search csrf_input html) as [g|] eqn:H2.
    + intros [= <-].
      destruct (search_group csrf_input html eq_refl H2)
        as [Hne [Hocc [p [Hin Hp]]]].
      repeat split; try assumption.
      unfold csrf_input in Hin.
      apply in_app_or in Hin as [Hin | Hin];
        [exfalso; exact (no_group_in_chars _ _ Hin)|].
      destruct Hin as [Hin | Hin]; [discriminate|].
      apply in_app_or in Hin as [Hin | Hin];
        [exfalso; exact (no_group_in_chars _ _ Hin)|].
      destruct Hin as [Hin | Hin]; [discriminate|].
      destruct Hin as [Hin | Hin]; [discriminate|].
      apply in_app_or in Hin as [Hin | Hin];
        [exfalso; exact (no_group_in_chars _ _ Hin)|].
      repeat (destruct Hin as [Hin | Hin]; [try discriminate Hin|]);
        try contradiction.
      injection Hin as <-; exact Hp.
    + destruct (search csrf_pair html) as [g|] eqn:H3.
      * intros [= <-].
        destruct (search_group csrf_pair html eq_refl H3)
          as [Hne [Hocc [p [Hin Hp]]]].
        repeat split; try assumption.
        unfold csrf_pair in Hin; destruct Hin as [Hin | Hin]; [discriminate|].
        apply in_app_or in Hin as [Hin | Hin];
          [exfalso; exact (no_group_in_chars _ _ Hin)|].
        repeat (destruct Hin as [Hin | Hin]; [try discriminate Hin|]);
          try contradiction.
        injection Hin as <-; exact Hp.
      * intros H4.
        destruct (search_group csrf_loose html eq_refl H4)
          as [Hne [Hocc [p [Hin Hp]]]].
        repeat split; try assumption.
        unfold csrf_loose in Hin.
        apply in_app_or in Hin as [Hin | Hin];
          [exfalso; exact (no_group_in_chars _ _ Hin)|].
        repeat (destruct Hin as [Hin | Hin]; [try discriminate Hin|]);
          try contradiction.
        injection Hin as <-; apply not_quote_not_dquote; exact Hp.
Qed.

End ScrapingFacts.

(** *** The session cookies and the requests of the verification *)

Section VerifyFacts.

Import Auth Spec.

Context {E : Env}.

Lemma scan_cookies_last (jar : list Cookie) (a b : option str) :
  scan_cookies jar a b
  = (match last_cookie (lit "sesid") jar with Some v => Some v | None => a end,
     match last_cookie (lit "sesid.sig") jar with
     | Some v => Some v
     | None => b
     end).
Proof.
  revert a b; induction jar as [|[k v] jar IH]; intros a b;
    cbn [scan_cookies last_cookie]; [reflexivity|].
  destruct (str_eqb k (lit "sesid")) eqn:Hk.
  - apply str_eqb_eq in Hk; subst k; rewrite IH.
    change (str_eqb (lit "sesid") (lit "sesid.sig")) with false.
    destruct (last_cookie (lit "sesid") jar),
             (last_cookie (lit "sesid.sig") jar); reflexivity.
  - destruct (str_eqb k (lit "sesid.sig")) eqn:Hk2; rewrite IH;
      destruct (last_cookie (lit "sesid") jar),
               (last_cookie (lit "sesid.sig") jar); reflexivity.
Qed.

(** X14: after an accepted code the cookie string is made of the last sesid
    and the last sesid.sig cookie of the jar, and the call fails when one
    of the two is missing or empty. *)
Theorem verify_uses_the_last_cookies (s : Session) (a : AuthSession)
    (phone : value) (code : str) (resp resp' : Response)
    (jar jar' : list Cookie) :
  server (traffic s) (verify_request (login_url a) phone code)
  = Responds resp jar ->
  status resp = 200%Z ->
  server (traffic s ++ [verify_request (login_url a) phone code])
    (verify_redirect_request a (login_url a) phone code)
  = Responds resp' jar' ->
  snd (verify_code_and_get_cookie a phone code s)
  = match last_cookie (lit "sesid") jar',
          last_cookie (lit "sesid.sig") jar' with
    | Some (c :: sesid), Some (d :: sesid_sig) =>
        Ok (lit "sesid=" ++ (c :: sesid) ++ lit "; sesid.sig="
            ++ (d :: sesid_sig))
    | _, _ =>
        Raise (AuthError
                 (lit "Failed to obtain Vibbo session cookies after login"))
    end.
Proof.
  intros Hsrv Hst Hsrv'.
  rewrite (verify_accepted _ _ _ _ Hsrv Hst Hsrv'), scan_cookies_last.
  destruct (last_cookie (lit "sesid") jar') as [[|c t]|];
    destruct (last_cookie (lit "sesid.sig") jar') as [[|d u]|]; reflexivity.
Qed.

(** X15: a rejected code stops the verification after its first request: the
    redirect chain is not entered, and the session keeps the jar of the
    reply.  An accepted code is followed by exactly one more request, the
    one for the redirect chain. *)
Theorem verify_requests (s : Session) (a : AuthSession) (phone : value)
    (code : str) (resp : Response) (jar : list Cookie) :
  server (traffic s) (verify_request (login_url a) phone code)
  = Responds resp jar ->
  (status resp <> 200%Z ->
   fst (verify_code_and_get_cookie a phone code s)
   = {| traffic := traffic s ++ [verify_request (login_url a) phone code];
        cookie_jar := jar |})
  /\ (status resp = 200%Z ->
      traffic (fst (verify_code_and_get_cookie a phone code s))
      = traffic s ++ [verify_request (login_url a) phone code;
                      verify_redirect_request a (login_url a) phone code]).
Proof.
  intros Hsrv; unfold verify_code_and_get_cookie, cbind.
  rewrite (request_responds _ _ Hsrv); split; intros Hst.
  - apply Z.eqb_neq in Hst; rewrite Hst; cbn [negb].
    destruct (text resp); reflexivity.
  - rewrite Hst; cbn [Z.eqb Pos.eqb negb ret].
    pose proof (request_traffic
                  (verify_redirect_request a (login_url a) phone code)
                  {| traffic := traffic s
                                ++ [verify_request (login_url a) phone code];
                     cookie_jar := jar |}) as Ht.
    cbn [traffic] in Ht; rewrite <- app_assoc in Ht; cbn [app] in Ht.
    destruct (request (verify_redirect_request a (login_url a) phone code) _)
      as [s' [r | e]]; cbn [fst] in *; [|exact Ht].
    cbn [get_cookie_jar].
    destruct (scan_cookies (cookie_jar s') None None) as [x y].
    destruct (negb (nonempty x) || negb (nonempty y)); exact Ht.
Qed.

(** X13: the token a successful [start_login] stores is a non-empty run of the
    page it loaded and holds no double quote. *)
Theorem start_login_csrf_token (s : Session) (resp : Response)
    (jar : list Cookie) (html : str) (a : AuthSession) :
  server (traffic s) login_page_request = Responds resp jar ->
  text resp = Body html ->
  snd (start_login s) = Ok a ->
  csrf a <> [] /\ occurs_in (csrf a) html
  /\ forallb Re.not_dquote (csrf a) = true.
Proof.
  intros Hsrv Htext; rewrite (start_login_on_page _ Hsrv Htext).
  destruct (find_csrf html) as [token|] eqn:Hc; [|discriminate].
  cbn zeta.
  destruct (negb (nonempty (find_param "state" (final_url resp) html)));
    [discriminate|].
  destruct (negb (nonempty (find_param "nonce" (final_url resp) html)));
    [discriminate|].
  intros [= <-]; cbn [csrf].
  exact (csrf_token_is_a_piece_of_the_page _ Hc).
Qed.

End VerifyFacts.

(* ===================================================================== *)
(** ** Further properties of the setup wizard *)
(* ===================================================================== *)

Section FlowMore.

Import Auth Vol ConfigFlow Spec.

Context {E : Env}.

(** X16: with a phone number in the input the first step never raises: it
    shows the code form, with the session open and the login tokens kept,
    or the phone form again with the error auth_error or unknown and the
    session closed.  A network that does not answer gives unknown. *)
Theorem user_step_always_shows_a_form
    (self : Flow) (net : list Request) (ui : dict) (raw : str) :
  lookup (lit "phone_number") ui = Some (VStr raw) ->
  let out := async_step_user (Some ui) self net in
  ((snd out
    = Ok (ShowForm (lit "verify_code") verify_code_schema []
            [ (lit "phone_number", entered_phone raw) ])
    /\ (exists jar, _session (fst (fst out)) = Some jar)
    /\ (exists a, _auth_session (fst (fst out)) = Some a))
   \/ (exists error,
         (error = "auth_error"%string \/ error = "unknown"%string)
         /\ snd out = Ok (ShowForm (lit "user") user_schema (base_error error) [])
         /\ _session (fst (fst out)) = None))
  /\ (forall msg,
        server net login_page_request = NoResponse msg ->
        snd out = Ok (ShowForm (lit "user") user_schema (base_error "unknown") [])).
Proof.
  intros Hui out; subst out.
  unfold async_step_user; cbn [getitem Py.bind].
  rewrite Hui; cbn [strip_method Py.bind].
  rewrite normalize_phone_entered.
  unfold login_and_request_code.
  split.
  - destruct (start_login (new_session net)) as [s [a | e]].
    + destruct (request_sms_code a (entered_phone raw) s) as [s' [u | e]].
      * left; rewrite verify_step_form; cbn [fst snd].
        repeat split; eexists; reflexivity.
      * right; destruct e;
          [ exists "unknown"%string | exists "auth_error"%string
          | exists "unknown"%string | exists "unknown"%string
          | exists "unknown"%string | exists "unknown"%string
          | exists "unknown"%string | exists "unknown"%string
          | exists "unknown"%string ];
          cbn [fst snd]; repeat split; auto.
    + right; destruct e;
        [ exists "unknown"%string | exists "auth_error"%string
        | exists "unknown"%string | exists "unknown"%string
        | exists "unknown"%string | exists "unknown"%string
        | exists "unknown"%string | exists "unknown"%string
        | exists "unknown"%string ];
        cbn [fst snd]; repeat split; auto.
  - intros msg Hsrv.
    assert (Hs : start_login (new_session net)
                 = ({| traffic := net ++ [login_page_request];
                       cookie_jar := [] |}, Raise (ClientError msg))).
    { unfold start_login, cbind.
      rewrite (request_no_response login_page_request (new_session net) Hsrv).
      reflexivity. }
    rewrite Hs; reflexivity.
Qed.

(** X17: a code the server turns down brings the code form back with the
    error invalid_code; the session stays open with the jar of the reply,
    nothing but the verification request is sent, and no cookie is
    stored. *)
Theorem verify_step_rejected_code
    (self : Flow) (net : list Request) (ui : dict) (raw : str)
    (a : AuthSession) (jar jar' : list Cookie) (resp : Response) (body : str) :
  lookup (lit "verification_code") ui = Some (VStr raw) ->
  _auth_session self = Some a ->
  _session self = Some jar ->
  server net
    (verify_request (login_url a) (value_of (_phone_number self)) (strip raw))
  = Responds resp jar' ->
  status resp <> 200%Z ->
  text resp = Body body ->
  async_step_verify_code (Some ui) self net
  = ((set_session self (Some jar'),
      net ++ [verify_request (login_url a) (value_of (_phone_number self))
                (strip raw)]),
     Ok (ShowForm (lit "verify_code") verify_code_schema
           (base_error "invalid_code")
           [ (lit "phone_number", text_of (_phone_number self)) ])).
Proof.
  intros Hui Ha Hjar Hsrv Hst Hbody.
  unfold async_step_verify_code; cbn [getitem Py.bind].
  rewrite Hui; cbn [strip_method Py.bind].
  unfold verify_and_continue; rewrite Ha, Hjar.
  assert (Hv : verify_code_and_get_cookie a (value_of (_phone_number self))
                 (strip raw) {| traffic := net; cookie_jar := jar |}
               = ({| traffic := net ++ [verify_request (login_url a)
                                          (value_of (_phone_number self))
                                          (strip raw)];
                     cookie_jar := jar' |},
                  Raise (AuthError (lit "Verification failed: "
                                    ++ str_of_int (status resp) ++ lit " "
                                    ++ body)))).
  { unfold verify_code_and_get_cookie, cbind.
    rewrite (request_responds _ {| traffic := net; cookie_jar := jar |} Hsrv).
    apply Z.eqb_neq in Hst; rewrite Hst, Hbody; reflexivity. }
  rewrite Hv; cbn [cookie_jar traffic].
  change (lit "Verification failed: ") with (lit "Verification failed" ++ lit ": ").
  rewrite <- app_assoc, contains_str_prefix; reflexivity.
Qed.

(** X18: once the session has been closed the code form cannot succeed any
    more: a submitted code sends nothing and brings the form back with the
    error unknown. *)
Theorem verify_step_without_session
    (self : Flow) (net : list Request) (ui : dict) (raw : str) :
  lookup (lit "verification_code") ui = Some (VStr raw) ->
  _session self = None ->
  async_step_verify_code (Some ui) self net
  = ((self, net),
     Ok (ShowForm (lit "verify_code") verify_code_schema
           (base_error "unknown")
           [ (lit "phone_number", text_of (_phone_number self)) ])).
Proof.
  intros Hui Hs; unfold async_step_verify_code; cbn [getitem Py.bind].
  rewrite Hui; cbn [strip_method Py.bind].
  unfold verify_and_continue; rewrite Hs.
  destruct self as [ph se au co ms sel uid]; cbn in Hs; subst se.
  destruct au; reflexivity.
Qed.

(** X19: an accepted code whose organization lookup fails with an [AuthError]
    leaves the flow on the code form with the session closed, so that the
    next submission of a code ends as above. *)
Theorem verify_step_lookup_failure_closes_session
    (self : Flow) (net : list Request) (ui : dict) (raw : str)
    (a : AuthSession) (jar : list Cookie) (s s' : Session) (cookie msg : str) :
  lookup (lit "verification_code") ui = Some (VStr raw) ->
  _auth_session self = Some a ->
  _session self = Some jar ->
  verify_code_and_get_cookie a (value_of (_phone_number self)) (strip raw)
    {| traffic := net; cookie_jar := jar |} = (s, Ok cookie) ->
  fetch_organizations (VStr cookie) (new_session (traffic s))
  = (s', Raise (AuthError msg)) ->
  contains_str (lit "Verification failed") msg = false ->
  let out := async_step_verify_code (Some ui) self net in
  snd out
  = Ok (ShowForm (lit "verify_code") verify_code_schema
          (base_error "cannot_connect")
          [ (lit "phone_number", text_of (_phone_number self)) ])
  /\ _session (fst (fst out)) = None
  /\ _cookie (fst (fst out)) = Some cookie.
Proof.
  intros Hui Ha Hjar Hv Hf Hmsg out; subst out.
  unfold async_step_verify_code; cbn [getitem Py.bind].
  rewrite Hui; cbn [strip_method Py.bind].
  unfold verify_and_continue; rewrite Ha, Hjar, Hv, Hf, Hmsg.
  repeat split.
Qed.

End FlowMore.

Section SelectionFacts.

Import Auth Vol ConfigFlow Spec.

Context {E : Env}.

Lemma dict_set_keys (d : list (value * value)) (k v x : value) :
  List.In x (map fst (dict_set d k v)) -> List.In x (map fst d) \/ x = k.
Proof.
  induction d as [|[k' v'] d IH]; cbn [dict_set map fst List.In].
  - intros [<- | []]; right; reflexivity.
  - destruct (Py.equals k' k); cbn [map fst List.In].
    + intros [<- | H]; left; [left; reflexivity | right; exact H].
    + intros [<- | H]; [left; left; reflexivity|].
      destruct (IH H) as [H' | ->]; [left; right; exact H' | right; reflexivity].
Qed.

Lemma org_options_keys (ms : list Membership) acc opts (x : value) :
  org_options ms acc = Ok opts ->
  List.In x (map fst opts) ->
  List.In x (map fst acc) \/ exists m, List.In m ms /\ slug m = x.
Proof.
  revert acc; induction ms as [|m ms IH]; intros acc; cbn [org_options].
  - intros [= <-] H; left; exact H.
  - destruct (hashable (slug m)); [|discriminate].
    intros Ho Hin; destruct (IH _ Ho Hin) as [H | [m' [Hm' Hs]]].
    + destruct (dict_set_keys _ _ _ _ H) as [H' | ->];
        [left; exact H' | right; exists m; split; [left; reflexivity | reflexivity]].
    + right; exists m'; split; [right; exact Hm' | exact Hs].
Qed.

Lemma first_with_slug_finds (ms : list Membership) (x : value) :
  (exists m, List.In m ms /\ Py.equals (slug m) x = true) ->
  exists m, first_with_slug ms x = Some m /\ List.In m ms
            /\ Py.equals (slug m) x = true.
Proof.
  induction ms as [|m0 ms IH]; intros [m [Hin Heq]]; [destruct Hin|].
  cbn [first_with_slug]; destruct (Py.equals (slug m0) x) eqn:H0.
  - exists m0; repeat split; [left; reflexivity | exact H0].
  - destruct Hin as [-> | Hin]; [congruence|].
    destruct (IH (ex_intro _ m (conj Hin Heq))) as [m' [Hf [Hin' He]]].
    exists m'; repeat split; [exact Hf | right; exact Hin' | exact He].
Qed.

Lemma checked_organization (opts : list (value * value)) (input : value)
    (checked : dict) :
  validate_schema (select_organization_schema opts) input = Some checked ->
  exists v, lookup (lit "organization") checked = Some v
            /\ has_key opts v = true.
Proof.
  unfold validate_schema; destruct input as [| | | | | | items]; try discriminate.
  cbn [validate_missing select_organization_schema key default check].
  destruct items as [|[k v] items].
  - cbn [validate_items lookup]; discriminate.
  - cbn [validate_items field_of key check select_organization_schema].
    destruct (str_eqb k (lit "organization")) eqn:Hk; [|discriminate].
    apply str_eqb_eq in Hk; subst k.
    cbn [check validate].
    destruct (hashable v && has_key opts v) eqn:Hv; [|discriminate].
    destruct (validate_items _ items) as [rest|]; [|discriminate].
    destruct (lookup (lit "organization") ((lit "organization", v) :: items));
      [|discriminate].
    intros [= <-]; exists v; cbn [app lookup]; rewrite str_eqb_refl.
    apply andb_true_iff in Hv as [_ Hv]; split; [reflexivity | exact Hv].
Qed.

(** X20: whatever the selection form lets through selects a membership: the
    step finds the first membership whose slug equals the submitted value,
    stores it and shows the interval form; it never fails to find one. *)
Theorem select_step_accepts_what_the_form_offers
    (self : Flow) (net : list Request) (opts : list (value * value))
    (input : value) (out : (Flow * list Request) * result FlowResult) :
  org_options (_memberships self) [] = Ok opts ->
  submit (select_organization_schema opts) input
    (fun ui => async_step_select_organization ui self net) = Some out ->
  exists m v,
    List.In m (_memberships self)
    /\ Py.equals (slug m) v = true
    /\ first_with_slug (_memberships self) v = Some m
    /\ out = ((set_selected_membership self (Some m), net),
              Ok (ShowForm (lit "options")
                    (scan_interval_schema (VInt DEFAULT_SCAN_INTERVAL)) [] [])).
Proof.
  intros Hopts; unfold submit.
  destruct (validate_schema (select_organization_schema opts) input)
    as [checked|] eqn:Hc; [|discriminate].
  destruct (checked_organization _ _ Hc) as [v [Hl Hk]].
  unfold has_key in Hk; apply existsb_exists in Hk as [[k w] [Hin Heq]].
  cbn [fst] in Heq.
  assert (Hkey : List.In k (map fst opts)) by (apply in_map_iff; exists (k, w); auto).
  destruct (org_options_keys _ _ _ Hopts Hkey) as [[] | [m [Hm Hs]]].
  subst k.
  destruct (first_with_slug_finds (_memberships self) v
              (ex_intro _ m (conj Hm Heq))) as [m' [Hf [Hin' He]]].
  intros [= <-]; exists m', v; repeat split; try assumption.
  unfold async_step_select_organization; cbn [getitem]; rewrite Hl, Hf.
  reflexivity.
Qed.

End SelectionFacts.

Section EntryFacts.

Import Auth Vol ConfigFlow Spec.

Context {E : Env}.




(** X22: when the organization is configured already, the abort raised by the
    host's check is caught by the step's own handler: the interval form
    comes back with the error unknown and no entry is created. *)
Theorem options_step_swallows_already_configured
    (self : Flow) (net : list Request) (ui : dict) (interval org_id : value)
    (m : Membership) (s : Session) :
  lookup CONF_SCAN_INTERVAL ui = Some interval ->
  _selected_membership self = Some m ->
  fetch_organization_id (value_of (_cookie self)) (slug m) (new_session net)
  = (s, Ok org_id) ->
  configured (slug m) = true ->
  async_step_options (Some ui) self net
  = ((set_unique_id self (Some (slug m)), traffic s),
     Ok (ShowForm (lit "options")
           (scan_interval_schema (VInt DEFAULT_SCAN_INTERVAL))
           (base_error "unknown") [])).
Proof.
  intros Hui Hm Hf Hc; unfold async_step_options; cbn [getitem].
  rewrite Hui; unfold _create_entry_for_membership; rewrite Hm, Hf, Hc.
  reflexivity.
Qed.


(** X24: an options mapping the options flow has created, taken as the
    entry's options, makes the next options form default to the interval
    just stored; and that default is itself accepted when the form is
    submitted without an interval. *)
Theorem options_flow_round_trip
    (current input : value) (entry_options : dict)
    (title : value) (data : dict) (options : option dict) :
  submit (scan_interval_schema current) input
    (VibboOptionsFlow.async_step_init entry_options)
  = Some (CreateEntry title data options) ->
  exists n,
    (5 <= n)%Z
    /\ VibboOptionsFlow.async_step_init data None
       = ShowForm (lit "init") (scan_interval_schema (VInt n)) [] []
    /\ submit (scan_interval_schema (VInt n)) (VDict [])
         (VibboOptionsFlow.async_step_init data)
       = Some (CreateEntry (VStr []) [ (CONF_SCAN_INTERVAL, VInt n) ] None).
Proof.
  unfold submit.
  destruct (validate_schema (scan_interval_schema current) input)
    as [checked|] eqn:Hc; [|discriminate].
  cbn [VibboOptionsFlow.async_step_init]; intros [= _ <- _].
  destruct (checked_interval _ _ Hc) as [n [Hl Hn]].
  exists n; split; [exact Hn|]; split.
  - unfold dict_get; rewrite Hl; reflexivity.
  - unfold validate_schema.
    cbn [validate_items validate_missing scan_interval_schema key default
         check lookup validate ge_int].
    apply Z.leb_le in Hn; rewrite Hn; reflexivity.
Qed.

End EntryFacts.

(* ===================================================================== *)
(** ** Properties of the card registration and the version checks *)
(* ===================================================================== *)

Section FrontendFacts.

Import Frontend Spec.

Lemma split_head (sep : char) (a b : str) :
  ~ In sep a -> hd [] (split sep (a ++ sep :: b)) = a.
Proof.
  induction a as [|c a IH]; intros Hno; cbn [app split].
  - rewrite N.eqb_refl; reflexivity.
  - destruct (N.eqb_spec c sep) as [-> | Hne];
      [exfalso; apply Hno; left; reflexivity|].
    assert (Hno' : ~ In sep a) by (intros H; apply Hno; right; exact H).
    specialize (IH Hno').
    destruct (split sep (a ++ sep :: b)) as [|piece pieces]; cbn [hd] in *;
      [subst a; reflexivity | subst piece; reflexivity].
Qed.

Lemma card_path_has_no_query : ~ In 63%N FRONTEND_SCRIPT_URL.
Proof.
  intros H; vm_compute in H.
  repeat (destruct H as [H | H]; [discriminate H|]); exact H.
Qed.

Lemma card_url_path_shared (digest : option str) :
  url_path (_card_url digest) = FRONTEND_SCRIPT_URL.
Proof.
  unfold url_path, _card_url.
  change (lit "?") with [63%N]; cbn [app].
  apply split_head, card_path_has_no_query.
Qed.

Lemma scan_resources_spec (items : list value) (card_url : str) :
  Forall resource_item items ->
  match find card_item items with
  | None => scan_resources items card_url = Ok (CreateItem (resource card_url))
  | Some item =>
      exists d u id,
        item = VDict d /\ lookup (lit "url") d = Some (VStr u)
        /\ lookup (lit "id") d = Some id
        /\ scan_resources items card_url
           = Ok (if str_eqb card_url u then Keep
                 else UpdateItem id (resource card_url))
  end.
Proof.
  induction 1 as [|item items [d [u [id [-> [Hu Hid]]]]] _ IH];
    cbn [find scan_resources]; [reflexivity|].
  unfold card_item at 1; rewrite Hu.
  cbn [getitem Py.bind]; rewrite Hu; cbn [Py.bind split_method].
  fold (url_path u).
  destruct (str_eqb (url_path u) FRONTEND_SCRIPT_URL).
  - exists d, u, id; repeat split; try assumption.
    cbn [is_this_str]; destruct (str_eqb card_url u); [reflexivity|].
    cbn [getitem]; rewrite Hid; reflexivity.
  - exact IH.
Qed.

(** X25: what a registration attempt does: it waits while the resources are
    not loaded; else it creates the resource when no item has the card's
    path, and otherwise touches the first such item only, keeping it when
    its URL is the current one and updating it when not.  It never creates
    a second resource for the card. *)
Theorem try_register_decisions (loaded : value) (items : list value)
    (card_url : str) :
  (truthy loaded = false -> _try_register loaded items card_url = Ok Retry)
  /\ (truthy loaded = true ->
      Forall resource_item items ->
      match find card_item items with
      | None =>
          _try_register loaded items card_url
          = Ok (CreateItem (resource card_url))
      | Some item =>
          exists d u id,
            item = VDict d /\ lookup (lit "url") d = Some (VStr u)
            /\ lookup (lit "id") d = Some id
            /\ _try_register loaded items card_url
               = Ok (if str_eqb card_url u then Keep
                     else UpdateItem id (resource card_url))
      end).
Proof.
  unfold _try_register; split.
  - intros ->; reflexivity.
  - intros -> Hitems; cbn [negb]; exact (scan_resources_spec card_url Hitems).
Qed.

Lemma find_app_none {A} (f : A -> bool) (l l' : list A) :
  find f l = None -> find f (l ++ l') = find f l'.
Proof.
  induction l as [|x l IH]; [reflexivity|]; cbn [find app].
  destruct (f x); [discriminate | exact IH].
Qed.

(** X26: a card registered under one hash is found again under any other: the
    next attempt keeps the resource when the hash is unchanged and updates
    that very item when it changed, whatever else the collection holds. *)
Theorem reregistration_updates_in_place (loaded : value)
    (before after : list value) (old new : option str) (id : value) :
  truthy loaded = true ->
  Forall resource_item before ->
  find card_item before = None ->
  _try_register loaded
    (before ++ VDict ((lit "id", id) :: resource (_card_url old)) :: after)
    (_card_url new)
  = Ok (if str_eqb (_card_url new) (_card_url old) then Keep
        else UpdateItem id (resource (_card_url new))).
Proof.
  intros Hl Hbefore Hnone; unfold _try_register; rewrite Hl; cbn [negb].
  induction Hbefore as [|item items [d [u [i [-> [Hu Hi]]]]] _ IH].
  - cbn [app scan_resources getitem lookup resource Py.bind split_method].
    change (str_eqb (lit "url") (lit "id")) with false.
    change (str_eqb (lit "url") (lit "res_type")) with false.
    rewrite !str_eqb_refl; cbn [Py.bind split_method].
    fold (url_path (_card_url old)); rewrite card_url_path_shared.
    rewrite str_eqb_refl; cbn [is_this_str].
    destruct (str_eqb (_card_url new) (_card_url old)); reflexivity.
  - cbn [find] in Hnone; cbn [app scan_resources].
    unfold card_item in Hnone at 1; rewrite Hu in Hnone.
    cbn [getitem Py.bind]; rewrite Hu; cbn [Py.bind split_method].
    fold (url_path u).
    destruct (str_eqb (url_path u) FRONTEND_SCRIPT_URL); [discriminate|].
    exact (IH Hnone).
Qed.

End FrontendFacts.

Section VersionFacts.

Import Frontend.

Variable int : str -> option Z.

Lemma tuple_ge_trans (a b c : list Z) :
  tuple_ge a b = true -> tuple_ge b c = true -> tuple_ge a c = true.
Proof.
  revert b c; induction a as [|x a IH]; intros [|y b] [|z c]; cbn [tuple_ge];
    try reflexivity; try discriminate.
  destruct (Z.eqb_spec x y) as [-> | Hxy].
  - destruct (Z.eqb_spec y z); [apply IH | auto].
  - intros Hyx; apply Z.ltb_lt in Hyx.
    destruct (Z.eqb_spec y z) as [-> | Hyz].
    + intros _; destruct (Z.eqb_spec x z); [lia | apply Z.ltb_lt; lia].
    + intros Hzy; apply Z.ltb_lt in Hzy.
      destruct (Z.eqb_spec x z); [lia | apply Z.ltb_lt; lia].
Qed.

(** X27: the two lovelace helpers agree on how to read the host's object: when
    the mode is read as an attribute so are the resources, when the mode is
    read by subscript so are the resources, and they raise together on a
    running version that does not parse. *)
Theorem lovelace_helpers_agree (HA_VERSION : str) :
  int (lit "2026") = Some 2026%Z ->
  int (lit "2025") = Some 2025%Z ->
  int (lit "2") = Some 2%Z ->
  int (lit "0") = Some 0%Z ->
  match _get_lovelace_mode int HA_VERSION,
        _get_lovelace_resources int HA_VERSION with
  | Some (Attribute _), Some (Attribute r) => r = lit "resources"
  | Some (Subscript m), Some (Subscript r) =>
      m = lit "mode" /\ r = lit "resources"
  | None, None => True
  | _, _ => False
  end.
Proof.
  intros H2026 H2025 H2 H0.
  assert (Hnew : _to_tuple int (lit "2026.2.0") = Some [2026; 2; 0]%Z).
  { unfold _to_tuple.
    change (firstn 3 (split 46%N (lit "2026.2.0")))
      with [lit "2026"; lit "2"; lit "0"].
    cbn [ints]; rewrite H2026, H2, H0; reflexivity. }
  assert (Hold : _to_tuple int (lit "2025.2.0") = Some [2025; 2; 0]%Z).
  { unfold _to_tuple.
    change (firstn 3 (split 46%N (lit "2025.2.0")))
      with [lit "2025"; lit "2"; lit "0"].
    cbn [ints]; rewrite H2025, H2, H0; reflexivity. }
  unfold _get_lovelace_mode, _get_lovelace_resources, _ha_version_gte.
  rewrite Hnew, Hold.
  destruct (_to_tuple int HA_VERSION) as [running|]; [|exact I].
  destruct (tuple_ge running [2026; 2; 0]%Z) eqn:Hge.
  - rewrite (tuple_ge_trans _ _ [2025; 2; 0]%Z Hge eq_refl); reflexivity.
  - destruct (tuple_ge running [2025; 2; 0]%Z); [reflexivity | split; reflexivity].
Qed.

End VersionFacts.

(* ===================================================================== *)
(** ** The further properties on concrete inputs *)
(* ===================================================================== *)

Section CoordinatorOnFixtures.

Import Coordinator Spec Fixture.

Lemma update_fails_on_status_witness :
  snd (@_async_update_data
         (scripted [Responds (json_response 503 VNone) []])
         coordinator (new_session []))
  = Raise (UpdateFailed (lit "Vibbo API returned HTTP 503")).
Proof.
  refine (@update_fails_on_status
            (scripted [Responds (json_response 503 VNone) []])
            coordinator (new_session []) (json_response 503 VNone) []
            eq_refl _).
  cbn; discriminate.
Defined.

Lemma update_wraps_communication_errors_witness :
  snd (@_async_update_data offline coordinator (new_session []))
  = Raise (UpdateFailed (lit "Error communicating with Vibbo: offline")).
Proof.
  exact (proj1 (@update_wraps_communication_errors offline coordinator
                  (new_session []) (lit "offline")) eq_refl).
Defined.

Lemma update_returns_stream_items_witness :
  snd (@_async_update_data
         (scripted [Responds (json_response 200 stream_reply) []])
         coordinator (new_session []))
  = Ok (snapshot_with_title (lit "Dugnad")).
Proof.
  exact (@update_returns_stream_items
           (scripted [Responds (json_response 200 stream_reply) []])
           coordinator (new_session []) (json_response 200 stream_reply) []
           [ (lit "data", VDict [ (lit "stream", VDict [
                (lit "items", snapshot_with_title (lit "Dugnad")) ]) ]) ]
           [ (lit "stream", VDict [
                (lit "items", snapshot_with_title (lit "Dugnad")) ]) ]
           [ (lit "items", snapshot_with_title (lit "Dugnad")) ]
           eq_refl eq_refl eq_refl eq_refl eq_refl).
Defined.

Lemma update_never_lets_client_errors_through_witness :
  UpdateFailed (lit "Error communicating with Vibbo: offline")
  <> ClientError (lit "offline").
Proof.
  exact (proj2 (@update_never_lets_client_errors_through offline coordinator
                  (new_session [])
                  (UpdateFailed (lit "Error communicating with Vibbo: offline"))
                  eq_refl) (lit "offline")).
Defined.

Lemma update_failed_on_plainly_malformed_witness :
  @parse_body offline (VDict unauthorized_reply)
  = Raise (UpdateFailed (lit "Vibbo API error: Unauthorized")).
Proof.
  exact (proj1 (@update_failed_on_plainly_malformed offline
                  (VDict unauthorized_reply)
                  (no_data unauthorized_reply eq_refl))
           unauthorized_reply
           [ (lit "message", VStr (lit "Unauthorized")) ] []
           (VStr (lit "Unauthorized")) eq_refl eq_refl eq_refl).
Defined.

Lemma native_value_at_most_51_witness :
  length (repeat 120%N 50 ++ [ellipsis]) <= 51.
Proof.
  exact (@native_value_at_most_51 (snapshot_with_title long_title)
           (repeat 120%N 50 ++ [ellipsis]) eq_refl).
Defined.

Lemma native_value_without_title_witness :
  Sensor.native_value
    (VList [ VDict [ (lit "happenedAt", VStr (lit "2024-01-01")) ] ])
  = Ok (VStr (lit "No Data")).
Proof.
  exact (proj1 (@native_value_without_title
                  [ (lit "happenedAt", VStr (lit "2024-01-01")) ] [])
           eq_refl).
Defined.

End CoordinatorOnFixtures.

Section GraphqlOnFixtures.

Import Auth Spec Fixture.


Lemma graphql_result_has_no_errors_witness :
  contains (lit "errors") organization_reply = Ok false.
Proof.
  exact (proj1 (@graphql_result_has_no_errors
                  (scripted [Responds (json_response 200 organization_reply) []])
                  (VStr cookie) (lit "vibboOrganization")
                  VIBBO_ORGANIZATION_QUERY
                  (Some [(lit "organizationSlug", VStr (lit "solsiden"))])
                  (new_session []) organization_reply eq_refl)).
Defined.

Lemma graphql_reports_errors_witness :
  snd (@_graphql
         (scripted [Responds (json_response 200 (VDict unauthorized_reply)) []])
         (VStr cookie) (lit "vibboOrganizations") VIBBO_ORGANIZATIONS_QUERY
         None (new_session []))
  = Raise (AuthError (lit "GraphQL error: Unauthorized")).
Proof.
  exact (proj1 (@graphql_reports_errors
                  (scripted
                     [Responds (json_response 200 (VDict unauthorized_reply)) []])
                  (VStr cookie) (lit "vibboOrganizations")
                  VIBBO_ORGANIZATIONS_QUERY None (new_session [])
                  (json_response 200 (VDict unauthorized_reply)) []
                  unauthorized_reply eq_refl eq_refl eq_refl)
           [ (lit "message", VStr (lit "Unauthorized")) ] [] eq_refl).
Defined.

Lemma fetch_organization_id_is_populated_witness :
  truthy (VStr (lit "T3JnYW5pemF0aW9uOi0x")) = true.
Proof.
  exact (proj1 (@fetch_organization_id_is_populated
                  (scripted [Responds (json_response 200 organization_reply) []])
                  (VStr cookie) (VStr (lit "solsiden")) (new_session [])
                  (VStr (lit "T3JnYW5pemF0aW9uOi0x")) eq_refl)).
Defined.

Lemma fetch_organization_id_names_slug_witness :
  snd (@fetch_organization_id
         (scripted
            [Responds (json_response 200 missing_organization_reply) []])
         (VStr cookie) (VStr (lit "solsiden")) (new_session []))
  = Raise (AuthError (lit "Could not find organization for slug: solsiden")).
Proof.
  exact (proj1 (@fetch_organization_id_names_slug
                  (scripted
                     [Responds (json_response 200 missing_organization_reply) []])
                  (VStr cookie) (VStr (lit "solsiden")) (new_session [])
                  [ (lit "data", VDict [ (lit "organization", VNone) ]) ]
                  [ (lit "organization", VNone) ] eq_refl eq_refl)
           (or_intror eq_refl)).
Defined.

Lemma start_login_csrf_token_witness :
  lit "tok-1" <> [] /\ occurs_in (lit "tok-1") login_page.
Proof.
  pose proof (@start_login_csrf_token
                (scripted (setup_script organizations_reply))
                (new_session []) (text_response 200 login_url login_page)
                [(lit "auth0", lit "x")] login_page auth_session
                eq_refl eq_refl eq_refl) as [Hne [Hocc _]].
  split; [exact Hne | exact Hocc].
Defined.

Lemma verify_uses_the_last_cookies_witness :
  snd (@verify_code_and_get_cookie
         (scripted (setup_script organizations_reply))
         auth_session (VStr (lit "+4799999999")) (lit "123456")
         (session_after 2 []))
  = Ok cookie.
Proof.
  exact (@verify_uses_the_last_cookies
           (scripted (setup_script organizations_reply))
           (session_after 2 []) auth_session (VStr (lit "+4799999999"))
           (lit "123456") (text_response 200 login_url (lit "{}"))
           (text_response 200 (lit "https://vibbo.no/organisasjoner") [])
           [(lit "auth0", lit "x")] session_cookies
           eq_refl eq_refl eq_refl).
Defined.

Lemma verify_requests_witness :
  traffic (fst (@verify_code_and_get_cookie (scripted rejected_script)
                  auth_session (VStr (lit "+4799999999")) (lit "000000")
                  (session_after 2 [])))
  = traffic (session_after 2 [])
    ++ [verify_request Fixture.login_url (VStr (lit "+4799999999"))
          (lit "000000")].
Proof.
  refine (f_equal traffic
            (proj1 (@verify_requests (scripted rejected_script)
                      (session_after 2 []) auth_session
                      (VStr (lit "+4799999999")) (lit "000000")
                      (text_response 403 login_url (lit "Wrong code")) []
                      eq_refl) _)).
  cbn; discriminate.
Defined.

End GraphqlOnFixtures.

Section FlowMoreOnFixtures.

Import Auth Vol ConfigFlow Spec Fixture.

Lemma user_step_always_shows_a_form_witness :
  snd (@async_step_user offline
         (Some [ (lit "phone_number", VStr (lit " 99999999")) ])
         ConfigFlow.init [])
  = Ok (ShowForm (lit "user") user_schema (base_error "unknown") []).
Proof.
  exact (proj2 (@user_step_always_shows_a_form offline ConfigFlow.init []
                  [ (lit "phone_number", VStr (lit " 99999999")) ]
                  (lit " 99999999") eq_refl) (lit "offline") eq_refl).
Defined.

Lemma verify_step_rejected_code_witness :
  snd (@async_step_verify_code (scripted rejected_script)
         (Some [ (lit "verification_code", VStr (lit "000000")) ])
         flow_at_verify (traffic (session_after 2 [])))
  = Ok (ShowForm (lit "verify_code") verify_code_schema
          (base_error "invalid_code")
          [ (lit "phone_number", lit "+4799999999") ]).
Proof.
  refine (f_equal snd
            (@verify_step_rejected_code (scripted rejected_script)
               flow_at_verify (traffic (session_after 2 []))
               [ (lit "verification_code", VStr (lit "000000")) ]
               (lit "000000") auth_session [(lit "auth0", lit "x")] []
               (text_response 403 Fixture.login_url (lit "Wrong code"))
               (lit "Wrong code") eq_refl eq_refl eq_refl eq_refl _ eq_refl)).
  cbn; discriminate.
Defined.

Lemma verify_step_without_session_witness :
  snd (@async_step_verify_code offline
         (Some [ (lit "verification_code", VStr (lit "123456")) ])
         flow_at_options [])
  = Ok (ShowForm (lit "verify_code") verify_code_schema
          (base_error "unknown")
          [ (lit "phone_number", lit "+4799999999") ]).
Proof.
  exact (f_equal snd
           (@verify_step_without_session offline flow_at_options []
              [ (lit "verification_code", VStr (lit "123456")) ]
              (lit "123456") eq_refl eq_refl)).
Defined.

Lemma verify_step_lookup_failure_closes_session_witness :
  _session
    (fst (fst (@async_step_verify_code
                 (scripted (setup_script none_enabled_reply))
                 (Some [ (lit "verification_code", VStr (lit "123456")) ])
                 flow_at_verify (traffic (session_after 2 [])))))
  = None.
Proof.
  pose (E := scripted (setup_script none_enabled_reply)).
  pose (r1 := @verify_code_and_get_cookie E auth_session
                (VStr (lit "+4799999999")) (strip (lit "123456"))
                (session_after 2 [(lit "auth0", lit "x")])).
  pose (r2 := @fetch_organizations E (VStr cookie)
                (new_session (traffic (fst r1)))).
  refine (proj1 (proj2 (@verify_step_lookup_failure_closes_session
            E flow_at_verify (traffic (session_after 2 []))
            [ (lit "verification_code", VStr (lit "123456")) ]
            (lit "123456") auth_session [(lit "auth0", lit "x")]
            (fst r1) (fst r2) cookie
            (lit "No Vibbo-enabled organizations found for this account")
            eq_refl eq_refl eq_refl _ _ eq_refl))).
  - vm_compute; reflexivity.
  - vm_compute; reflexivity.
Defined.

Lemma select_step_accepts_what_the_form_offers_witness :
  exists m v,
    List.In m [solsiden; skyggesiden]
    /\ Py.equals (slug m) v = true
    /\ first_with_slug [solsiden; skyggesiden] v = Some m
    /\ ((set_selected_membership flow_at_selection (Some skyggesiden),
         @nil Request),
        Ok (ShowForm (lit "options")
              (scan_interval_schema (VInt DEFAULT_SCAN_INTERVAL)) [] []))
       = ((set_selected_membership flow_at_selection (Some m), []),
          Ok (ShowForm (lit "options")
                (scan_interval_schema (VInt DEFAULT_SCAN_INTERVAL)) [] [])).
Proof.
  exact (@select_step_accepts_what_the_form_offers offline flow_at_selection []
           organization_options
           (VDict [ (lit "organization", VStr (lit "skyggesiden")) ])
           ((set_selected_membership flow_at_selection (Some skyggesiden), []),
            Ok (ShowForm (lit "options")
                  (scan_interval_schema (VInt DEFAULT_SCAN_INTERVAL)) [] []))
           eq_refl eq_refl).
Defined.


Lemma options_step_swallows_already_configured_witness :
  snd (@async_step_options
         (scripted_configured
            [Responds (json_response 200 organization_reply) []])
         (Some [ (CONF_SCAN_INTERVAL, VInt 10) ]) flow_at_options [])
  = Ok (ShowForm (lit "options")
          (scan_interval_schema (VInt DEFAULT_SCAN_INTERVAL))
          (base_error "unknown") []).
Proof.
  pose (E := scripted_configured
               [Responds (json_response 200 organization_reply) []]).
  pose (r := @fetch_organization_id E (VStr cookie) (VStr (lit "solsiden"))
               (new_session [])).
  refine (f_equal snd
            (@options_step_swallows_already_configured E flow_at_options []
               [ (CONF_SCAN_INTERVAL, VInt 10) ] (VInt 10)
               (VStr (lit "T3JnYW5pemF0aW9uOi0x")) solsiden (fst r)
               eq_refl eq_refl _ eq_refl)).
  vm_compute; reflexivity.
Defined.


Lemma options_flow_round_trip_witness :
  exists n,
    (5 <= n)%Z
    /\ VibboOptionsFlow.async_step_init [ (CONF_SCAN_INTERVAL, VInt 15) ] None
       = ShowForm (lit "init") (scan_interval_schema (VInt n)) [] []
    /\ submit (scan_interval_schema (VInt n)) (VDict [])
         (VibboOptionsFlow.async_step_init [ (CONF_SCAN_INTERVAL, VInt 15) ])
       = Some (CreateEntry (VStr []) [ (CONF_SCAN_INTERVAL, VInt n) ] None).
Proof.
  exact (@options_flow_round_trip (VInt 30)
           (VDict [ (CONF_SCAN_INTERVAL, VInt 15) ]) []
           (VStr []) [ (CONF_SCAN_INTERVAL, VInt 15) ] None eq_refl).
Defined.

End FlowMoreOnFixtures.

Section FrontendOnFixtures.

Import Frontend Spec Fixture.

Lemma other_resource_is_an_item : Forall resource_item [other_resource].
Proof.
  constructor; [|constructor].
  exists [ (lit "id", VStr (lit "r1")); (lit "res_type", VStr (lit "module"));
           (lit "url", VStr (lit "/hacsfiles/other/other.js?v=1")) ],
         (lit "/hacsfiles/other/other.js?v=1"), (VStr (lit "r1")).
  repeat split.
Defined.

Lemma try_register_decisions_witness :
  _try_register (VBool true) [other_resource]
    (_card_url (Some (lit "89abcdef01234567")))
  = Ok (CreateItem (resource (_card_url (Some (lit "89abcdef01234567"))))).
Proof.
  exact (proj2 (@try_register_decisions (VBool true) [other_resource]
                  (_card_url (Some (lit "89abcdef01234567"))))
           eq_refl other_resource_is_an_item).
Defined.

Lemma reregistration_updates_in_place_witness :
  _try_register (VBool true)
    ([other_resource]
     ++ VDict ((lit "id", VStr (lit "r2"))
               :: resource (_card_url (Some (lit "0123abcd4567")))) :: [])
    (_card_url (Some (lit "89abcdef01234567")))
  = Ok (UpdateItem (VStr (lit "r2"))
          (resource (_card_url (Some (lit "89abcdef01234567"))))).
Proof.
  exact (@reregistration_updates_in_place (VBool true) [other_resource] []
           (Some (lit "0123abcd4567")) (Some (lit "89abcdef01234567"))
           (VStr (lit "r2")) eq_refl other_resource_is_an_item eq_refl).
Defined.

Lemma lovelace_helpers_agree_witness :
  exists r,
    _get_lovelace_resources ascii_int (lit "2025.6.1") = Some (Attribute r)
    /\ r = lit "resources".
Proof.
  pose proof (@lovelace_helpers_agree ascii_int (lit "2025.6.1")
                eq_refl eq_refl eq_refl eq_refl) as H.
  destruct (_get_lovelace_mode ascii_int (lit "2025.6.1")) as [[m | m]|];
    destruct (_get_lovelace_resources ascii_int (lit "2025.6.1"))
      as [[r | r]|] eqn:Hr;
    try contradiction; try (vm_compute in Hr; discriminate Hr).
  exists r; split; [reflexivity | exact H].
Defined.

End FrontendOnFixtures.

(* ===================================================================== *)
(** ** The outcomes of the login-flow walker (auth.py) *)
(* ===================================================================== *)

Section WalkerOutcomes.

Import Auth Spec.

Context {E : Env}.

Lemma last_cookie_in (key : str) (jar : list Cookie) (v : str) :
  last_cookie key jar = Some v -> In (key, v) jar.
Proof.
  induction jar as [|[k w] jar IH]; cbn [last_cookie]; [discriminate|].
  destruct (last_cookie key jar) as [u|].
  - intros [= <-]; right; apply IH; reflexivity.
  - destruct (str_eqb k key) eqn:Hk; [|discriminate].
    apply str_eqb_eq in Hk; subst k; intros [= <-]; left; reflexivity.
Qed.

Lemma last_cookie_none (key : str) (jar : list Cookie) :
  last_cookie key jar = None <-> ~ has_cookie key jar.
Proof.
  induction jar as [|[k w] jar IH]; cbn [last_cookie].
  - split; [intros _ [v []] | reflexivity].
  - destruct (last_cookie key jar) as [u|] eqn:Hl.
    + split; [discriminate|].
      intros Hno; exfalso; apply Hno.
      exists u; right; apply last_cookie_in; exact Hl.
    + destruct (str_eqb k key) eqn:Hk.
      * apply str_eqb_eq in Hk; subst k; split; [discriminate|].
        intros Hno; exfalso; apply Hno; exists w; left; reflexivity.
      * split; [|reflexivity].
        intros _ [v [Heq | Hin]].
        -- injection Heq as Hkey _.
           rewrite Hkey, str_eqb_refl in Hk; discriminate.
        -- apply (proj1 IH eq_refl); exists v; exact Hin.
Qed.

(** C3, as the code has it: what each step of the walker ends in is fixed
    by what the network does with its requests.  [start_login] returns the
    three tokens of the page it could read, or raises an [AuthError] for
    the first of _csrf token, state and nonce that is missing.
    [request_sms_code] and [verify_code_and_get_cookie] raise an
    [AuthError] that carries status and body when their POST is answered
    with a status other than 200, the latter with the text Verification
    failed.  After an accepted code the status of the redirect request
    plays no part: the call returns the cookie string made of the last
    sesid and sesid.sig cookies of the jar when both are there and not
    empty, and raises an [AuthError] otherwise.  Whenever the HTTP client
    raises, on any of the four requests or on reading a body, its own
    exception leaves the step, not an [AuthError]. *)
Theorem login_walker_outcomes :
  (forall s,
      snd (start_login s)
      = match server (traffic s) login_page_request with
        | NoResponse msg => Raise (ClientError msg)
        | Responds resp _ =>
            match text resp with
            | Unreadable msg => Raise (ClientError msg)
            | Body html =>
                match find_csrf html with
                | None =>
                    Raise (AuthError
                             (lit "Could not find _csrf token in login page"))
                | Some token =>
                    match find_param "state" (final_url resp) html with
                    | Some (c :: st) =>
                        match find_param "nonce" (final_url resp) html with
                        | Some (d :: n) =>
                            Ok {| state := c :: st; csrf := token;
                                  nonce := d :: n;
                                  login_url := final_url resp |}
                        | _ =>
                            Raise (AuthError
                                     (lit "Could not find nonce in login page"))
                        end
                    | _ =>
                        Raise (AuthError
                                 (lit "Could not find state in login page"))
                    end
                end
            end
        end)
  /\ (forall s a phone,
        snd (request_sms_code a phone s)
        = match server (traffic s) (sms_request a phone) with
          | NoResponse msg => Raise (ClientError msg)
          | Responds resp _ =>
              if (status resp =? 200)%Z then Ok tt
              else
                match text resp with
                | Unreadable msg => Raise (ClientError msg)
                | Body body =>
                    Raise (AuthError (lit "Failed to request SMS code: "
                                      ++ str_of_int (status resp) ++ lit " "
                                      ++ body))
                end
          end)
  /\ (forall s a phone code,
        snd (verify_code_and_get_cookie a phone code s)
        = match server (traffic s)
                  (verify_request (login_url a) phone code) with
          | NoResponse msg => Raise (ClientError msg)
          | Responds resp _ =>
              if (status resp =? 200)%Z then
                match server
                        (traffic s ++ [verify_request (login_url a) phone code])
                        (verify_redirect_request a (login_url a) phone code)
                with
                | NoResponse msg => Raise (ClientError msg)
                | Responds _ jar =>
                    match last_cookie (lit "sesid") jar,
                          last_cookie (lit "sesid.sig") jar with
                    | Some (c :: sesid), Some (d :: sesid_sig) =>
                        Ok (lit "sesid=" ++ (c :: sesid) ++ lit "; sesid.sig="
                            ++ (d :: sesid_sig))
                    | _, _ =>
                        Raise (AuthError
                                 (lit "Failed to obtain Vibbo session cookies after login"))
                    end
                end
              else
                match text resp with
                | Unreadable msg => Raise (ClientError msg)
                | Body body =>
                    Raise (AuthError (lit "Verification failed: "
                                      ++ str_of_int (status resp) ++ lit " "
                                      ++ body))
                end
          end)
  /\ (forall code body,
        contains_str (lit "Verification failed")
          (lit "Verification failed: " ++ str_of_int code ++ lit " " ++ body)
        = true)
  /\ (forall key jar,
        (forall v, last_cookie key jar = Some v -> In (key, v) jar)
        /\ (last_cookie key jar = None <-> ~ has_cookie key jar)).
Proof.
  repeat apply conj.
  - intros s.
    destruct (server (traffic s) login_page_request) as [msg | resp jar]
      eqn:Hsrv.
    + unfold start_login, cbind.
      rewrite (request_no_response _ _ Hsrv); reflexivity.
    + destruct (text resp) as [html | msg] eqn:Htext.
      * rewrite (start_login_on_page _ Hsrv Htext).
        destruct (find_csrf html) as [token|]; [|reflexivity].
        cbn zeta.
        destruct (find_param "state" (final_url resp) html) as [[|c st]|];
          try reflexivity.
        destruct (find_param "nonce" (final_url resp) html) as [[|d n]|];
          reflexivity.
      * unfold start_login, cbind.
        rewrite (request_responds _ _ Hsrv), Htext; reflexivity.
  - intros s a phone.
    destruct (server (traffic s) (sms_request a phone)) as [msg | resp jar]
      eqn:Hsrv; unfold request_sms_code, cbind.
    + rewrite (request_no_response _ _ Hsrv); reflexivity.
    + rewrite (request_responds _ _ Hsrv).
      destruct (status resp =? 200)%Z; [reflexivity|].
      destruct (text resp); reflexivity.
  - intros s a phone code.
    destruct (server (traffic s) (verify_request (login_url a) phone code))
      as [msg | resp jar] eqn:Hsrv.
    + unfold verify_code_and_get_cookie, cbind.
      rewrite (request_no_response _ _ Hsrv); reflexivity.
    + destruct (status resp =? 200)%Z eqn:Hst.
      * apply Z.eqb_eq in Hst.
        destruct (server
                    (traffic s ++ [verify_request (login_url a) phone code])
                    (verify_redirect_request a (login_url a) phone code))
          as [msg | resp' jar'] eqn:Hsrv'.
        -- unfold verify_code_and_get_cookie, cbind.
           rewrite (request_responds _ _ Hsrv), Hst;
             cbn [Z.eqb negb ret Pos.eqb].
           rewrite (request_no_response _
                      {| traffic := traffic s
                                    ++ [verify_request (login_url a) phone code];
                         cookie_jar := jar |} Hsrv').
           reflexivity.
        -- rewrite (verify_accepted _ _ _ _ Hsrv Hst Hsrv'), scan_cookies_last.
           destruct (last_cookie (lit "sesid") jar') as [[|c t]|];
             destruct (last_cookie (lit "sesid.sig") jar') as [[|d u]|];
             reflexivity.
      * unfold verify_code_and_get_cookie, cbind.
        rewrite (request_responds _ _ Hsrv), Hst; cbn [negb].
        destruct (text resp); reflexivity.
  - intros code body.
    change (lit "Verification failed: ")
      with (lit "Verification failed" ++ lit ": ").
    rewrite <- app_assoc; apply contains_str_prefix.
  - intros key jar; split;
      [intros v; apply last_cookie_in | apply last_cookie_none].
Qed.

End WalkerOutcomes.

(* ===================================================================== *)
(** ** The organization list (auth.py) *)
(* ===================================================================== *)

Section OrganizationList.

Import Auth Spec.

Context {E : Env}.

Lemma membership_of_built_from (raw : value) (m : Membership) :
  membership_of raw = Ok m <-> built_from raw m.
Proof.
  split; [apply membership_of_fields|].
  intros [d [-> [Hn [Hs [Hnum [Hr Hid]]]]]].
  unfold membership_of; cbn [getitem get Py.bind].
  rewrite Hn; cbn [Py.bind]; rewrite Hs; cbn [Py.bind].
  destruct m as [n sl i num r]; cbn in Hnum, Hr, Hid; subst num r i.
  reflexivity.
Qed.

Lemma built_from_all (raws : list value) (ms : list Membership) :
  Forall2 (fun raw m => membership_of raw = Ok m) raws ms
  <-> Forall2 built_from raws ms.
Proof.
  split; induction 1; constructor; try assumption;
    apply membership_of_built_from; assumption.
Qed.

(** The loop collects every eligible item of a list of dicts. *)
Lemma collect_memberships_complete (items : list value)
    (ms : list Membership) :
  Forall (fun raw => is_dict raw = true) items ->
  Forall2 built_from (filter vibbo_enabled items) ms ->
  collect_memberships items = Ok ms.
Proof.
  intros Hd; revert ms; induction Hd as [|raw items Hraw _ IH]; intros ms H.
  - inversion H; reflexivity.
  - destruct raw; try discriminate.
    cbn [collect_memberships get Py.bind]; cbn [filter] in H.
    unfold vibbo_enabled in H at 1; cbn [get] in H.
    destruct (truthy (dict_get d (lit "vibboEnabled") VNone)); [|apply IH; exact H].
    inversion H as [|r m rs ms' Hm Hrest]; subst.
    apply membership_of_built_from in Hm.
    unfold membership_of in Hm; cbn [getitem get Py.bind] in Hm |- *.
    destruct (lookup (lit "name") d); [|discriminate]; cbn [Py.bind] in *.
    destruct (lookup (lit "slug") d); [|discriminate]; cbn [Py.bind] in *.
    rewrite (IH _ Hrest); cbn [Py.bind].
    injection Hm as <-; reflexivity.
Qed.

Lemma memberships_of_reply_some (data : value) (items : list value)
    (ms : list Membership) :
  reply_items data = Ok items ->
  collect_memberships items = Ok ms ->
  ms <> [] ->
  memberships_of_reply data = Ok ms.
Proof.
  unfold memberships_of_reply, reply_items.
  destruct (get data (lit "data") (VDict [])) as [d|]; cbn [Py.bind];
    [|discriminate].
  destruct (get d (lit "viewer") VNone) as [viewer|]; cbn [Py.bind];
    [|discriminate].
  destruct (truthy viewer); cbn [negb].
  - destruct (get viewer (lit "memberships") (VList [])) as [raw|];
      cbn [Py.bind]; [|discriminate].
    destruct (iter raw) as [its|]; cbn [Py.bind]; [|discriminate].
    intros [= ->] -> Hne; cbn [Py.bind].
    destruct ms; [contradiction Hne|]; reflexivity.
  - intros [= <-] [= <-] Hne; contradiction Hne; reflexivity.
Qed.

Lemma fetch_organizations_returns (cookie : value) (s : Session)
    (data : value) (items : list value) (ms : list Membership) :
  snd (_graphql cookie (lit "vibboOrganizations")
         VIBBO_ORGANIZATIONS_QUERY None s) = Ok data ->
  reply_items data = Ok items ->
  Forall (fun raw => is_dict raw = true) items ->
  Forall2 built_from (filter vibbo_enabled items) ms ->
  ms <> [] ->
  snd (fetch_organizations cookie s) = Ok ms.
Proof.
  intros Hq Hit Hd Hms Hne.
  rewrite (fetch_organizations_of_reply _ _ Hq).
  apply (memberships_of_reply_some _ Hit); [|exact Hne].
  apply collect_memberships_complete; assumption.
Qed.

Lemma fetch_organizations_returned (cookie : value) (s : Session)
    (ms : list Membership) :
  snd (fetch_organizations cookie s) = Ok ms ->
  ms <> []
  /\ exists data items,
       snd (_graphql cookie (lit "vibboOrganizations")
              VIBBO_ORGANIZATIONS_QUERY None s) = Ok data
       /\ reply_items data = Ok items
       /\ Forall2 built_from (filter vibbo_enabled items) ms.
Proof.
  intros Hok.
  apply fetch_organizations_ok in Hok as [data [Hq Hms]].
  apply memberships_of_reply_ok in Hms as [Hne [items [Hit Hcol]]].
  split; [exact Hne|].
  exists data, items; repeat split; try assumption.
  apply built_from_all, collect_memberships_spec; exact Hcol.
Qed.

(** Items with a name and a slug each have their membership. *)
Lemma named_items_build (raws : list value) :
  Forall named_item raws -> exists ms, Forall2 built_from raws ms.
Proof.
  induction 1 as [|raw raws [d [n [sl [-> [Hn Hs]]]]] _ [ms IH]].
  - exists []; constructor.
  - exists (new_Membership n sl
              (dict_get d (lit "obosCompanyNumber") (VStr []))
              (dict_get d (lit "roles") (VList [])) :: ms).
    constructor; [|exact IH].
    exists d; repeat split; assumption.
Qed.

(** C9, as the code has it: of a reply whose memberships are a list of
    dicts, the call returns the items whose vibboEnabled field is truthy,
    each as its [Membership], in order, the others being dropped; it does
    return them whenever there is one; the list returned is never empty;
    and with no eligible item the call raises [AuthError]. *)
Theorem fetch_organizations_only_enabled (cookie : value) (s : Session) :
  (forall ms,
      snd (fetch_organizations cookie s) = Ok ms ->
      ms <> []
      /\ exists data items,
           snd (_graphql cookie (lit "vibboOrganizations")
                  VIBBO_ORGANIZATIONS_QUERY None s) = Ok data
           /\ reply_items data = Ok items
           /\ Forall2 built_from (filter vibbo_enabled items) ms)
  /\ (forall data items ms,
        snd (_graphql cookie (lit "vibboOrganizations")
               VIBBO_ORGANIZATIONS_QUERY None s) = Ok data ->
        reply_items data = Ok items ->
        Forall (fun raw => is_dict raw = true) items ->
        Forall2 built_from (filter vibbo_enabled items) ms ->
        ms <> [] ->
        snd (fetch_organizations cookie s) = Ok ms)
  /\ (forall data items,
        snd (_graphql cookie (lit "vibboOrganizations")
               VIBBO_ORGANIZATIONS_QUERY None s) = Ok data ->
        reply_items data = Ok items ->
        Forall (fun raw => is_dict raw = true) items ->
        filter vibbo_enabled items = [] ->
        exists msg,
          snd (fetch_organizations cookie s) = Raise (AuthError msg)
          /\ (msg = lit "No viewer data in response"
              \/ msg = lit "No Vibbo-enabled organizations found for this account")).
Proof.
  repeat apply conj.
  - apply fetch_organizations_returned.
  - apply fetch_organizations_returns.
  - intros data items Hq Hit Hd Hnone.
    rewrite (fetch_organizations_of_reply _ _ Hq).
    destruct (memberships_of_reply_none _ Hit
                (collect_memberships_none Hd Hnone)) as [-> | ->];
      eexists; split; try reflexivity; auto.
Qed.

(** C4, as the code has it: the memberships returned stand, one for one
    and in order, for the eligible items of the reply; each takes name and
    slug from its item, company number and roles too (empty when the item
    has none), and its organization id is the empty string the dataclass
    defaults to.  The call does return them when the memberships are dicts
    and the eligible ones, at least one, have a name and a slug. *)
Theorem fetch_organizations_membership_fields
    (cookie : value) (s : Session) :
  (forall ms,
      snd (fetch_organizations cookie s) = Ok ms ->
      Forall (fun m => org_id m = VStr [] /\ truthy (org_id m) = false) ms
      /\ exists data items,
           snd (_graphql cookie (lit "vibboOrganizations")
                  VIBBO_ORGANIZATIONS_QUERY None s) = Ok data
           /\ reply_items data = Ok items
           /\ Forall2 built_from (filter vibbo_enabled items) ms)
  /\ (forall data items,
        snd (_graphql cookie (lit "vibboOrganizations")
               VIBBO_ORGANIZATIONS_QUERY None s) = Ok data ->
        reply_items data = Ok items ->
        Forall (fun raw => is_dict raw = true) items ->
        Forall named_item (filter vibbo_enabled items) ->
        filter vibbo_enabled items <> [] ->
        exists ms,
          snd (fetch_organizations cookie s) = Ok ms
          /\ Forall2 built_from (filter vibbo_enabled items) ms).
Proof.
  split.
  - intros ms Hok.
    destruct (fetch_organizations_returned _ _ Hok)
      as [_ [data [items [Hq [Hit Hms]]]]].
    split; [|exists data, items; repeat split; assumption].
    clear Hq Hit Hok.
    induction Hms as [|raw m raws ms [d [_ [_ [_ [_ [_ Hid]]]]]] _ IH];
      constructor; [|exact IH].
    rewrite Hid; split; reflexivity.
  - intros data items Hq Hit Hd Hnamed Hsome.
    destruct (named_items_build Hnamed) as [ms Hms].
    exists ms; split; [|exact Hms].
    apply (fetch_organizations_returns _ _ Hq Hit Hd Hms).
    intros ->; inversion Hms as [Hnil|]; apply Hsome; symmetry; exact Hnil.
Qed.

End OrganizationList.

Section OutcomesOnFixtures.

Import Auth Spec Fixture.

Lemma login_walker_outcomes_witness :
  snd (@start_login (scripted (setup_script organizations_reply))
         (new_session [])) = Ok auth_session
  /\ snd (@start_login offline (new_session []))
     = Raise (ClientError (lit "offline"))
  /\ snd (@request_sms_code (scripted (setup_script organizations_reply))
            auth_session (lit "+4799999999") (session_after 1 [])) = Ok tt
  /\ snd (@request_sms_code (scripted (interrupted_script 1))
            auth_session (lit "+4799999999") (session_after 1 []))
     = Raise (ClientError (lit "offline"))
  /\ snd (@verify_code_and_get_cookie (scripted rejected_script)
            auth_session (VStr (lit "+4799999999")) (lit "000000")
            (session_after 2 []))
     = Raise (AuthError (lit "Verification failed: 403 Wrong code"))
  /\ snd (@verify_code_and_get_cookie
            (scripted (setup_script organizations_reply))
            auth_session (VStr (lit "+4799999999")) (lit "123456")
            (session_after 2 [])) = Ok cookie
  /\ snd (@verify_code_and_get_cookie (scripted (interrupted_script 2))
            auth_session (VStr (lit "+4799999999")) (lit "123456")
            (session_after 2 []))
     = Raise (ClientError (lit "offline"))
  /\ snd (@verify_code_and_get_cookie (scripted (interrupted_script 3))
            auth_session (VStr (lit "+4799999999")) (lit "123456")
            (session_after 2 []))
     = Raise (ClientError (lit "offline")).
Proof.
  repeat apply conj.
  - rewrite (proj1 (@login_walker_outcomes
                      (scripted (setup_script organizations_reply)))).
    reflexivity.
  - rewrite (proj1 (@login_walker_outcomes offline)); reflexivity.
  - rewrite (proj1 (proj2 (@login_walker_outcomes
                             (scripted (setup_script organizations_reply))))).
    reflexivity.
  - rewrite (proj1 (proj2 (@login_walker_outcomes
                             (scripted (interrupted_script 1))))).
    reflexivity.
  - rewrite (proj1 (proj2 (proj2 (@login_walker_outcomes
                                    (scripted rejected_script))))).
    reflexivity.
  - rewrite (proj1 (proj2 (proj2 (@login_walker_outcomes
                                    (scripted
                                       (setup_script organizations_reply)))))).
    reflexivity.
  - rewrite (proj1 (proj2 (proj2 (@login_walker_outcomes
                                    (scripted (interrupted_script 2)))))).
    reflexivity.
  - rewrite (proj1 (proj2 (proj2 (@login_walker_outcomes
                                    (scripted (interrupted_script 3)))))).
    reflexivity.
Defined.

(** Where C3 as worded fails.  With the network down the first step ends
    in the client's own exception, neither a cookie nor an [AuthError];
    and a redirect chain that has set both session cookies and ends in
    status 500 makes the last step return the cookie string, not raise. *)
Lemma login_walker_as_worded_counterexample :
  snd (@start_login offline (new_session []))
  = Raise (ClientError (lit "offline"))
  /\ ~ (forall (E : Env) (s : Session),
          (exists a, snd (@start_login E s) = Ok a)
          \/ (exists msg, snd (@start_login E s) = Raise (AuthError msg)))
  /\ (@server (scripted failed_redirect_script)
        (traffic (session_after 2 [])
         ++ [verify_request login_url (VStr (lit "+4799999999"))
               (lit "123456")])
        (verify_redirect_request auth_session login_url
           (VStr (lit "+4799999999")) (lit "123456"))
      = Responds (text_response 500 (lit "https://vibbo.no/organisasjoner")
                    (lit "Internal Server Error")) session_cookies
      /\ snd (@verify_code_and_get_cookie (scripted failed_redirect_script)
                auth_session (VStr (lit "+4799999999")) (lit "123456")
                (session_after 2 [])) = Ok cookie)
  /\ ~ (forall (E : Env) s a phone code resp jar,
          @server E
            (traffic s ++ [verify_request (Auth.login_url a) phone code])
            (verify_redirect_request a (Auth.login_url a) phone code)
          = Responds resp jar ->
          status resp <> 200%Z ->
          exists msg,
            snd (@verify_code_and_get_cookie E a phone code s)
            = Raise (AuthError msg)).
Proof.
  split; [reflexivity|]. split; [|split; [split; reflexivity|]].
  - intros H; destruct (H offline (new_session [])) as [[a Ha] | [msg Hm]].
    + vm_compute in Ha; discriminate Ha.
    + vm_compute in Hm; discriminate Hm.
  - intros H.
    destruct (H (scripted failed_redirect_script) (session_after 2 [])
                auth_session (VStr (lit "+4799999999")) (lit "123456")
                (text_response 500 (lit "https://vibbo.no/organisasjoner")
                   (lit "Internal Server Error"))
                session_cookies eq_refl) as [msg Hm].
    + vm_compute; discriminate.
    + vm_compute in Hm; discriminate Hm.
Qed.

Lemma fetch_organizations_only_enabled_witness :
  snd (@fetch_organizations
         (scripted [Responds (json_response 200 organizations_reply) []])
         (VStr cookie) (new_session [])) = Ok [solsiden]
  /\ (exists data items,
         snd (@_graphql
                (scripted [Responds (json_response 200 organizations_reply) []])
                (VStr cookie) (lit "vibboOrganizations")
                VIBBO_ORGANIZATIONS_QUERY None (new_session [])) = Ok data
         /\ reply_items data = Ok items
         /\ Forall2 built_from (filter vibbo_enabled items) [solsiden])
  /\ exists msg,
       snd (@fetch_organizations
              (scripted [Responds (json_response 200 none_enabled_reply) []])
              (VStr cookie) (new_session [])) = Raise (AuthError msg).
Proof.
  pose proof (@fetch_organizations_only_enabled
                (scripted [Responds (json_response 200 organizations_reply) []])
                (VStr cookie) (new_session [])) as [Hret [Hgive _]].
  assert (Hrun :
            snd (@fetch_organizations
                   (scripted
                      [Responds (json_response 200 organizations_reply) []])
                   (VStr cookie) (new_session [])) = Ok [solsiden]).
  { apply (Hgive organizations_reply [solsiden_item; skyggesiden_item]);
      try reflexivity.
    - repeat constructor.
    - change (filter vibbo_enabled [solsiden_item; skyggesiden_item])
        with [solsiden_item].
      constructor; [|constructor].
      eexists; repeat split; reflexivity.
    - discriminate. }
  split; [exact Hrun|]. split; [exact (proj2 (Hret _ Hrun))|].
  destruct (proj2 (proj2 (@fetch_organizations_only_enabled
             (scripted [Responds (json_response 200 none_enabled_reply) []])
             (VStr cookie) (new_session []))) none_enabled_reply
             [skyggesiden_item] eq_refl eq_refl) as [msg [Hm _]].
  - repeat constructor.
  - reflexivity.
  - exists msg; exact Hm.
Defined.

(** Where C9 as worded fails: a viewer whose memberships are null, or
    hold a null, has no enabled membership, and the call ends in a
    [TypeError] or an [AttributeError], not in an [AuthError]. *)
Lemma fetch_organizations_null_memberships_counterexample :
  snd (@fetch_organizations
         (scripted [Responds (json_response 200 null_memberships_reply) []])
         (VStr cookie) (new_session [])) = Raise TypeError
  /\ snd (@fetch_organizations
            (scripted [Responds (json_response 200 null_item_reply) []])
            (VStr cookie) (new_session [])) = Raise AttributeError
  /\ ~ (forall (E : Env) cookie s data,
          snd (@_graphql E cookie (lit "vibboOrganizations")
                 VIBBO_ORGANIZATIONS_QUERY None s) = Ok data ->
          (exists ms, snd (@fetch_organizations E cookie s) = Ok ms)
          \/ (exists msg,
                snd (@fetch_organizations E cookie s)
                = Raise (AuthError msg))).
Proof.
  split; [reflexivity|]. split; [reflexivity|].
  intros H.
  destruct (H (scripted [Responds (json_response 200 null_memberships_reply) []])
              (VStr cookie) (new_session []) null_memberships_reply eq_refl)
    as [[ms Hms] | [msg Hm]].
  - vm_compute in Hms; discriminate Hms.
  - vm_compute in Hm; discriminate Hm.
Qed.

Lemma fetch_organizations_membership_fields_witness :
  (exists ms,
      snd (@fetch_organizations
             (scripted [Responds (json_response 200 organizations_reply) []])
             (VStr cookie) (new_session [])) = Ok ms
      /\ Forall2 built_from [solsiden_item] ms)
  /\ Forall (fun m => org_id m = VStr [] /\ truthy (org_id m) = false)
       [solsiden].
Proof.
  pose proof (@fetch_organizations_membership_fields
                (scripted [Responds (json_response 200 organizations_reply) []])
                (VStr cookie) (new_session [])) as [Hfields Hgive].
  split.
  - apply (Hgive organizations_reply [solsiden_item; skyggesiden_item]);
      try reflexivity.
    + repeat constructor.
    + change (filter vibbo_enabled [solsiden_item; skyggesiden_item])
        with [solsiden_item].
      constructor; [|constructor].
      exists [ (lit "name", VStr (lit "Solsiden Borettslag"));
               (lit "roles", VList [ VStr (lit "RESIDENT") ]);
               (lit "obosCompanyNumber", VStr (lit "123"));
               (lit "slug", VStr (lit "solsiden"));
               (lit "vibboEnabled", VBool true) ],
             (VStr (lit "Solsiden Borettslag")), (VStr (lit "solsiden")).
      repeat split; reflexivity.
    + discriminate.
  - exact (proj1 (Hfields [solsiden] eq_refl)).
Defined.

End OutcomesOnFixtures.
